(** * Automotive sales chatbot: the SQL agent facade, the warehouse wrappers
      and the configuration, embedded from the Python sources

    The development follows the modules of the application:
    - [config] / [config_aws]      : [app/config.py], [app/config_aws.py]
    - [database] / [database_aws]  : [app/database.py], [app/database_aws.py]
    - [agent] / [agent_aws]        : [app/agent.py], [app/agent_aws.py]

    Python exceptions are an explicit error result, object attributes that
    are assigned in place ([self._db], [self._agent]) are explicit state,
    dictionaries are finite maps keyed by strings. *)

From Stdlib Require Import ZArith Ascii String List Lia Bool.
From stdpp Require Import base option list strings pretty gmap.

Local Open Scope string_scope.

(** ** Python results: a value or a raised [Exception] *)

(** [Raise msg] stands for a raised instance of [Exception] (or of one of its
    subclasses), [msg] being what [str(e)] gives.  Every handler of the
    modelled sources is [except Exception as e], and the only thing a handler
    ever does with [e] is [str(e)]. *)
Inductive py (A : Type) : Type :=
| Ret (a : A)
| Raise (msg : string).
Arguments Ret {A} a.
Arguments Raise {A} msg.

Definition py_bind {A B} (c : py A) (k : A -> py B) : py B :=
  match c with
  | Ret a => k a
  | Raise msg => Raise msg
  end.

Definition returns {A} (c : py A) : Prop := exists a, c = Ret a.

(** Methods of an object whose attributes are assigned in place: the object
    goes in, the outcome and the object as the call left it come out.  An
    assignment made before a raise stays made. *)
Definition M (S A : Type) : Type := S -> py A * S.

Definition ret {S A} (a : A) : M S A := fun s => (Ret a, s).
Definition raise {S A} (msg : string) : M S A := fun s => (Raise msg, s).
Definition bind {S A B} (c : M S A) (k : A -> M S B) : M S B :=
  fun s => match c s with
           | (Ret a, s') => k a s'
           | (Raise msg, s') => (Raise msg, s')
           end.
Definition lift {S A} (c : py A) : M S A := fun s => (c, s).
Definition read {S} : M S S := fun s => (Ret s, s).
Definition assign {S} (f : S -> S) : M S unit := fun s => (Ret tt, f s).

(** [try: body / except Exception as e: handler(str(e))] *)
Definition try_except {S A} (body : M S A) (handler : string -> M S A) : M S A :=
  fun s => match body s with
           | (Ret a, s') => (Ret a, s')
           | (Raise msg, s') => handler msg s'
           end.

(** Run a method of a component object held in a field of a larger one. *)
Definition within {S T A} (proj : S -> T) (upd : T -> S -> S) (c : M T A) : M S A :=
  fun s => let '(r, t') := c (proj s) in (r, upd t' s).

(** Sequencing is written with the monad notations of stdpp:
    [x ← c; k] and [c;; k]. *)
#[global] Instance py_ret : MRet py := @Ret.
#[global] Instance py_mbind : MBind py := fun A B k c => py_bind c k.
#[global] Instance py_fmap : FMap py := fun A B f c => py_bind c (fun a => Ret (f a)).
#[global] Instance M_ret {S} : MRet (M S) := @ret S.
#[global] Instance M_mbind {S} : MBind (M S) := fun A B k c => bind c k.

(** ** Python strings *)

Module pystr.

(** [str.lower] on the bytes of the text.  Bytes above 127 are left as they
    are; no character outside ASCII lowers to one of [s], [q], [l], so the
    membership test on tool names below is not affected. *)
Definition lower_ascii (c : ascii) : ascii :=
  let n := nat_of_ascii c in
  if (65 <=? n)%nat && (n <=? 90)%nat then ascii_of_nat (n + 32) else c.

Fixpoint lower (s : string) : string :=
  match s with
  | EmptyString => EmptyString
  | String c t => String (lower_ascii c) (lower t)
  end.

(** [needle in hay] for two strings *)
Fixpoint contains (needle hay : string) : bool :=
  String.prefix needle hay ||
  match hay with
  | EmptyString => false
  | String _ t => contains needle t
  end.

(** [s.startswith(p)] *)
Definition startswith (p s : string) : bool := String.prefix p s.

(** Characters [str.strip] and [int] treat as white space, in ASCII. *)
Definition is_space (c : ascii) : bool :=
  let n := nat_of_ascii c in
  ((9 <=? n)%nat && (n <=? 13)%nat) || ((28 <=? n)%nat && (n <=? 32)%nat).

Fixpoint lstrip (s : string) : string :=
  match s with
  | String c t => if is_space c then lstrip t else s
  | EmptyString => EmptyString
  end.

Fixpoint rstrip (s : string) : string :=
  match s with
  | EmptyString => EmptyString
  | String c t =>
      match rstrip t with
      | EmptyString => if is_space c then EmptyString else String c EmptyString
      | t' => String c t'
      end
  end.

Definition strip (s : string) : string := rstrip (lstrip s).

Definition digit_of (c : ascii) : option Z :=
  let n := nat_of_ascii c in
  if (48 <=? n)%nat && (n <=? 57)%nat then Some (Z.of_nat (n - 48)) else None.

(** Digits of a decimal literal; a single underscore may separate two
    digits.  [acc] is the value read so far, [after_digit] tells whether
    the previous character was a digit. *)
Fixpoint digits (s : string) (acc : Z) (after_digit : bool) : option Z :=
  match s with
  | EmptyString => if after_digit then Some acc else None
  | String c t =>
      match digit_of c with
      | Some d => digits t (10 * acc + d) true
      | None =>
          if Ascii.eqb c "_" && after_digit
          then match t with
               | String c' _ =>
                   match digit_of c' with
                   | Some _ => digits t acc false
                   | None => None
                   end
               | EmptyString => None
               end
          else None
      end
  end.

Definition int_literal (s : string) : option Z :=
  match strip s with
  | String "-" t => Z.opp <$> digits t 0 false
  | String "+" t => digits t 0 false
  | t => digits t 0 false
  end.

(** [int(s)] for a string [s]: the value, or [ValueError]. *)
Definition int (s : string) : py Z :=
  match int_literal s with
  | Some z => Ret z
  | None => Raise ("invalid literal for int() with base 10: '" +:+ s +:+ "'")
  end.

(** [str(n)] for a non-negative count and for an integer *)
Definition of_Z (z : Z) : string := pretty z.

End pystr.

(** ** [os.environ] and [os.getenv] *)

Module os.

(** The process environment as the class bodies below find it, that is
    after [load_dotenv()] has run. *)
Abbreviation environ := (gmap string string).

(** [os.getenv(key, default)] *)
Definition getenv (env : environ) (key fallback : string) : string :=
  default fallback (env !! key).

(** [os.getenv(key)] *)
Definition getenv_opt (env : environ) (key : string) : option string :=
  env !! key.

End os.

(** ** [app/config.py] *)

Module config.
Section Config.

(** [float(...)] of the two sampling settings: the parsed value is of no
    concern here, that the parse may raise is. *)
Context {float : Type} (py_float : string -> py float).

Record Config : Type := {
  PROJECT_ID : string;
  LOCATION : string;
  BIGQUERY_DATASET : string;
  BIGQUERY_LOCATION : string;
  GEMINI_MODEL : string;
  GEMINI_TEMPERATURE : float;
  GEMINI_MAX_OUTPUT_TOKENS : Z;
  GEMINI_TOP_P : float;
  GEMINI_TOP_K : Z;
  GOOGLE_APPLICATION_CREDENTIALS : option string;
  APP_TITLE : string;
  MAX_CHAT_HISTORY : Z;
  LANGCHAIN_TRACING_V2 : bool;
  LANGCHAIN_API_KEY : option string;
  LANGCHAIN_PROJECT : option string;
  SQL_AGENT_MAX_ITERATIONS : Z;
  SQL_AGENT_MAX_EXECUTION_TIME : Z;
  SQL_TOP_K_RESULTS : Z;
  LOG_LEVEL : string;
  SESSION_TIMEOUT_MINUTES : Z
}.

(** The three assignments under [# SQL Agent Configuration]. *)
Definition sql_agent_configuration (env : os.environ) : py (Z * Z * Z) :=
  max_iterations ← pystr.int (os.getenv env "SQL_AGENT_MAX_ITERATIONS" "15");
  max_execution_time ← pystr.int (os.getenv env "SQL_AGENT_MAX_EXECUTION_TIME" "100");
  top_k ← pystr.int (os.getenv env "SQL_TOP_K_RESULTS" "10");
  mret (max_iterations, max_execution_time, top_k).

(** The body of [class Config], evaluated top to bottom when the module is
    imported; the first conversion that raises ends it.  ([APP_ICON], a
    literal, is left out.) *)
Definition class_Config (env : os.environ) : py Config :=
  temperature ← py_float (os.getenv env "GEMINI_TEMPERATURE" "0.1");
  max_output_tokens ← pystr.int (os.getenv env "GEMINI_MAX_OUTPUT_TOKENS" "2048");
  top_p ← py_float (os.getenv env "GEMINI_TOP_P" "0.95");
  top_k ← pystr.int (os.getenv env "GEMINI_TOP_K" "40");
  max_chat_history ← pystr.int (os.getenv env "MAX_CHAT_HISTORY" "10");
  sql_agent ← sql_agent_configuration env;
  session_timeout ← pystr.int (os.getenv env "SESSION_TIMEOUT_MINUTES" "30");
  mret {|
    PROJECT_ID := os.getenv env "GCP_PROJECT_ID" "YOUR_PROJECT_ID";
    LOCATION := os.getenv env "GCP_LOCATION" "us-central1";
    BIGQUERY_DATASET := os.getenv env "BIGQUERY_DATASET" "automotive_data";
    BIGQUERY_LOCATION := os.getenv env "BIGQUERY_LOCATION" "US";
    GEMINI_MODEL := os.getenv env "GEMINI_MODEL" "gemini-2.0-flash-lite-001";
    GEMINI_TEMPERATURE := temperature;
    GEMINI_MAX_OUTPUT_TOKENS := max_output_tokens;
    GEMINI_TOP_P := top_p;
    GEMINI_TOP_K := top_k;
    GOOGLE_APPLICATION_CREDENTIALS := os.getenv_opt env "GOOGLE_APPLICATION_CREDENTIALS";
    APP_TITLE := "Automotive Sales Analytics Chatbot";
    MAX_CHAT_HISTORY := max_chat_history;
    LANGCHAIN_TRACING_V2 :=
      String.eqb (pystr.lower (os.getenv env "LANGCHAIN_TRACING_V2" "false")) "true";
    LANGCHAIN_API_KEY := os.getenv_opt env "LANGCHAIN_API_KEY";
    LANGCHAIN_PROJECT := os.getenv_opt env "LANGCHAIN_PROJECT";
    SQL_AGENT_MAX_ITERATIONS := sql_agent.1.1;
    SQL_AGENT_MAX_EXECUTION_TIME := sql_agent.1.2;
    SQL_TOP_K_RESULTS := sql_agent.2;
    LOG_LEVEL := os.getenv env "LOG_LEVEL" "INFO";
    SESSION_TIMEOUT_MINUTES := session_timeout
  |}.

(** [Config.get_bigquery_uri] *)
Definition get_bigquery_uri (cls : Config) : string :=
  "bigquery://" +:+ PROJECT_ID cls +:+ "/" +:+ BIGQUERY_DATASET cls.

End Config.
Arguments Config : clear implicits.
End config.

(** ** [app/config_aws.py] *)

Module config_aws.
Section ConfigAWS.

Context {float : Type} (py_float : string -> py float).

Record ConfigAWS : Type := {
  AWS_REGION : string;
  AWS_ACCOUNT_ID : string;
  REDSHIFT_HOST : string;
  REDSHIFT_PORT : Z;
  REDSHIFT_DATABASE : string;
  REDSHIFT_SCHEMA : string;
  REDSHIFT_USER : string;
  REDSHIFT_PASSWORD : string;
  REDSHIFT_USE_IAM : bool;
  REDSHIFT_CLUSTER_IDENTIFIER : string;
  BEDROCK_MODEL_ID : string;
  BEDROCK_TEMPERATURE : float;
  BEDROCK_MAX_TOKENS : Z;
  BEDROCK_TOP_P : float;
  BEDROCK_TOP_K : Z;
  AWS_ACCESS_KEY_ID : option string;
  AWS_SECRET_ACCESS_KEY : option string;
  AWS_SESSION_TOKEN : option string;
  APP_TITLE : string;
  MAX_CHAT_HISTORY : Z;
  LANGCHAIN_TRACING_V2 : bool;
  LANGCHAIN_API_KEY : option string;
  LANGCHAIN_PROJECT : option string;
  SQL_AGENT_MAX_ITERATIONS : Z;
  SQL_AGENT_MAX_EXECUTION_TIME : Z;
  SQL_TOP_K_RESULTS : Z;
  LOG_LEVEL : string;
  CLOUDWATCH_LOG_GROUP : string;
  CLOUDWATCH_LOG_STREAM : string;
  SESSION_TIMEOUT_MINUTES : Z
}.

(** The three assignments under [# SQL Agent Configuration]. *)
Definition sql_agent_configuration (env : os.environ) : py (Z * Z * Z) :=
  max_iterations ← pystr.int (os.getenv env "SQL_AGENT_MAX_ITERATIONS" "15");
  max_execution_time ← pystr.int (os.getenv env "SQL_AGENT_MAX_EXECUTION_TIME" "100");
  top_k ← pystr.int (os.getenv env "SQL_TOP_K_RESULTS" "10");
  mret (max_iterations, max_execution_time, top_k).

(** The body of [class ConfigAWS], top to bottom ([APP_ICON] left out). *)
Definition class_ConfigAWS (env : os.environ) : py ConfigAWS :=
  port ← pystr.int (os.getenv env "REDSHIFT_PORT" "5439");
  temperature ← py_float (os.getenv env "BEDROCK_TEMPERATURE" "0.1");
  max_tokens ← pystr.int (os.getenv env "BEDROCK_MAX_TOKENS" "2048");
  top_p ← py_float (os.getenv env "BEDROCK_TOP_P" "0.95");
  top_k ← pystr.int (os.getenv env "BEDROCK_TOP_K" "250");
  max_chat_history ← pystr.int (os.getenv env "MAX_CHAT_HISTORY" "10");
  sql_agent ← sql_agent_configuration env;
  session_timeout ← pystr.int (os.getenv env "SESSION_TIMEOUT_MINUTES" "30");
  mret {|
    AWS_REGION := os.getenv env "AWS_REGION" "us-east-1";
    AWS_ACCOUNT_ID := os.getenv env "AWS_ACCOUNT_ID" "YOUR_ACCOUNT_ID";
    REDSHIFT_HOST :=
      os.getenv env "REDSHIFT_HOST" "your-cluster.region.redshift.amazonaws.com";
    REDSHIFT_PORT := port;
    REDSHIFT_DATABASE := os.getenv env "REDSHIFT_DATABASE" "automotive_data";
    REDSHIFT_SCHEMA := os.getenv env "REDSHIFT_SCHEMA" "public";
    REDSHIFT_USER := os.getenv env "REDSHIFT_USER" "admin";
    REDSHIFT_PASSWORD := os.getenv env "REDSHIFT_PASSWORD" "";
    REDSHIFT_USE_IAM :=
      String.eqb (pystr.lower (os.getenv env "REDSHIFT_USE_IAM" "false")) "true";
    REDSHIFT_CLUSTER_IDENTIFIER :=
      os.getenv env "REDSHIFT_CLUSTER_IDENTIFIER" "automotive-cluster";
    BEDROCK_MODEL_ID :=
      os.getenv env "BEDROCK_MODEL_ID" "anthropic.claude-3-5-sonnet-20241022-v2:0";
    BEDROCK_TEMPERATURE := temperature;
    BEDROCK_MAX_TOKENS := max_tokens;
    BEDROCK_TOP_P := top_p;
    BEDROCK_TOP_K := top_k;
    AWS_ACCESS_KEY_ID := os.getenv_opt env "AWS_ACCESS_KEY_ID";
    AWS_SECRET_ACCESS_KEY := os.getenv_opt env "AWS_SECRET_ACCESS_KEY";
    AWS_SESSION_TOKEN := os.getenv_opt env "AWS_SESSION_TOKEN";
    APP_TITLE := "Automotive Sales Analytics Chatbot (AWS)";
    MAX_CHAT_HISTORY := max_chat_history;
    LANGCHAIN_TRACING_V2 :=
      String.eqb (pystr.lower (os.getenv env "LANGCHAIN_TRACING_V2" "false")) "true";
    LANGCHAIN_API_KEY := os.getenv_opt env "LANGCHAIN_API_KEY";
    LANGCHAIN_PROJECT := os.getenv_opt env "LANGCHAIN_PROJECT";
    SQL_AGENT_MAX_ITERATIONS := sql_agent.1.1;
    SQL_AGENT_MAX_EXECUTION_TIME := sql_agent.1.2;
    SQL_TOP_K_RESULTS := sql_agent.2;
    LOG_LEVEL := os.getenv env "LOG_LEVEL" "INFO";
    CLOUDWATCH_LOG_GROUP := os.getenv env "CLOUDWATCH_LOG_GROUP" "/aws/automotive-chatbot";
    CLOUDWATCH_LOG_STREAM := os.getenv env "CLOUDWATCH_LOG_STREAM" "app";
    SESSION_TIMEOUT_MINUTES := session_timeout
  |}.

(** [ConfigAWS.get_redshift_uri] *)
Definition get_redshift_uri (cls : ConfigAWS) : string :=
  if REDSHIFT_USE_IAM cls
  then "postgresql+psycopg2://" +:+ REDSHIFT_USER cls +:+ "@" +:+ REDSHIFT_HOST cls
       +:+ ":" +:+ pystr.of_Z (REDSHIFT_PORT cls) +:+ "/" +:+ REDSHIFT_DATABASE cls
  else "postgresql+psycopg2://" +:+ REDSHIFT_USER cls +:+ ":" +:+ REDSHIFT_PASSWORD cls
       +:+ "@" +:+ REDSHIFT_HOST cls
       +:+ ":" +:+ pystr.of_Z (REDSHIFT_PORT cls) +:+ "/" +:+ REDSHIFT_DATABASE cls.

End ConfigAWS.
Arguments ConfigAWS : clear implicits.
End config_aws.

(** ** The libraries the wrappers are written against *)

(** What the sources use of [langchain_community.utilities.SQLDatabase], of
    [sqlalchemy] and of [boto3].  These are interfaces: the wrappers below are
    verified for every implementation of them.  An operation is a function of
    its arguments, which is the reading of the warehouse being left alone
    between two calls. *)
Module langchain.

Record SQLDatabase : Type := {
  run : string -> py string;
  get_table_info : option (list string) -> py string;
  get_usable_table_names : py (list string)
}.

End langchain.

Module sqlalchemy.

Record api (engine : Type) : Type := {
  (** [create_engine(uri, poolclass=pool.NullPool, echo=False,
      connect_args=...)] *)
  create_engine : string -> list (string * string) -> py engine;
  (** [SQLDatabase(engine=..., schema=..., sample_rows_in_table_info=...,
      max_string_length=...)] *)
  SQLDatabase : engine -> option string -> nat -> nat -> py langchain.SQLDatabase
}.
Arguments create_engine {engine} _ _ _.
Arguments SQLDatabase {engine} _ _ _ _ _.

End sqlalchemy.

Module boto3.

Record api (client : Type) : Type := {
  (** [boto3.client(service, region_name=...)] *)
  client_new : string -> string -> py client;
  (** [client.get_cluster_credentials(DbUser=..., DbName=...,
      ClusterIdentifier=..., DurationSeconds=..., AutoCreate=...)] *)
  get_cluster_credentials :
    client -> string -> string -> string -> Z -> bool -> py (gmap string string)
}.
Arguments client_new {client} _ _ _.
Arguments get_cluster_credentials {client} _ _ _ _ _ _ _.

End boto3.

(** [d[key]] on a dictionary of strings: the value, or [KeyError]. *)
Definition getitem (d : gmap string string) (key : string) : py string :=
  match d !! key with
  | Some v => Ret v
  | None => Raise ("'" +:+ key +:+ "'")
  end.

(** ** [app/database.py] *)

Module database.
Section BigQueryDatabase.

Context {float engine : Type}.
Context (sa : sqlalchemy.api engine).
Context (config : config.Config float).

(** The attributes of a [BigQueryDatabase] that the modelled methods touch
    ([_client] belongs to [get_client] and [close] only). *)
Record BigQueryDatabase : Type := {
  _db : option langchain.SQLDatabase;
  _connection_uri : string
}.

(** [BigQueryDatabase.__init__] *)
Definition __init__ : BigQueryDatabase :=
  {| _db := None; _connection_uri := config.get_bigquery_uri config |}.

Definition set_db (db : langchain.SQLDatabase) (self : BigQueryDatabase) : BigQueryDatabase :=
  {| _db := Some db; _connection_uri := _connection_uri self |}.

(** [BigQueryDatabase.get_database]: the cached connection, or a new one;
    the handler logs and re-raises. *)
Definition get_database : M BigQueryDatabase langchain.SQLDatabase :=
  self ← read;
  match _db self with
  | None =>
      try_except
        (engine ← lift (sqlalchemy.create_engine sa (_connection_uri self) []);
         db ← lift (sqlalchemy.SQLDatabase sa engine None 3 1000);
         assign (set_db db);;
         mret db)
        (fun e => raise e)
  | Some db => mret db
  end.

(** [BigQueryDatabase.get_table_names] *)
Definition get_table_names : M BigQueryDatabase (list string) :=
  try_except
    (db ← get_database;
     lift (langchain.get_usable_table_names db))
    (fun e => mret []).

(** [BigQueryDatabase.get_table_info] *)
Definition get_table_info (table_names : option (list string)) : M BigQueryDatabase string :=
  try_except
    (db ← get_database;
     lift (langchain.get_table_info db table_names))
    (fun e => mret ("Error retrieving table information: " +:+ e)).

(** [BigQueryDatabase.run_query] *)
Definition run_query (query : string) : M BigQueryDatabase string :=
  try_except
    (db ← get_database;
     result ← lift (langchain.run db query);
     mret result)
    (fun e => mret ("Error executing query: " +:+ e)).

End BigQueryDatabase.
End database.

(** ** [app/database_aws.py] *)

Module database_aws.
Section RedshiftDatabase.

Context {float engine client : Type}.
Context (sa : sqlalchemy.api engine) (aws : boto3.api client).
Context (config_aws : config_aws.ConfigAWS float).

Record RedshiftDatabase : Type := {
  _db : option langchain.SQLDatabase;
  _redshift_client : option client;
  _connection_uri : option string
}.

(** [RedshiftDatabase.__init__] *)
Definition __init__ : RedshiftDatabase :=
  {| _db := None; _redshift_client := None; _connection_uri := None |}.

Definition set_db (db : langchain.SQLDatabase) (self : RedshiftDatabase) : RedshiftDatabase :=
  {| _db := Some db;
     _redshift_client := _redshift_client self;
     _connection_uri := _connection_uri self |}.

Definition set_redshift_client (c : client) (self : RedshiftDatabase) : RedshiftDatabase :=
  {| _db := _db self;
     _redshift_client := Some c;
     _connection_uri := _connection_uri self |}.

Definition set_connection_uri (uri : string) (self : RedshiftDatabase) : RedshiftDatabase :=
  {| _db := _db self;
     _redshift_client := _redshift_client self;
     _connection_uri := Some uri |}.

(** [RedshiftDatabase._get_iam_credentials].  The handler, for
    [ClientError], logs and re-raises; any other exception leaves the
    method untouched: either way the exception goes to the caller. *)
Definition _get_iam_credentials : M RedshiftDatabase (string * string) :=
  try_except
    (self ← read;
     c ← match _redshift_client self with
          | None =>
              c ← lift (boto3.client_new aws "redshift" (config_aws.AWS_REGION config_aws));
              assign (set_redshift_client c);;
              mret c
          | Some c => mret c
          end;
     response ← lift (boto3.get_cluster_credentials aws c
                        (config_aws.REDSHIFT_USER config_aws)
                        (config_aws.REDSHIFT_DATABASE config_aws)
                        (config_aws.REDSHIFT_CLUSTER_IDENTIFIER config_aws)
                        3600 false);
     user ← lift (getitem response "DbUser");
     password ← lift (getitem response "DbPassword");
     mret (user, password))
    (fun e => raise e).

(** [RedshiftDatabase._build_connection_uri] *)
Definition _build_connection_uri : M RedshiftDatabase string :=
  if config_aws.REDSHIFT_USE_IAM config_aws
  then
    credentials ← _get_iam_credentials;
    mret ("postgresql+psycopg2://" +:+ credentials.1 +:+ ":" +:+ credentials.2
          +:+ "@" +:+ config_aws.REDSHIFT_HOST config_aws
          +:+ ":" +:+ pystr.of_Z (config_aws.REDSHIFT_PORT config_aws)
          +:+ "/" +:+ config_aws.REDSHIFT_DATABASE config_aws)
  else mret (config_aws.get_redshift_uri config_aws).

(** [RedshiftDatabase.get_database] *)
Definition get_database : M RedshiftDatabase langchain.SQLDatabase :=
  self ← read;
  match _db self with
  | None =>
      try_except
        (uri ← _build_connection_uri;
         assign (set_connection_uri uri);;
         engine ← lift (sqlalchemy.create_engine sa uri
                          [("sslmode", "require");
                           ("application_name", "automotive_chatbot")]);
         db ← lift (sqlalchemy.SQLDatabase sa engine
                      (Some (config_aws.REDSHIFT_SCHEMA config_aws)) 3 1000);
         assign (set_db db);;
         mret db)
        (fun e => raise e)
  | Some db => mret db
  end.

(** [RedshiftDatabase.get_table_names] *)
Definition get_table_names : M RedshiftDatabase (list string) :=
  try_except
    (db ← get_database;
     lift (langchain.get_usable_table_names db))
    (fun e => mret []).

(** [RedshiftDatabase.get_table_info] *)
Definition get_table_info (table_names : option (list string)) : M RedshiftDatabase string :=
  try_except
    (db ← get_database;
     lift (langchain.get_table_info db table_names))
    (fun e => mret ("Error retrieving table information: " +:+ e)).

(** [RedshiftDatabase.run_query] *)
Definition run_query (query : string) : M RedshiftDatabase string :=
  try_except
    (db ← get_database;
     result ← lift (langchain.run db query);
     mret result)
    (fun e => mret ("Error executing query: " +:+ e)).

End RedshiftDatabase.
End database_aws.

(** ** Python values that end up in the result dictionaries *)

(** The input of a tool call: a string, or a dictionary of named arguments. *)
Inductive tool_input_value : Type :=
| InputStr (s : string)
| InputDict (d : list (string * string)).

(** The values stored under the keys of the dictionaries [query] returns:
    strings, an integer, and the list of collected tool inputs. *)
Inductive pyval : Type :=
| PyStr (s : string)
| PyInt (n : Z)
| PyList (l : list tool_input_value).

(** ** What the agent modules use of [langchain.agents] *)

Module agents.

(** The object found at [step[0]], by the two attributes the extraction
    looks for.  An attribute the object does not have is [None]
    ([hasattr] is false); an [AgentAction] has both, its [tool] being a
    string and its [tool_input] a string or a dictionary, as LangChain
    declares them. *)
Record AgentAction : Type := {
  tool : option string;
  tool_input : option tool_input_value
}.

(** The members of a step tuple: an action object, or a plain string
    (the observation), which has neither attribute. *)
Inductive item : Type :=
| Action (a : AgentAction)
| Text (s : string).

(** A step is a tuple, [(action, observation)] when LangChain built it. *)
Definition step : Type := list item.

Definition hasattr_tool (x : item) : option string :=
  match x with
  | Action a => tool a
  | Text _ => None
  end.

Definition hasattr_tool_input (x : item) : option tool_input_value :=
  match x with
  | Action a => tool_input a
  | Text _ => None
  end.

(** The dictionary [agent.invoke] returns, by the two keys [query] reads;
    a key the dictionary lacks is [None]. *)
Record invoke_result : Type := {
  output : option string;
  intermediate_steps : option (list step)
}.

(** [AgentExecutor]: [invoke({"input": question})] *)
Record AgentExecutor : Type := {
  invoke : string -> py invoke_result
}.

Inductive AgentType : Type := ZERO_SHOT_REACT_DESCRIPTION.

(** [SQLDatabaseToolkit(db=..., llm=...)] *)
Record SQLDatabaseToolkit (LLM : Type) : Type := {
  db : langchain.SQLDatabase;
  llm : LLM
}.
Arguments db {LLM} _.
Arguments llm {LLM} _.

(** The keyword arguments of the one call of [create_sql_agent]. *)
Record create_sql_agent_kwargs (LLM : Type) : Type := {
  kw_llm : LLM;
  kw_toolkit : SQLDatabaseToolkit LLM;
  kw_agent_type : AgentType;
  kw_verbose : bool;
  kw_max_iterations : Z;
  kw_max_execution_time : Z;
  kw_handle_parsing_errors : bool;
  kw_return_intermediate_steps : bool;
  kw_prefix : string
}.
Arguments kw_llm {LLM} _.
Arguments kw_toolkit {LLM} _.
Arguments kw_agent_type {LLM} _.
Arguments kw_verbose {LLM} _.
Arguments kw_max_iterations {LLM} _.
Arguments kw_max_execution_time {LLM} _.
Arguments kw_handle_parsing_errors {LLM} _.
Arguments kw_return_intermediate_steps {LLM} _.
Arguments kw_prefix {LLM} _.

Record api (LLM : Type) : Type := {
  SQLDatabaseToolkit_new : langchain.SQLDatabase -> LLM -> py (SQLDatabaseToolkit LLM);
  create_sql_agent : create_sql_agent_kwargs LLM -> py AgentExecutor
}.
Arguments SQLDatabaseToolkit_new {LLM} _ _ _.
Arguments create_sql_agent {LLM} _ _.

End agents.

(** ** [SQLAgentManager] and [SQLAgentManagerAWS]

    The two classes have the same text up to the configuration object, the
    prompt and the singletons they reach for; those are the [backend]. *)

Module sql_agent.
Section SQLAgentManager.

Context {DB LLMM LLM : Type}.

(** [get_database] of the database singleton, [get_llm] of the LLM manager
    singleton, the three settings read from the configuration object, and
    the prompt as the text before and after its [{top_k}] field. *)
Record backend : Type := {
  get_database : M DB langchain.SQLDatabase;
  get_llm : M LLMM LLM;
  SQL_AGENT_MAX_ITERATIONS : Z;
  SQL_AGENT_MAX_EXECUTION_TIME : Z;
  SQL_TOP_K_RESULTS : Z;
  SQL_AGENT_SYSTEM_PROMPT : string * string
}.

Context (lc : agents.api LLM) (B : backend).

Record SQLAgentManager : Type := {
  _agent : option agents.AgentExecutor;
  _toolkit : option (agents.SQLDatabaseToolkit LLM)
}.

(** [SQLAgentManager.__init__] *)
Definition __init__ : SQLAgentManager := {| _agent := None; _toolkit := None |}.

(** The manager together with the two singletons [create_agent] reaches
    through [get_database_instance()] and [get_llm_instance()]. *)
Record process : Type := {
  manager : SQLAgentManager;
  db_instance : DB;
  llm_manager : LLMM
}.

Definition set_db_instance (d : DB) (p : process) : process :=
  {| manager := manager p; db_instance := d; llm_manager := llm_manager p |}.
Definition set_llm_manager (l : LLMM) (p : process) : process :=
  {| manager := manager p; db_instance := db_instance p; llm_manager := l |}.
Definition set_toolkit (t : agents.SQLDatabaseToolkit LLM) (p : process) : process :=
  {| manager := {| _agent := _agent (manager p); _toolkit := Some t |};
     db_instance := db_instance p; llm_manager := llm_manager p |}.
Definition set_agent (a : agents.AgentExecutor) (p : process) : process :=
  {| manager := {| _agent := Some a; _toolkit := _toolkit (manager p) |};
     db_instance := db_instance p; llm_manager := llm_manager p |}.

(** [SQL_AGENT_SYSTEM_PROMPT.format(top_k=...)] *)
Definition format_prompt (top_k : Z) : string :=
  (SQL_AGENT_SYSTEM_PROMPT B).1 +:+ pystr.of_Z top_k +:+ (SQL_AGENT_SYSTEM_PROMPT B).2.

(** The keyword arguments [create_agent] passes to [create_sql_agent]. *)
Definition kwargs (llm : LLM) (toolkit : agents.SQLDatabaseToolkit LLM)
  : agents.create_sql_agent_kwargs LLM :=
  {| agents.kw_llm := llm;
     agents.kw_toolkit := toolkit;
     agents.kw_agent_type := agents.ZERO_SHOT_REACT_DESCRIPTION;
     agents.kw_verbose := true;
     agents.kw_max_iterations := SQL_AGENT_MAX_ITERATIONS B;
     agents.kw_max_execution_time := SQL_AGENT_MAX_EXECUTION_TIME B;
     agents.kw_handle_parsing_errors := true;
     agents.kw_return_intermediate_steps := true;
     agents.kw_prefix := format_prompt (SQL_TOP_K_RESULTS B) |}.

(** [create_agent]: the cached executor, or a new one; the handler logs
    and re-raises. *)
Definition create_agent : M process agents.AgentExecutor :=
  self ← read;
  match _agent (manager self) with
  | None =>
      try_except
        (db ← within db_instance set_db_instance (get_database B);
         llm ← within llm_manager set_llm_manager (get_llm B);
         toolkit ← lift (agents.SQLDatabaseToolkit_new lc db llm);
         assign (set_toolkit toolkit);;
         agent ← lift (agents.create_sql_agent lc (kwargs llm toolkit));
         assign (set_agent agent);;
         mret agent)
        (fun e => raise e)
  | Some agent => mret agent
  end.

(** One turn of [for step in intermediate_steps]: [sql_queries] as the
    turn leaves it. *)
Definition extract_step (sql_queries : list tool_input_value) (step : agents.step)
  : list tool_input_value :=
  if (2 <=? length step)%nat then
    match step !! 0%nat with
    | Some action =>
        match agents.hasattr_tool action with
        | Some tool =>
            if pystr.contains "sql" (pystr.lower tool) then
              match agents.hasattr_tool_input action with
              | Some tool_input => sql_queries ++ [tool_input]
              | None => sql_queries
              end
            else sql_queries
        | None => sql_queries
        end
    | None => sql_queries
    end
  else sql_queries.

(** The loop under [# Extract SQL queries from intermediate steps]. *)
Definition extract_sql_queries (intermediate_steps : list agents.step)
  : list tool_input_value :=
  foldl extract_step [] intermediate_steps.

(** [query] *)
Definition query (question : string) : M process (gmap string pyval) :=
  try_except
    (agent ← create_agent;
     result ← lift (agents.invoke agent question);
     let output := default "No response generated" (agents.output result) in
     let intermediate_steps := default [] (agents.intermediate_steps result) in
     let sql_queries := extract_sql_queries intermediate_steps in
     mret (<["status" := PyStr "success"]>
           (<["question" := PyStr question]>
           (<["answer" := PyStr output]>
           (<["sql_queries" := PyList sql_queries]>
           (<["steps_count" := PyInt (Z.of_nat (length intermediate_steps))]> ∅))))))
    (fun e =>
     mret (<["status" := PyStr "error"]>
           (<["question" := PyStr question]>
           (<["error" := PyStr e]> ∅)))).

End SQLAgentManager.
Arguments backend : clear implicits.
Arguments SQLAgentManager : clear implicits.
Arguments process : clear implicits.
End sql_agent.

(** ** [app/agent.py] *)

Module agent.

(** [SQL_AGENT_SYSTEM_PROMPT], cut at its one replacement field. *)
Definition SQL_AGENT_SYSTEM_PROMPT : string * string :=
  ("You are an expert automotive sales analyst with deep knowledge of SQL and BigQuery.
You help business users get insights from the automotive sales database by converting their natural language questions into SQL queries.

Database Schema:
The database contains 6 tables about automotive sales:
1. **vehicles** - Vehicle inventory (vehicle_id, make, model, year, body_type, msrp)
2. **dealerships** - Dealership locations (dealership_id, name, city, state)
3. **customers** - Customer information (customer_id, first_name, registration_date)
4. **sales_transactions** - Transaction records (transaction_id, vehicle_id, customer_id, dealership_id, sale_date, sale_price)
5. **marketing_campaigns** - Marketing campaign data (campaign_id, campaign_name, start_date, end_date, budget)
6. **competitor_sales** - Competitor sales data (record_id, competitor_make, sale_month, region, units_sold)

CRITICAL - BigQuery SQL Syntax:
- For year extraction: EXTRACT(YEAR FROM date_column) NOT strftime
- For month extraction: EXTRACT(MONTH FROM date_column)
- For date filtering: WHERE date_column >= '2024-01-01'
- Table names already qualified, use them as-is
- Use standard SQL syntax, NOT SQLite functions

Guidelines:
- Always start by understanding what tables contain the data needed
- Use table descriptions to understand the schema before writing queries
- For time-based queries, use EXTRACT() function for date parts
- When calculating metrics, use appropriate aggregations (SUM, AVG, COUNT)
- For top/bottom queries, use ORDER BY with LIMIT
- Join tables appropriately using foreign keys
- Return clean, formatted results
- If a query might return many rows, limit results to top ",
   "
- Always explain your reasoning before executing queries
- If you're unsure about the data, query the schema first

Data Notes:
- Date range: January 2023 - October 2024
- sale_price is the final transaction price (may be below MSRP due to discounts)
- All monetary values are in USD
- Use DATE format 'YYYY-MM-DD' for date comparisons

Be helpful, accurate, and provide insights along with the data!
").

Section SQLAgentManager.

Context {float engine LLMM LLM : Type}.
Context (sa : sqlalchemy.api engine) (lc : agents.api LLM).
Context (config : config.Config float).
(** [LLMManager.get_llm] of [app/llm.py]: it returns the chat model or
    raises. *)
Context (get_llm : M LLMM LLM).

Definition backend : sql_agent.backend database.BigQueryDatabase LLMM LLM :=
  {| sql_agent.get_database := database.get_database sa;
     sql_agent.get_llm := get_llm;
     sql_agent.SQL_AGENT_MAX_ITERATIONS := config.SQL_AGENT_MAX_ITERATIONS config;
     sql_agent.SQL_AGENT_MAX_EXECUTION_TIME := config.SQL_AGENT_MAX_EXECUTION_TIME config;
     sql_agent.SQL_TOP_K_RESULTS := config.SQL_TOP_K_RESULTS config;
     sql_agent.SQL_AGENT_SYSTEM_PROMPT := SQL_AGENT_SYSTEM_PROMPT |}.

Definition process : Type := sql_agent.process database.BigQueryDatabase LLMM LLM.

(** [SQLAgentManager.create_agent] *)
Definition create_agent : M process agents.AgentExecutor :=
  sql_agent.create_agent lc backend.

(** [SQLAgentManager.query] *)
Definition query (question : string) : M process (gmap string pyval) :=
  sql_agent.query lc backend question.

End SQLAgentManager.
End agent.

(** ** [app/agent_aws.py] *)

Module agent_aws.

(** [SQL_AGENT_SYSTEM_PROMPT], cut at its one replacement field. *)
Definition SQL_AGENT_SYSTEM_PROMPT : string * string :=
  ("You are an expert automotive sales analyst with deep knowledge of SQL and Amazon Redshift.
You help business users get insights from the automotive sales database by converting their natural language questions into SQL queries.

Database Schema:
The database contains 6 tables about automotive sales:
1. **vehicles** - Vehicle inventory (vehicle_id, make, model, year, body_type, msrp)
2. **dealerships** - Dealership locations (dealership_id, name, city, state)
3. **customers** - Customer information (customer_id, first_name, registration_date)
4. **sales_transactions** - Transaction records (transaction_id, vehicle_id, customer_id, dealership_id, sale_date, sale_price)
5. **marketing_campaigns** - Marketing campaign data (campaign_id, campaign_name, start_date, end_date, budget)
6. **competitor_sales** - Competitor sales data (record_id, competitor_make, sale_month, region, units_sold)

CRITICAL - Amazon Redshift SQL Syntax:
- For year extraction: EXTRACT(YEAR FROM date_column) or DATE_PART('year', date_column)
- For month extraction: EXTRACT(MONTH FROM date_column) or DATE_PART('month', date_column)
- For date filtering: WHERE date_column >= '2024-01-01'
- Use PostgreSQL-compatible functions (Redshift is based on PostgreSQL 8.0.2)
- String functions: SUBSTRING, POSITION, LOWER, UPPER, TRIM
- Aggregations: SUM, AVG, COUNT, MIN, MAX, STDDEV
- Window functions: ROW_NUMBER(), RANK(), DENSE_RANK(), LAG(), LEAD()
- Date functions: DATEADD, DATEDIFF, GETDATE(), CURRENT_DATE
- Use LIMIT for result limiting (not TOP)

Guidelines:
- Always start by understanding what tables contain the data needed
- Use table descriptions to understand the schema before writing queries
- For time-based queries, use EXTRACT() or DATE_PART() functions
- When calculating metrics, use appropriate aggregations (SUM, AVG, COUNT)
- For top/bottom queries, use ORDER BY with LIMIT
- Join tables appropriately using foreign keys
- Return clean, formatted results
- If a query might return many rows, limit results to top ",
   "
- Always explain your reasoning before executing queries
- If you're unsure about the data, query the schema first
- Redshift supports materialized views and distribution keys for performance

Data Notes:
- Date range: January 2023 - October 2024
- sale_price is the final transaction price (may be below MSRP due to discounts)
- All monetary values are in USD
- Use DATE format 'YYYY-MM-DD' for date comparisons

Performance Tips:
- Use WHERE clauses to filter data early
- Leverage Redshift's columnar storage by selecting only needed columns
- Use appropriate join types (INNER, LEFT, RIGHT)
- Consider using subqueries or CTEs for complex queries

Be helpful, accurate, and provide insights along with the data!
").

Section SQLAgentManagerAWS.

Context {float engine client LLMM LLM : Type}.
Context (sa : sqlalchemy.api engine) (aws : boto3.api client) (lc : agents.api LLM).
Context (config_aws : config_aws.ConfigAWS float).
(** [LLMManagerAWS.get_llm] of [app/llm_aws.py] *)
Context (get_llm : M LLMM LLM).

Definition backend
  : sql_agent.backend (database_aws.RedshiftDatabase (client:=client)) LLMM LLM :=
  {| sql_agent.get_database := database_aws.get_database sa aws config_aws;
     sql_agent.get_llm := get_llm;
     sql_agent.SQL_AGENT_MAX_ITERATIONS := config_aws.SQL_AGENT_MAX_ITERATIONS config_aws;
     sql_agent.SQL_AGENT_MAX_EXECUTION_TIME :=
       config_aws.SQL_AGENT_MAX_EXECUTION_TIME config_aws;
     sql_agent.SQL_TOP_K_RESULTS := config_aws.SQL_TOP_K_RESULTS config_aws;
     sql_agent.SQL_AGENT_SYSTEM_PROMPT := SQL_AGENT_SYSTEM_PROMPT |}.

Definition process : Type :=
  sql_agent.process (database_aws.RedshiftDatabase (client:=client)) LLMM LLM.

(** [SQLAgentManagerAWS.create_agent] *)
Definition create_agent : M process agents.AgentExecutor :=
  sql_agent.create_agent lc backend.

(** [SQLAgentManagerAWS.query] *)
Definition query (question : string) : M process (gmap string pyval) :=
  sql_agent.query lc backend question.

End SQLAgentManagerAWS.
End agent_aws.

(** ** The action catalog and the reasoning loop

    [create_sql_agent] and the executor it returns belong to LangChain; the
    application only passes its budgets to them.  The definitions of this
    module give that executor the behaviour sections 4.1 and 4.2 of the
    specification prescribe. *)

Module reasoning_loop.

(** Modelled from the spec: the four actions of the Action Catalog
    (section 4.1), as the tag the design notes ask every step to carry. *)
Inductive ActionKind : Type :=
| ListTables
| DescribeTable
| ValidateQuery
| ExecuteQuery.

(** Modelled from the spec: the name of each action of the catalog.  The
    specification fixes the four actions and leaves their names to the
    toolkit; these are the names under which [SQLDatabaseToolkit], the
    toolkit [create_agent] builds, registers its tools (the [name] the tool
    classes of [langchain_community] declare, a library that is not part of
    the sources).  They are what the extraction loop of [query] finds in
    [action.tool]. *)
Definition tool_name (k : ActionKind) : string :=
  match k with
  | ListTables => "sql_db_list_tables"
  | DescribeTable => "sql_db_schema"
  | ValidateQuery => "sql_db_query_checker"
  | ExecuteQuery => "sql_db_query"
  end.

(** Modelled from the spec: the catalog, built once (section 4.1). *)
Definition catalog : list ActionKind :=
  [ExecuteQuery; DescribeTable; ListTables; ValidateQuery].

(** Modelled from the spec: the actions that execute SQL, as opposed to
    schema listing, description and validation (section 4.3). *)
Definition is_execute (k : ActionKind) : bool :=
  match k with
  | ExecuteQuery => true
  | _ => false
  end.

(** Modelled from the spec: the action registered under a name, if any
    (section 4.1). *)
Definition lookup_action (name : string) : option ActionKind :=
  List.find (fun k => String.eqb (tool_name k) name) catalog.

(** Modelled from the spec: what the output of a planning turn parses to
    (section 4.2, PLANNING): an action with its input, a final answer, or
    neither. *)
Inductive plan : Type :=
| Act (action_name action_input : string)
| Final (final_answer : string)
| Unparseable.

(** Modelled from the spec: the step recorded for an action and its
    observation (section 3), in the shape LangChain gives it: a pair of an
    [AgentAction] and the observation text. *)
Definition mk_step (name input observation : string) : agents.step :=
  [agents.Action {| agents.tool := Some name;
                    agents.tool_input := Some (InputStr input) |};
   agents.Text observation].

Section Loop.

Context {LLM : Type}.

(** Modelled from the spec: the collaborators of the loop (section 6): the
    completion capability, the parser of its output, the prompt assembly,
    the actions (each wraps the database capability), and the wall clock as
    the seconds elapsed once a given number of steps has been taken. *)
Record capabilities : Type := {
  complete : LLM -> string -> py string;
  parse : string -> plan;
  render_prompt : string -> list agents.step -> string -> string;
  invoke_action : langchain.SQLDatabase -> ActionKind -> string -> py string;
  elapsed : nat -> Z
}.

Context (cap : capabilities).
Context (kw : agents.create_sql_agent_kwargs LLM).

(** Modelled from the spec: [Action Catalog.invoke] of section 4.1, with
    the ACTING rule of section 4.2: an unknown name and a failing action
    both become the observation of the step. *)
Definition observe (name input : string) : string :=
  match lookup_action name with
  | None => "UnknownActionError: " +:+ name
  | Some k =>
      match invoke_action cap (agents.db (agents.kw_toolkit kw)) k input with
      | Ret observation => observation
      | Raise e => "Error: " +:+ e
      end
  end.

(** Modelled from the spec: the synthetic step of a planning turn whose
    output parses to neither shape (section 4.2, PLANNING). *)
Definition parse_failure_step : agents.step :=
  mk_step "_Exception" "Invalid or incomplete response"
    ("invalid format, reinterpret with tool names: "
     +:+ String.concat ", " (tool_name <$> catalog)).

(** Modelled from the spec: the reasons of an abort (section 3).  Parse
    failures are recovered from ([handle_parsing_errors=True]), so the loop
    aborts on its two budgets only. *)
Inductive abort_reason : Type := StepLimit | TimeLimit.

(** Modelled from the spec: the terminal outcome of a trajectory (section
    3): a final answer, or an abort with its reason. *)
Inductive outcome : Type :=
| final_answer (text : string)
| aborted (reason : abort_reason).

(** Modelled from the spec: the trajectory of one question (section 3): its
    steps, in order, and its one terminal outcome. *)
Record Trajectory : Type := {
  steps : list agents.step;
  terminal : outcome
}.

(** Modelled from the spec: the answer of an aborted trajectory (section
    4.2, ABORTED): the last observation, or a generic message. *)
Definition best_available_answer (trajectory : list agents.step) : string :=
  match last trajectory with
  | Some [_; agents.Text observation] => observation
  | _ => "could not complete"
  end.

(** Modelled from the spec: the answer text of a trajectory. *)
Definition answer_of (t : Trajectory) : string :=
  match terminal t with
  | final_answer text => text
  | aborted _ => best_available_answer (steps t)
  end.

(** Modelled from the spec: the state machine of section 4.2, the executor
    LangChain provides.  [budget] is the number of steps still allowed, so
    [budget = 0] is "steps taken >= max iterations"; the wall clock is
    checked before each planning turn; a failing completion call ends the
    run with its exception. *)
Fixpoint run (question : string) (budget : nat) (trajectory : list agents.step)
  : py Trajectory :=
  match budget with
  | O => Ret {| steps := trajectory; terminal := aborted StepLimit |}
  | S budget' =>
      if (agents.kw_max_execution_time kw <=? elapsed cap (length trajectory))%Z
      then Ret {| steps := trajectory; terminal := aborted TimeLimit |}
      else
        match complete cap (agents.kw_llm kw)
                (render_prompt cap (agents.kw_prefix kw) trajectory question) with
        | Raise e => Raise e
        | Ret text =>
            match parse cap text with
            | Final answer =>
                Ret {| steps := trajectory; terminal := final_answer answer |}
            | Act name input =>
                run question budget'
                  (trajectory ++ [mk_step name input (observe name input)])
            | Unparseable =>
                run question budget' (trajectory ++ [parse_failure_step])
            end
        end
  end.

(** Modelled from the spec: the dictionary handed to the facade
    ([return_intermediate_steps=True]). *)
Definition result_of (t : Trajectory) : agents.invoke_result :=
  {| agents.output := Some (answer_of t);
     agents.intermediate_steps := Some (steps t) |}.

(** Modelled from the spec: [AgentExecutor.invoke], one run of the loop on
    an empty trajectory with the configured step budget. *)
Definition executor : agents.AgentExecutor :=
  {| agents.invoke := fun question =>
       result_of <$> run question (Z.to_nat (agents.kw_max_iterations kw)) [] |}.

End Loop.

(** Modelled from the spec: [create_sql_agent] and the toolkit constructor,
    for given collaborators. *)
Definition api {LLM : Type} (cap : capabilities (LLM:=LLM)) : agents.api LLM :=
  {| agents.SQLDatabaseToolkit_new := fun db llm =>
       Ret {| agents.db := db; agents.llm := llm |};
     agents.create_sql_agent := fun kw => Ret (executor cap kw) |}.

(** Modelled from the spec: the Trace Extractor of section 4.3 over steps
    that carry their action as a tag: the inputs of the execute actions,
    in order. *)
Definition extract_sql (trajectory : list (ActionKind * string * string))
  : list tool_input_value :=
  (fun s => InputStr s.1.2) <$> filter (fun s => is_execute s.1.1 = true) trajectory.

(** Modelled from the spec: the steps recorded for a trajectory of tagged
    steps, each under the name of its action. *)
Definition steps_of (trajectory : list (ActionKind * string * string))
  : list agents.step :=
  (fun s => mk_step (tool_name s.1.1) s.1.2 s.2) <$> trajectory.

End reasoning_loop.

(** * Vocabulary of the statements *)

Module facade.
Section Facade.

Context {DB LLMM LLM : Type}.
Context (lc : agents.api LLM) (B : sql_agent.backend DB LLMM LLM).

(** The process as the import of the modules leaves it: a manager without
    agent, next to the two singletons. *)
Definition start (db : DB) (llmm : LLMM) : sql_agent.process DB LLMM LLM :=
  {| sql_agent.manager := sql_agent.__init__;
     sql_agent.db_instance := db;
     sql_agent.llm_manager := llmm |}.

(** The process after a sequence of earlier questions. *)
Fixpoint after (questions : list string) (p : sql_agent.process DB LLMM LLM)
  : sql_agent.process DB LLMM LLM :=
  match questions with
  | [] => p
  | q :: questions' => after questions' (sql_agent.query lc B q p).2
  end.

(** The first two statements of the [try] block of [query]: get the agent,
    run it on the question. *)
Definition attempt (question : string)
  : M (sql_agent.process DB LLMM LLM) agents.invoke_result :=
  agent ← sql_agent.create_agent lc B;
  lift (agents.invoke agent question).

(** The two dictionary displays of [query]. *)
Definition success_result (question output : string) (steps : list agents.step)
  : gmap string pyval :=
  <["status" := PyStr "success"]>
  (<["question" := PyStr question]>
  (<["answer" := PyStr output]>
  (<["sql_queries" := PyList (sql_agent.extract_sql_queries steps)]>
  (<["steps_count" := PyInt (Z.of_nat (length steps))]> ∅)))).

Definition error_result (question e : string) : gmap string pyval :=
  <["status" := PyStr "error"]>
  (<["question" := PyStr question]>
  (<["error" := PyStr e]> ∅)).

(** An error result: the status, one message, and nothing of the run. *)
Definition clean_error (e : string) (r : gmap string pyval) : Prop :=
  r !! "status" = Some (PyStr "error")
  /\ r !! "error" = Some (PyStr e)
  /\ r !! "answer" = None
  /\ r !! "sql_queries" = None
  /\ r !! "steps_count" = None.

(** The two shapes of a result, by the keys it has and the type of what
    they hold. *)
Definition success_shaped (r : gmap string pyval) : Prop :=
  r !! "status" = Some (PyStr "success")
  /\ (exists answer sql_queries steps_count,
        r !! "answer" = Some (PyStr answer)
        /\ r !! "sql_queries" = Some (PyList sql_queries)
        /\ r !! "steps_count" = Some (PyInt steps_count))
  /\ dom r = {["status"; "question"; "answer"; "sql_queries"; "steps_count"]}.

Definition error_shaped (r : gmap string pyval) : Prop :=
  r !! "status" = Some (PyStr "error")
  /\ (exists e, r !! "error" = Some (PyStr e))
  /\ r !! "answer" = None
  /\ r !! "sql_queries" = None
  /\ dom r = {["status"; "question"; "error"]}.

End Facade.

(** What [run_query] has to return, given how getting the connection went:
    the rendered result of the query, or a description of the error of
    whichever step raised. *)
Definition result_or_error (connection : py langchain.SQLDatabase)
    (query text : string) : Prop :=
  match connection with
  | Ret db =>
      match langchain.run db query with
      | Ret result => text = result
      | Raise e => text = "Error executing query: " +:+ e
      end
  | Raise e => text = "Error executing query: " +:+ e
  end.

(** What one turn of the extraction loop appends, if anything. *)
Definition selected (step : agents.step) : option tool_input_value :=
  if (2 <=? length step)%nat then
    action ← step !! 0%nat;
    tool ← agents.hasattr_tool action;
    if pystr.contains "sql" (pystr.lower tool)
    then agents.hasattr_tool_input action
    else None
  else None.

(** A facade method that never raises and turns every exception of the
    agent run into a clean error result. *)
Definition converts_exceptions {P : Type}
    (attempt : M P agents.invoke_result) (query : M P (gmap string pyval)) : Prop :=
  forall p, exists r p',
    query p = (Ret r, p')
    /\ forall e, (attempt p).1 = Raise e -> clean_error e r.

End facade.

Module budgets.
Section Budgets.

Import reasoning_loop.

Context {DB LLMM LLM : Type}.
Context (cap : capabilities (LLM:=LLM)) (B : sql_agent.backend DB LLMM LLM).

(** A completion capability whose every output parses to an action that
    the catalog does not know. *)
Definition always_proposes_invalid_action : Prop :=
  (forall llm prompt, returns (complete cap llm prompt))
  /\ forall text, exists name input,
       parse cap text = Act name input /\ lookup_action name = None.

(** An executor that is the loop, run with the two budgets of the
    configuration. *)
Definition configured (a : agents.AgentExecutor) : Prop :=
  exists kw,
    a = executor cap kw
    /\ agents.kw_max_iterations kw = sql_agent.SQL_AGENT_MAX_ITERATIONS B
    /\ agents.kw_max_execution_time kw = sql_agent.SQL_AGENT_MAX_EXECUTION_TIME B.

(** The invariant of the process: the agent the manager holds, if it holds
    one, is configured. *)
Definition manager_ok (p : sql_agent.process DB LLMM LLM) : Prop :=
  forall a, sql_agent._agent (sql_agent.manager p) = Some a -> configured a.

End Budgets.
End budgets.

(** ** Concrete collaborators, for the runs the statements are evaluated on *)

Module scenario.

(** A warehouse of two tables that answers every query with one figure. *)
Definition warehouse : langchain.SQLDatabase :=
  {| langchain.run := fun _ => Ret "1234567.89";
     langchain.get_table_info := fun _ => Ret "CREATE TABLE vehicles (vehicle_id INT64)";
     langchain.get_usable_table_names := Ret ["vehicles"; "dealerships"] |}.

(** [sqlalchemy] reaching that warehouse, and failing to reach any. *)
Definition reachable : sqlalchemy.api string :=
  {| sqlalchemy.create_engine := fun uri _ => Ret uri;
     sqlalchemy.SQLDatabase := fun _ _ _ _ => Ret warehouse |}.

Definition unreachable : sqlalchemy.api string :=
  {| sqlalchemy.create_engine := fun _ _ => Raise "connection refused";
     sqlalchemy.SQLDatabase := fun _ _ _ _ => Raise "connection refused" |}.

(** The configuration of an environment that sets nothing but, possibly,
    the three settings of the agent. *)
Definition settings (max_iterations max_execution_time top_k : Z) : config.Config string :=
  {| config.PROJECT_ID := "YOUR_PROJECT_ID";
     config.LOCATION := "us-central1";
     config.BIGQUERY_DATASET := "automotive_data";
     config.BIGQUERY_LOCATION := "US";
     config.GEMINI_MODEL := "gemini-2.0-flash-lite-001";
     config.GEMINI_TEMPERATURE := "0.1";
     config.GEMINI_MAX_OUTPUT_TOKENS := 2048;
     config.GEMINI_TOP_P := "0.95";
     config.GEMINI_TOP_K := 40;
     config.GOOGLE_APPLICATION_CREDENTIALS := None;
     config.APP_TITLE := "Automotive Sales Analytics Chatbot";
     config.MAX_CHAT_HISTORY := 10;
     config.LANGCHAIN_TRACING_V2 := false;
     config.LANGCHAIN_API_KEY := None;
     config.LANGCHAIN_PROJECT := None;
     config.SQL_AGENT_MAX_ITERATIONS := max_iterations;
     config.SQL_AGENT_MAX_EXECUTION_TIME := max_execution_time;
     config.SQL_TOP_K_RESULTS := top_k;
     config.LOG_LEVEL := "INFO";
     config.SESSION_TIMEOUT_MINUTES := 30 |}.

(** The actions over the database capability. *)
Definition invoke_action (db : langchain.SQLDatabase) (k : reasoning_loop.ActionKind)
    (input : string) : py string :=
  match k with
  | reasoning_loop.ListTables => String.concat ", " <$> langchain.get_usable_table_names db
  | reasoning_loop.DescribeTable => langchain.get_table_info db (Some [input])
  | reasoning_loop.ValidateQuery => Ret input
  | reasoning_loop.ExecuteQuery => langchain.run db input
  end.

(** A completion capability that follows a script: the prompt carries the
    number of steps taken so far, the completion echoes it, and the parser
    looks the turn up in the script.  The clock is given. *)
Definition scripted (script : nat -> reasoning_loop.plan) (clock : nat -> Z)
  : reasoning_loop.capabilities (LLM:=unit) :=
  {| reasoning_loop.complete := fun _ prompt => Ret prompt;
     reasoning_loop.parse := fun text =>
       script (Z.to_nat (default 0%Z (pystr.int_literal text)));
     reasoning_loop.render_prompt := fun _ trajectory _ =>
       pystr.of_Z (Z.of_nat (length trajectory));
     reasoning_loop.invoke_action := invoke_action;
     reasoning_loop.elapsed := clock |}.

(** "List all tables": one list-tables action, then the answer. *)
Definition list_all_tables (turn : nat) : reasoning_loop.plan :=
  match turn with
  | O => reasoning_loop.Act "sql_db_list_tables" ""
  | _ => reasoning_loop.Final "The tables are vehicles and dealerships."
  end.

(** "Total revenue in 2024": one execute action, then the answer. *)
Definition total_revenue (turn : nat) : reasoning_loop.plan :=
  match turn with
  | O => reasoning_loop.Act "sql_db_query"
           "SELECT SUM(sale_price) FROM sales_transactions WHERE EXTRACT(YEAR FROM sale_date)=2024"
  | _ => reasoning_loop.Final "Total revenue in 2024 was 1234567.89."
  end.

(** A completion capability that proposes an action nobody registered,
    turn after turn. *)
Definition always_invalid (turn : nat) : reasoning_loop.plan :=
  reasoning_loop.Act "ask_the_dealer" "".

(** A clock that stands still, and one on which every step takes a
    hundred seconds. *)
Definition frozen (steps_taken : nat) : Z := 0.
Definition slow (steps_taken : nat) : Z := 100 * Z.of_nat steps_taken.

Definition get_llm : M unit unit := mret tt.

(** The keyword arguments of [create_sql_agent] in these runs. *)
Definition kwargs (cfg : config.Config string) : agents.create_sql_agent_kwargs unit :=
  sql_agent.kwargs (agent.backend reachable cfg get_llm) tt
    {| agents.db := warehouse; agents.llm := tt |}.

(** An executor that stops at the step limit with nothing to say: its
    result holds the steps and no [output]. *)
Definition mute : agents.api unit :=
  {| agents.SQLDatabaseToolkit_new := fun db llm =>
       Ret {| agents.db := db; agents.llm := llm |};
     agents.create_sql_agent := fun kw =>
       Ret {| agents.invoke := fun _ =>
                Ret {| agents.output := None;
                       agents.intermediate_steps :=
                         Some (replicate (Z.to_nat (agents.kw_max_iterations kw))
                                 reasoning_loop.parse_failure_step) |} |} |}.

(** The AWS side: a Redshift client that hands out credentials, and the
    configuration of an environment that sets nothing but, possibly,
    [REDSHIFT_USE_IAM]. *)
Definition aws : boto3.api unit :=
  {| boto3.client_new := fun _ _ => Ret tt;
     boto3.get_cluster_credentials := fun _ _ _ _ _ _ =>
       Ret (<["DbUser" := "IAM:admin"]> (<["DbPassword" := "temporary"]> ∅)) |}.

Definition settings_aws (use_iam : bool) : config_aws.ConfigAWS string :=
  {| config_aws.AWS_REGION := "us-east-1";
     config_aws.AWS_ACCOUNT_ID := "YOUR_ACCOUNT_ID";
     config_aws.REDSHIFT_HOST := "your-cluster.region.redshift.amazonaws.com";
     config_aws.REDSHIFT_PORT := 5439;
     config_aws.REDSHIFT_DATABASE := "automotive_data";
     config_aws.REDSHIFT_SCHEMA := "public";
     config_aws.REDSHIFT_USER := "admin";
     config_aws.REDSHIFT_PASSWORD := "";
     config_aws.REDSHIFT_USE_IAM := use_iam;
     config_aws.REDSHIFT_CLUSTER_IDENTIFIER := "automotive-cluster";
     config_aws.BEDROCK_MODEL_ID := "anthropic.claude-3-5-sonnet-20241022-v2:0";
     config_aws.BEDROCK_TEMPERATURE := "0.1";
     config_aws.BEDROCK_MAX_TOKENS := 2048;
     config_aws.BEDROCK_TOP_P := "0.95";
     config_aws.BEDROCK_TOP_K := 250;
     config_aws.AWS_ACCESS_KEY_ID := None;
     config_aws.AWS_SECRET_ACCESS_KEY := None;
     config_aws.AWS_SESSION_TOKEN := None;
     config_aws.APP_TITLE := "Automotive Sales Analytics Chatbot (AWS)";
     config_aws.MAX_CHAT_HISTORY := 10;
     config_aws.LANGCHAIN_TRACING_V2 := false;
     config_aws.LANGCHAIN_API_KEY := None;
     config_aws.LANGCHAIN_PROJECT := None;
     config_aws.SQL_AGENT_MAX_ITERATIONS := 15;
     config_aws.SQL_AGENT_MAX_EXECUTION_TIME := 100;
     config_aws.SQL_TOP_K_RESULTS := 10;
     config_aws.LOG_LEVEL := "INFO";
     config_aws.CLOUDWATCH_LOG_GROUP := "/aws/automotive-chatbot";
     config_aws.CLOUDWATCH_LOG_STREAM := "app";
     config_aws.SESSION_TIMEOUT_MINUTES := 30 |}.

(** [query] of [app/agent.py] over these collaborators, on a process that
    has just started. *)
Definition ask (sa : sqlalchemy.api string) (cfg : config.Config string)
    (cap : reasoning_loop.capabilities (LLM:=unit)) (question : string)
  : py (gmap string pyval) :=
  (agent.query sa (reasoning_loop.api cap) cfg get_llm question
     (facade.start (database.__init__ cfg) tt)).1.

End scenario.

(** * The rest of the modules

    What the modules above leave out of their files, and the other modules
    of the application:
    - [Config] / [ConfigAWS]                 : the [validate] class methods
    - [BigQueryDatabase] / [RedshiftDatabase] : [get_client], [test_connection],
      [close], and [initialize_database] on the one instance of the module
    - [SQLAgentManager]                      : [get_toolkit_info],
      [initialize_agent], [query_database]
    - [llm] / [llm_aws]                      : [app/llm.py], [app/llm_aws.py]
    - [page], [main], [main_aws]             : [app/main.py], [app/main_aws.py]

    Status dictionaries are finite maps to [info]; the exceptions of
    [app/llm_aws.py], whose handlers tell a [ClientError] from the rest,
    keep their class. *)

(** ** [Config.validate] and [ConfigAWS.validate] *)

Module Config.
Section Validate.

Context {float : Type}.

(** [required_fields], in the order of the dictionary display. *)
Definition required_fields (cls : config.Config float) : list (string * string) :=
  [("PROJECT_ID", config.PROJECT_ID cls);
   ("BIGQUERY_DATASET", config.BIGQUERY_DATASET cls)].

(** [not value or value.startswith("YOUR_")] *)
Definition unset (value : string) : bool :=
  String.eqb value "" || pystr.startswith "YOUR_" value.

(** The list comprehension [missing_fields]. *)
Definition missing_fields (cls : config.Config float) : list string :=
  fst <$> List.filter (fun field => unset field.2) (required_fields cls).

(** [Config.validate]: nothing, or [ValueError]. *)
Definition validate (cls : config.Config float) : py unit :=
  match missing_fields cls with
  | [] => Ret tt
  | missing =>
      Raise ("Missing required configuration: " +:+ String.concat ", " missing +:+ ". "
             +:+ "Please set the appropriate environment variables.")
  end.

(** [Config.display_config], as the pairs of the dictionary display; the
    temperature is shown as the library prints it. *)
Definition display_config (show_float : float -> string) (cls : config.Config float)
  : list (string * string) :=
  [("Project ID", config.PROJECT_ID cls);
   ("Location", config.LOCATION cls);
   ("Dataset", config.BIGQUERY_DATASET cls);
   ("Model", config.GEMINI_MODEL cls);
   ("Temperature", show_float (config.GEMINI_TEMPERATURE cls))].

End Validate.
End Config.

Module ConfigAWS.
Section Validate.

Context {float : Type}.

Definition required_fields (cls : config_aws.ConfigAWS float) : list (string * string) :=
  [("AWS_REGION", config_aws.AWS_REGION cls);
   ("REDSHIFT_HOST", config_aws.REDSHIFT_HOST cls);
   ("REDSHIFT_DATABASE", config_aws.REDSHIFT_DATABASE cls)].

(** [not value or value.startswith("YOUR_") or value.startswith("your-")] *)
Definition unset (value : string) : bool :=
  String.eqb value "" || pystr.startswith "YOUR_" value || pystr.startswith "your-" value.

Definition missing_fields (cls : config_aws.ConfigAWS float) : list string :=
  fst <$> List.filter (fun field => unset field.2) (required_fields cls).

(** [ConfigAWS.validate]: the required fields first, then the
    authentication. *)
Definition validate (cls : config_aws.ConfigAWS float) : py unit :=
  match missing_fields cls with
  | [] =>
      if negb (config_aws.REDSHIFT_USE_IAM cls)
         && String.eqb (config_aws.REDSHIFT_PASSWORD cls) ""
      then Raise ("REDSHIFT_PASSWORD is required when not using IAM authentication. "
                  +:+ "Set REDSHIFT_USE_IAM=true to use IAM authentication instead.")
      else Ret tt
  | missing =>
      Raise ("Missing required configuration: " +:+ String.concat ", " missing +:+ ". "
             +:+ "Please set the appropriate environment variables.")
  end.

End Validate.
End ConfigAWS.

(** ** The values of the status dictionaries *)

(** What the dictionaries returned by [test_connection], [initialize_...],
    [get_toolkit_info] and the like hold: strings, integers, lists of table
    names, and lists of tool descriptions (name, description). *)
Inductive info : Type :=
| IStr (s : string)
| IInt (n : Z)
| IStrs (l : list string)
| ITools (l : list (string * string)).

(** ** The rest of [app/database.py] *)

Module BigQueryDatabase.
Section Methods.

Context {float engine client : Type}.
Context (sa : sqlalchemy.api engine).
Context (config : config.Config float).

(** What [get_client] and [close] use of [google.cloud.bigquery] and of the
    engine: [bigquery.Client(project=..., location=...)], [client.close()],
    and the disposal of the engine of a [SQLDatabase] (which does nothing
    for a database without [_engine] attribute). *)
Record api : Type := {
  Client : string -> string -> py client;
  client_close : client -> py unit;
  dispose_engine : langchain.SQLDatabase -> py unit
}.

Context (bq : api).

(** A [BigQueryDatabase] with all its attributes: those of the record
    [database.BigQueryDatabase], and [_client]. *)
Record object : Type := {
  base : database.BigQueryDatabase;
  _client : option client
}.

Definition set_base (b : database.BigQueryDatabase) (self : object) : object :=
  {| base := b; _client := _client self |}.
Definition set_client (c : option client) (self : object) : object :=
  {| base := base self; _client := c |}.
Definition clear_db (self : object) : object :=
  {| base := {| database._db := None;
                database._connection_uri := database._connection_uri (base self) |};
     _client := _client self |}.

(** [BigQueryDatabase.get_client] *)
Definition get_client : M object client :=
  self ← read;
  match _client self with
  | None =>
      try_except
        (c ← lift (Client bq (config.PROJECT_ID config) (config.BIGQUERY_LOCATION config));
         assign (set_client (Some c));;
         mret c)
        (fun e => raise e)
  | Some c => mret c
  end.

(** [BigQueryDatabase.test_connection] *)
Definition test_connection : M database.BigQueryDatabase (gmap string info) :=
  try_except
    (db ← database.get_database sa;
     table_names ← database.get_table_names sa;
     mret (<["status" := IStr "success"]>
           (<["database" := IStr (config.BIGQUERY_DATASET config)]>
           (<["tables" := IStrs table_names]>
           (<["table_count" := IInt (Z.of_nat (length table_names))]> ∅)))))
    (fun e =>
     mret (<["status" := IStr "error"]> (<["error" := IStr e]> ∅))).

(** [BigQueryDatabase.close]: each of the two blocks swallows what its
    [try] raises and clears its attribute in [finally]. *)
Definition close : M object unit :=
  self ← read;
  match database._db (base self) with
  | Some db =>
      try_except (lift (dispose_engine bq db)) (fun e => mret tt);;
      assign clear_db
  | None => mret tt
  end;;
  self ← read;
  match _client self with
  | Some c =>
      try_except (lift (client_close bq c)) (fun e => mret tt);;
      assign (set_client None)
  | None => mret tt
  end.

(** [get_database_instance().method(...)]: the method runs on the one
    instance of the module, which is made on first use; what the method
    assigns stays in the instance. *)
Definition on_instance {A} (method : M database.BigQueryDatabase A)
  : M (option database.BigQueryDatabase) A :=
  fun _db_instance =>
    let self := default (database.__init__ config) _db_instance in
    let '(r, self') := method self in
    (r, Some self').

(** [initialize_database] *)
Definition initialize_database : M (option database.BigQueryDatabase) (gmap string info) :=
  try_except
    (on_instance test_connection)
    (fun e =>
     mret (<["status" := IStr "error"]> (<["error" := IStr e]> ∅))).

End Methods.
End BigQueryDatabase.

(** ** The rest of [app/database_aws.py] *)

Module RedshiftDatabase.
Section Methods.

Context {float engine client : Type}.
Context (sa : sqlalchemy.api engine) (aws : boto3.api client).
Context (config_aws : config_aws.ConfigAWS float).

(** The disposal of the engine of a [SQLDatabase], as in [close]. *)
Context (dispose_engine : langchain.SQLDatabase -> py unit).

Local Abbreviation Redshift := (database_aws.RedshiftDatabase (client:=client)).

Definition clear_db (self : Redshift) : Redshift :=
  {| database_aws._db := None;
     database_aws._redshift_client := database_aws._redshift_client self;
     database_aws._connection_uri := database_aws._connection_uri self |}.

Definition clear_redshift_client (self : Redshift) : Redshift :=
  {| database_aws._db := database_aws._db self;
     database_aws._redshift_client := None;
     database_aws._connection_uri := database_aws._connection_uri self |}.

(** [RedshiftDatabase.get_redshift_client] *)
Definition get_redshift_client : M Redshift client :=
  self ← read;
  match database_aws._redshift_client self with
  | None =>
      try_except
        (c ← lift (boto3.client_new aws "redshift" (config_aws.AWS_REGION config_aws));
         assign (database_aws.set_redshift_client c);;
         mret c)
        (fun e => raise e)
  | Some c => mret c
  end.

(** [RedshiftDatabase.test_connection] *)
Definition test_connection : M Redshift (gmap string info) :=
  try_except
    (db ← database_aws.get_database sa aws config_aws;
     table_names ← database_aws.get_table_names sa aws config_aws;
     mret (<["status" := IStr "success"]>
           (<["database" := IStr (config_aws.REDSHIFT_DATABASE config_aws)]>
           (<["schema" := IStr (config_aws.REDSHIFT_SCHEMA config_aws)]>
           (<["tables" := IStrs table_names]>
           (<["table_count" := IInt (Z.of_nat (length table_names))]> ∅))))))
    (fun e =>
     mret (<["status" := IStr "error"]> (<["error" := IStr e]> ∅))).

(** [RedshiftDatabase.close]: the second block only logs. *)
Definition close : M Redshift unit :=
  self ← read;
  match database_aws._db self with
  | Some db =>
      try_except (lift (dispose_engine db)) (fun e => mret tt);;
      assign clear_db
  | None => mret tt
  end;;
  self ← read;
  match database_aws._redshift_client self with
  | Some c => assign clear_redshift_client
  | None => mret tt
  end.

End Methods.
End RedshiftDatabase.

(** ** The rest of [app/agent.py] and [app/agent_aws.py] *)

Module SQLAgentManager.
Section Methods.

Context {DB LLMM LLM : Type}.
Context (lc : agents.api LLM) (B : sql_agent.backend DB LLMM LLM).

(** [toolkit.get_tools()], each tool by its [name] and [description]. *)
Context (get_tools : agents.SQLDatabaseToolkit LLM -> py (list (string * string))).

(** [get_toolkit_info].  When the manager has no toolkit, [create_agent] is
    called for its effect; the toolkit is then read from the manager again,
    and calling [get_tools] on [None] is an [AttributeError]. *)
Definition get_toolkit_info : M (sql_agent.process DB LLMM LLM) (gmap string info) :=
  try_except
    (self ← read;
     match sql_agent._toolkit (sql_agent.manager self) with
     | None => sql_agent.create_agent lc B;; mret tt
     | Some _ => mret tt
     end;;
     self ← read;
     tools ← match sql_agent._toolkit (sql_agent.manager self) with
             | Some toolkit => lift (get_tools toolkit)
             | None => raise "'NoneType' object has no attribute 'get_tools'"
             end;
     mret (<["status" := IStr "success"]>
           (<["tool_count" := IInt (Z.of_nat (length tools))]>
           (<["tools" := ITools tools]> ∅))))
    (fun e =>
     mret (<["status" := IStr "error"]> (<["error" := IStr e]> ∅))).

(** [initialize_agent]; [get_agent_instance()] is the manager of the
    process. *)
Definition initialize_agent : M (sql_agent.process DB LLMM LLM) (gmap string info) :=
  try_except
    (sql_agent.create_agent lc B;;
     toolkit_info ← get_toolkit_info;
     mret (<["status" := IStr "success"]>
           (<["message" := IStr "SQL agent initialized successfully"]>
           (<["tools_available" := default (IInt 0) (toolkit_info !! "tool_count")]> ∅))))
    (fun e =>
     mret (<["status" := IStr "error"]> (<["error" := IStr e]> ∅))).

(** [query_database] *)
Definition query_database (question : string)
  : M (sql_agent.process DB LLMM LLM) (gmap string pyval) :=
  sql_agent.query lc B question.

End Methods.
End SQLAgentManager.

(** ** [app/llm.py] *)

Module llm.
Section LLMManager.

Context {float LLM : Type}.
Context (config : config.Config float).

(** What the model returns, by what [test_llm] looks at: its [content]
    attribute when it has one, and what [str] gives. *)
Record response : Type := {
  content : option string;
  str_of : string
}.

(** What the module uses of [vertexai] and [langchain_google_vertexai]:
    [vertexai.init(project=..., location=...)], the constructor
    [ChatVertexAI(model_name=..., temperature=..., max_output_tokens=...,
    top_p=..., top_k=..., project=..., location=..., ...)], and
    [llm.invoke(prompt)]. *)
Record api : Type := {
  vertexai_init : string -> string -> py unit;
  ChatVertexAI : string -> float -> Z -> float -> Z -> string -> string -> py LLM;
  invoke : LLM -> string -> py response
}.

Context (vx : api).

Record LLMManager : Type := {
  _llm : option LLM;
  _initialized : bool
}.

(** [LLMManager.__init__] *)
Definition __init__ : LLMManager := {| _llm := None; _initialized := false |}.

Definition set_initialized (self : LLMManager) : LLMManager :=
  {| _llm := _llm self; _initialized := true |}.
Definition set_llm (llm : LLM) (self : LLMManager) : LLMManager :=
  {| _llm := Some llm; _initialized := _initialized self |}.

(** [LLMManager.initialize_vertex_ai] *)
Definition initialize_vertex_ai : M LLMManager unit :=
  self ← read;
  if negb (_initialized self) then
    try_except
      (lift (vertexai_init vx (config.PROJECT_ID config) (config.LOCATION config));;
       assign set_initialized)
      (fun e => raise e)
  else mret tt.

(** [LLMManager.get_llm] *)
Definition get_llm : M LLMManager LLM :=
  self ← read;
  match _llm self with
  | None =>
      try_except
        (initialize_vertex_ai;;
         llm ← lift (ChatVertexAI vx
                       (config.GEMINI_MODEL config)
                       (config.GEMINI_TEMPERATURE config)
                       (config.GEMINI_MAX_OUTPUT_TOKENS config)
                       (config.GEMINI_TOP_P config)
                       (config.GEMINI_TOP_K config)
                       (config.PROJECT_ID config)
                       (config.LOCATION config));
         assign (set_llm llm);;
         mret llm)
        (fun e => raise e)
  | Some llm => mret llm
  end.

(** [response.content if hasattr(response, 'content') else str(response)] *)
Definition text_of (r : response) : string := default (str_of r) (content r).

(** [LLMManager.test_llm] *)
Definition test_llm : M LLMManager (gmap string info) :=
  try_except
    (llm ← get_llm;
     response ← lift (invoke vx llm "Say 'Hello' if you can hear me.");
     mret (<["status" := IStr "success"]>
           (<["model" := IStr (config.GEMINI_MODEL config)]>
           (<["response" := IStr (text_of response)]> ∅))))
    (fun e =>
     mret (<["status" := IStr "error"]> (<["error" := IStr e]> ∅))).

(** [initialize_llm]; [get_llm_instance()] is the manager the function is
    run on. *)
Definition initialize_llm : M LLMManager (gmap string info) :=
  try_except
    (initialize_vertex_ai;;
     mret (<["status" := IStr "success"]>
           (<["model" := IStr (config.GEMINI_MODEL config)]>
           (<["location" := IStr (config.LOCATION config)]> ∅))))
    (fun e =>
     mret (<["status" := IStr "error"]> (<["error" := IStr e]> ∅))).

End LLMManager.
End llm.

(** ** [app/llm_aws.py] *)

(** [invoke_with_retries] tells a [ClientError] from any other exception and
    reads its error code, so the exceptions of this module keep their
    class. *)
Module llm_aws.

(** A raised exception: a [botocore] [ClientError] with the [Code] found
    under [Error] in its response, if there is one, or another exception;
    both with what [str(e)] gives. *)
Inductive exn : Type :=
| ClientError (code : option string) (msg : string)
| OtherError (msg : string).

Definition str (e : exn) : string :=
  match e with
  | ClientError _ msg => msg
  | OtherError msg => msg
  end.

Inductive res (A : Type) : Type :=
| Ok (a : A)
| Err (e : exn).
Arguments Ok {A} a.
Arguments Err {A} e.

(** A method on a state [S]: the outcome, and the state as it is left. *)
Definition R (S A : Type) : Type := S -> res A * S.

#[global] Instance R_ret {S} : MRet (R S) := fun A a s => (Ok a, s).
#[global] Instance R_mbind {S} : MBind (R S) := fun A B k c s =>
  match c s with
  | (Ok a, s') => k a s'
  | (Err e, s') => (Err e, s')
  end.

Section LLMManagerAWS.

Context {float client LLM : Type}.
Context (config_aws : config_aws.ConfigAWS float).

Record response : Type := {
  content : option string;
  str_of : string
}.

(** [response.content if hasattr(response, 'content') else str(response)] *)
Definition text_of (r : response) : string := default (str_of r) (content r).

(** What the module uses of [boto3] and [langchain_aws]:
    [boto3.client(service_name=..., region_name=...)], the constructor
    [ChatBedrock(model_id=..., client=..., region_name=..., model_kwargs=...)]
    with the four model arguments in the order temperature, top_p, top_k,
    max_tokens, and [llm.invoke(prompt)].  The answer of the service may
    change from one call to the next: [invoke] is given the number of calls
    made before. *)
Record api : Type := {
  boto3_client : string -> string -> res client;
  ChatBedrock : string -> option client -> string -> float -> float -> Z -> Z -> res LLM;
  invoke : LLM -> nat -> string -> res response
}.

Context (bedrock : api).

Record LLMManagerAWS : Type := {
  _llm : option LLM;
  _bedrock_client : option client;
  _initialized : bool
}.

(** [LLMManagerAWS.__init__] *)
Definition __init__ : LLMManagerAWS :=
  {| _llm := None; _bedrock_client := None; _initialized := false |}.

(** The manager, the number of calls of the model made so far, and the
    seconds slept so far, one entry per [time.sleep]. *)
Record world : Type := {
  manager : LLMManagerAWS;
  calls : nat;
  slept : list Z
}.

Definition on_manager (f : LLMManagerAWS -> LLMManagerAWS) (w : world) : world :=
  {| manager := f (manager w); calls := calls w; slept := slept w |}.

(** [LLMManagerAWS.initialize_bedrock]; the handler logs and re-raises. *)
Definition initialize_bedrock : R world unit :=
  fun w =>
    if negb (_initialized (manager w)) then
      match boto3_client bedrock "bedrock-runtime" (config_aws.AWS_REGION config_aws) with
      | Ok c =>
          (Ok tt, on_manager (fun self => {| _llm := _llm self;
                                             _bedrock_client := Some c;
                                             _initialized := true |}) w)
      | Err e => (Err e, w)
      end
    else (Ok tt, w).

(** The constructor call of [get_llm], on the client the manager holds. *)
Definition build_llm : R world LLM :=
  fun w =>
    match ChatBedrock bedrock
            (config_aws.BEDROCK_MODEL_ID config_aws)
            (_bedrock_client (manager w))
            (config_aws.AWS_REGION config_aws)
            (config_aws.BEDROCK_TEMPERATURE config_aws)
            (config_aws.BEDROCK_TOP_P config_aws)
            (config_aws.BEDROCK_TOP_K config_aws)
            (config_aws.BEDROCK_MAX_TOKENS config_aws) with
    | Ok llm =>
        (Ok llm, on_manager (fun self => {| _llm := Some llm;
                                            _bedrock_client := _bedrock_client self;
                                            _initialized := _initialized self |}) w)
    | Err e => (Err e, w)
    end.

(** [LLMManagerAWS.get_llm]; the handler logs and re-raises. *)
Definition get_llm : R world LLM :=
  fun w =>
    match _llm (manager w) with
    | None => (initialize_bedrock ≫= fun _ => build_llm) w
    | Some llm => (Ok llm, w)
    end.

(** [llm.invoke(prompt)]: one more call of the model. *)
Definition llm_invoke (llm : LLM) (prompt : string) : R world response :=
  fun w =>
    (invoke bedrock llm (calls w) prompt,
     {| manager := manager w; calls := S (calls w); slept := slept w |}).

(** [time.sleep(wait_time)] *)
Definition sleep (wait_time : Z) : R world unit :=
  fun w =>
    (Ok tt, {| manager := manager w; calls := calls w;
               slept := slept w ++ [wait_time] |}).

(** The three dictionaries [invoke_with_retries] builds in its loop, and the
    one after it. *)
Definition success (r : response) (attempt : Z) : gmap string info :=
  <["status" := IStr "success"]>
  (<["response" := IStr (text_of r)]>
  (<["attempts" := IInt (attempt + 1)]> ∅)).

Definition bedrock_error (msg error_code : string) : gmap string info :=
  <["status" := IStr "error"]>
  (<["error" := IStr msg]>
  (<["error_code" := IStr error_code]> ∅)).

Definition unexpected_error (msg : string) : gmap string info :=
  <["status" := IStr "error"]> (<["error" := IStr msg]> ∅).

Definition max_retries_exceeded : gmap string info :=
  <["status" := IStr "error"]> (<["error" := IStr "Max retries exceeded"]> ∅).

(** The loop [for attempt in range(max_retries)], from turn [attempt] on,
    [remaining] turns being left. *)
Fixpoint retry_loop (prompt : string) (max_retries : Z) (remaining : nat) (attempt : Z)
  : R world (gmap string info) :=
  match remaining with
  | O => mret max_retries_exceeded
  | S remaining' =>
      fun w =>
        match (get_llm ≫= fun llm => llm_invoke llm prompt) w with
        | (Ok response, w') => (Ok (success response attempt), w')
        | (Err (ClientError code msg), w') =>
            let error_code := default "" code in
            if String.eqb error_code "ThrottlingException"
               && (attempt <? max_retries - 1)%Z
            then
              (sleep (2 ^ attempt) ≫= fun _ =>
               retry_loop prompt max_retries remaining' (attempt + 1)) w'
            else (Ok (bedrock_error msg error_code), w')
        | (Err (OtherError msg), w') => (Ok (unexpected_error msg), w')
        end
  end.

(** [LLMManagerAWS.invoke_with_retries] *)
Definition invoke_with_retries (prompt : string) (max_retries : Z)
  : R world (gmap string info) :=
  retry_loop prompt max_retries (Z.to_nat max_retries) 0.

(** [initialize_llm] of [app/llm_aws.py] *)
Definition initialize_llm : R world (gmap string info) :=
  fun w =>
    match initialize_bedrock w with
    | (Ok _, w') =>
        (Ok (<["status" := IStr "success"]>
             (<["model" := IStr (config_aws.BEDROCK_MODEL_ID config_aws)]>
             (<["region" := IStr (config_aws.AWS_REGION config_aws)]> ∅))), w')
    | (Err e, w') => (Ok (unexpected_error (str e)), w')
    end.



End LLMManagerAWS.
End llm_aws.

(** ** [app/main.py] and [app/main_aws.py]

    The two pages differ in their texts and in the modules they import
    from.  [initialize_session_state], [initialize_system] and
    [process_user_query] are written once, over the texts and the imported
    functions; the sidebar, the welcome text and [main] itself, which are
    driven by Streamlit's widgets and reruns, are not part of the model. *)

Module streamlit.

(** The calls of Streamlit the three functions make, by their arguments.
    [spinner], [chat_message] and [expander] are entered with [with]; none
    of the calls is taken to raise. *)
Inductive call : Type :=
| spinner (text : string)
| error (body : string)
| chat_message (name : string)
| write (body : pyval)
| expander (label : string)
| code (body : tool_input_value) (language : string).

End streamlit.

Module page.

(** What a chat message holds under its keys: a value of the result of
    [query_database] or a string, what [datetime.now()] returned (known
    only as the reading of the clock it came from), or [True]. *)
Inductive cell : Type :=
| Val (v : pyval)
| Now (reading : nat)
| PyTrue.

(** [st.session_state], by the five keys the pages use.  A key that has not
    been set is [None]; the three statuses are set to [None] first and to a
    dictionary later. *)
Record session_state : Type := {
  messages : option (list (gmap string cell));
  initialized : option bool;
  db_status : option (option (gmap string info));
  llm_status : option (option (gmap string info));
  agent_status : option (option (gmap string info))
}.

(** The texts in which [main.py] and [main_aws.py] differ. *)
Record wording : Type := {
  initializing : string;
  database_failed : string;
  llm_failed : string;
  analyzing : string
}.

(** A session in which the five keys are set. *)
Definition complete (s : session_state) : Prop :=
  is_Some (messages s) /\ is_Some (initialized s) /\ is_Some (db_status s)
  /\ is_Some (llm_status s) /\ is_Some (agent_status s).

Section Page.

(** [S] is the state of the imported modules: their singletons. *)
Context {S : Type}.

(** [config.validate], [initialize_database], [initialize_llm],
    [initialize_agent] and [query_database], as imported. *)
Record imports : Type := {
  validate : py unit;
  initialize_database : M S (gmap string info);
  initialize_llm : M S (gmap string info);
  initialize_agent : M S (gmap string info);
  query_database : string -> M S (gmap string pyval)
}.

(** The session, the calls of Streamlit made so far, the number of readings
    of the clock so far, and the imported modules. *)
Record page : Type := {
  session : session_state;
  calls : list streamlit.call;
  clock : nat;
  system : S
}.

Context (w : wording) (I : imports).

(** [str] of a list, as Python prints it. *)
Context (repr_info : info -> string) (repr_pyval : pyval -> string).

Definition set_session (f : session_state -> session_state) (p : page) : page :=
  {| session := f (session p); calls := calls p; clock := clock p; system := system p |}.
Definition set_system (s : S) (p : page) : page :=
  {| session := session p; calls := calls p; clock := clock p; system := s |}.

Definition set_messages (ms : list (gmap string cell)) (s : session_state)
  : session_state :=
  {| messages := Some ms; initialized := initialized s; db_status := db_status s;
     llm_status := llm_status s; agent_status := agent_status s |}.
Definition set_initialized (b : bool) (s : session_state) : session_state :=
  {| messages := messages s; initialized := Some b; db_status := db_status s;
     llm_status := llm_status s; agent_status := agent_status s |}.
Definition set_db_status (d : option (gmap string info)) (s : session_state)
  : session_state :=
  {| messages := messages s; initialized := initialized s; db_status := Some d;
     llm_status := llm_status s; agent_status := agent_status s |}.
Definition set_llm_status (d : option (gmap string info)) (s : session_state)
  : session_state :=
  {| messages := messages s; initialized := initialized s; db_status := db_status s;
     llm_status := Some d; agent_status := agent_status s |}.
Definition set_agent_status (d : option (gmap string info)) (s : session_state)
  : session_state :=
  {| messages := messages s; initialized := initialized s; db_status := db_status s;
     llm_status := llm_status s; agent_status := Some d |}.

(** A call of Streamlit. *)
Definition st (c : streamlit.call) : M page unit :=
  assign (fun p => {| session := session p; calls := calls p ++ [c];
                      clock := clock p; system := system p |}).

(** [datetime.now()] *)
Definition datetime_now : M page cell :=
  fun p => (Ret (Now (clock p)),
            {| session := session p; calls := calls p;
               clock := Datatypes.S (clock p); system := system p |}).

(** A call of an imported function. *)
Definition imported {A} (c : M S A) : M page A := within system set_system c.

(** [d[key]]: the value, or [KeyError]. *)
Definition item {V} (d : gmap string V) (key : string) : py V :=
  match d !! key with
  | Some v => Ret v
  | None => Raise ("'" +:+ key +:+ "'")
  end.

(** [v == "success"], for a value of a status dictionary and for a value of
    a result of [query_database]. *)
Definition is_success (v : info) : bool :=
  match v with
  | IStr s => String.eqb s "success"
  | _ => false
  end.

Definition eq_success (v : pyval) : bool :=
  match v with
  | PyStr s => String.eqb s "success"
  | _ => false
  end.

(** What an f-string makes of a value. *)
Definition str_info (v : info) : string :=
  match v with
  | IStr s => s
  | IInt n => pystr.of_Z n
  | _ => repr_info v
  end.

Definition str_pyval (v : pyval) : string :=
  match v with
  | PyStr s => s
  | PyInt n => pystr.of_Z n
  | PyList _ => repr_pyval v
  end.

(** [if v:] on what [result.get(key)] gave. *)
Definition truthy (v : option pyval) : bool :=
  match v with
  | Some (PyStr s) => negb (String.eqb s "")
  | Some (PyInt n) => negb (n =? 0)%Z
  | Some (PyList l) => negb (length l =? 0)%nat
  | None => false
  end.

(** What [for query in v] goes through. *)
Definition iter (v : pyval) : py (list tool_input_value) :=
  match v with
  | PyList l => Ret l
  | PyStr s => Ret ((fun c => InputStr (String c EmptyString)) <$> list_ascii_of_string s)
  | PyInt _ => Raise "'int' object is not iterable"
  end.

(** [initialize_session_state] *)
Definition initialize_session_state : M page unit :=
  assign (set_session (fun s =>
    {| messages := Some (default [] (messages s));
       initialized := Some (default false (initialized s));
       db_status := Some (default None (db_status s));
       llm_status := Some (default None (llm_status s));
       agent_status := Some (default None (agent_status s)) |})).

(** [initialize_system] *)
Definition initialize_system : M page bool :=
  p ← read;
  match initialized (session p) with
  | None => raise "st.session_state has no attribute 'initialized'"
  | Some true => mret true
  | Some false =>
      st (streamlit.spinner (initializing w));;
      try_except
        (lift (validate I);;
         db_status ← imported (initialize_database I);
         assign (set_session (set_db_status (Some db_status)));;
         status ← lift (item db_status "status");
         if negb (is_success status) then
           st (streamlit.error
                 (database_failed w
                  +:+ str_info (default (IStr "Unknown error") (db_status !! "error"))));;
           mret false
         else
           llm_status ← imported (initialize_llm I);
           assign (set_session (set_llm_status (Some llm_status)));;
           status ← lift (item llm_status "status");
           if negb (is_success status) then
             st (streamlit.error
                   (llm_failed w
                    +:+ str_info (default (IStr "Unknown error") (llm_status !! "error"))));;
             mret false
           else
             agent_status ← imported (initialize_agent I);
             assign (set_session (set_agent_status (Some agent_status)));;
             status ← lift (item agent_status "status");
             if negb (is_success status) then
               st (streamlit.error
                     ("Agent initialization failed: "
                      +:+ str_info (default (IStr "Unknown error")
                                      (agent_status !! "error"))));;
               mret false
             else
               assign (set_session (set_initialized true));;
               mret true)
        (fun e =>
         st (streamlit.error ("System initialization error: " +:+ e));;
         mret false)
  end.

(** The three dictionaries [process_user_query] appends to the messages. *)
Definition user_message (question : string) (timestamp : cell) : gmap string cell :=
  <["role" := Val (PyStr "user")]>
  (<["content" := Val (PyStr question)]>
  (<["timestamp" := timestamp]> ∅)).

Definition answer_message (answer sql_queries steps_count : pyval) (timestamp : cell)
  : gmap string cell :=
  <["role" := Val (PyStr "assistant")]>
  (<["content" := Val answer]>
  (<["timestamp" := timestamp]>
  (<["sql_queries" := Val sql_queries]>
  (<["steps_count" := Val steps_count]> ∅)))).

Definition error_message (error_msg : string) (timestamp : cell) : gmap string cell :=
  <["role" := Val (PyStr "assistant")]>
  (<["content" := Val (PyStr error_msg)]>
  (<["timestamp" := timestamp]>
  (<["error" := PyTrue]> ∅))).

(** [st.session_state.messages.append({..., "timestamp": datetime.now(), ...})]:
    the list is looked up, then the dictionary is made. *)
Definition append (message : cell -> gmap string cell) : M page unit :=
  p ← read;
  match messages (session p) with
  | None => raise "st.session_state has no attribute 'messages'"
  | Some ms =>
      timestamp ← datetime_now;
      assign (set_session (set_messages (ms ++ [message timestamp])))
  end.

(** The loop [for i, query in enumerate(..., 1): st.code(query, language="sql")] *)
Definition show (queries : list tool_input_value) : M page unit :=
  foldr (fun query rest => st (streamlit.code query "sql");; rest) (mret tt) queries.

(** [process_user_query] *)
Definition process_user_query (question : string) : M page unit :=
  append (user_message question);;
  st (streamlit.chat_message "user");;
  st (streamlit.write (PyStr question));;
  st (streamlit.chat_message "assistant");;
  st (streamlit.spinner (analyzing w));;
  try_except
    (result ← imported (query_database I question);
     status ← lift (item result "status");
     if eq_success status then
       answer ← lift (item result "answer");
       st (streamlit.write answer);;
       (if truthy (result !! "sql_queries") then
          st (streamlit.expander "🔍 View SQL Queries");;
          sql_queries ← lift (item result "sql_queries");
          queries ← lift (iter sql_queries);
          show queries
        else mret tt);;
       append (answer_message answer
                 (default (PyList []) (result !! "sql_queries"))
                 (default (PyInt 0) (result !! "steps_count")))
     else
       let error_msg :=
         "I encountered an error: "
         +:+ str_pyval (default (PyStr "Unknown error") (result !! "error")) in
       st (streamlit.error error_msg);;
       append (error_message error_msg))
    (fun e =>
     let error_msg := "An unexpected error occurred: " +:+ e in
     st (streamlit.error error_msg);;
     append (error_message error_msg)).

End Page.
End page.

(** [app/main.py] *)
Module main.

Definition wording : page.wording :=
  {| page.initializing := "Initializing system...";
     page.database_failed := "Database initialization failed: ";
     page.llm_failed := "LLM initialization failed: ";
     page.analyzing := "Analyzing your question and querying database..." |}.

Section Imports.

Context {float engine LLM : Type}.
Context (sa : sqlalchemy.api engine) (lc : agents.api LLM).
Context (config : config.Config float) (vx : llm.api (float:=float) (LLM:=LLM)).
Context (get_tools : agents.SQLDatabaseToolkit LLM -> py (list (string * string))).

(** The singletons of [app/agent.py], [app/database.py] and [app/llm.py];
    the one of [app/database.py] is [None] until its first use. *)
Definition system : Type :=
  sql_agent.process (option database.BigQueryDatabase) (llm.LLMManager (LLM:=LLM)) LLM.

(** What [app/agent.py] reaches through [get_database_instance()] and
    [get_llm_instance()], and reads from [config]. *)
Definition backend
  : sql_agent.backend (option database.BigQueryDatabase) (llm.LLMManager (LLM:=LLM)) LLM :=
  {| sql_agent.get_database :=
       BigQueryDatabase.on_instance config (database.get_database sa);
     sql_agent.get_llm := llm.get_llm config vx;
     sql_agent.SQL_AGENT_MAX_ITERATIONS := config.SQL_AGENT_MAX_ITERATIONS config;
     sql_agent.SQL_AGENT_MAX_EXECUTION_TIME := config.SQL_AGENT_MAX_EXECUTION_TIME config;
     sql_agent.SQL_TOP_K_RESULTS := config.SQL_TOP_K_RESULTS config;
     sql_agent.SQL_AGENT_SYSTEM_PROMPT := agent.SQL_AGENT_SYSTEM_PROMPT |}.

(** The imports of [app/main.py]. *)
Definition imports : page.imports (S:=system) :=
  {| page.validate := Config.validate config;
     page.initialize_database :=
       within sql_agent.db_instance sql_agent.set_db_instance
         (BigQueryDatabase.initialize_database sa config);
     page.initialize_llm :=
       within sql_agent.llm_manager sql_agent.set_llm_manager
         (llm.initialize_llm config vx);
     page.initialize_agent := SQLAgentManager.initialize_agent lc backend get_tools;
     page.query_database := SQLAgentManager.query_database lc backend |}.

(** The process as the page finds it when the script runs first. *)
Definition start : system := facade.start None llm.__init__.

End Imports.

End main.

(** [app/main_aws.py] *)
Module main_aws.

Definition wording : page.wording :=
  {| page.initializing := "Initializing AWS services...";
     page.database_failed := "Redshift initialization failed: ";
     page.llm_failed := "Bedrock initialization failed: ";
     page.analyzing := "Analyzing with Claude and querying Redshift..." |}.

End main_aws.

(** ** Collaborators for the rest of the modules *)

Module setups.

(** A library whose toolkit can be made but whose [create_sql_agent]
    raises. *)
Definition no_agent : agents.api unit :=
  {| agents.SQLDatabaseToolkit_new := fun db llm =>
       Ret {| agents.db := db; agents.llm := llm |};
     agents.create_sql_agent := fun _ => Raise "unsupported agent type" |}.

(** A library that can make neither. *)
Definition no_toolkit : agents.api unit :=
  {| agents.SQLDatabaseToolkit_new := fun _ _ => Raise "no toolkit";
     agents.create_sql_agent := fun _ => Raise "unsupported agent type" |}.

(** A toolkit of two tools. *)
Definition two_tools (toolkit : agents.SQLDatabaseToolkit unit)
  : py (list (string * string)) :=
  Ret [("sql_db_query", "Execute a SQL query against the database.");
       ("sql_db_list_tables", "List the tables of the database.")].

(** Vertex AI as it should be; with a model name it does not know; and out
    of reach. *)
Definition vertex : llm.api (float:=string) (LLM:=unit) :=
  {| llm.vertexai_init := fun _ _ => Ret tt;
     llm.ChatVertexAI := fun _ _ _ _ _ _ _ => Ret tt;
     llm.invoke := fun _ _ =>
       Ret {| llm.content := Some "Hello"; llm.str_of := "content='Hello'" |} |}.

Definition vertex_no_model : llm.api (float:=string) (LLM:=unit) :=
  {| llm.vertexai_init := fun _ _ => Ret tt;
     llm.ChatVertexAI := fun _ _ _ _ _ _ _ => Raise "model not found";
     llm.invoke := fun _ _ => Raise "model not found" |}.

Definition vertex_down : llm.api (float:=string) (LLM:=unit) :=
  {| llm.vertexai_init := fun _ _ => Raise "permission denied";
     llm.ChatVertexAI := fun _ _ _ _ _ _ _ => Raise "permission denied";
     llm.invoke := fun _ _ => Raise "permission denied" |}.

(** The configuration and the process of [app/agent.py] on a fresh start,
    with the model manager of [app/llm.py]. *)
Definition cfg : config.Config string := scenario.settings 15 100 10.

Definition fresh : sql_agent.process database.BigQueryDatabase unit unit :=
  facade.start (database.__init__ cfg) tt.

Definition fresh_llm
  : sql_agent.process database.BigQueryDatabase (llm.LLMManager (LLM:=unit)) unit :=
  facade.start (database.__init__ cfg) llm.__init__.

Definition B (sa : sqlalchemy.api string)
  : sql_agent.backend database.BigQueryDatabase unit unit :=
  agent.backend sa cfg scenario.get_llm.

(** Bedrock throttling the first [n] calls of the model and answering the
    next ones. *)
Definition throttled (n : nat) : llm_aws.api (float:=string) (client:=unit) (LLM:=unit) :=
  {| llm_aws.boto3_client := fun _ _ => llm_aws.Ok tt;
     llm_aws.ChatBedrock := fun _ _ _ _ _ _ _ => llm_aws.Ok tt;
     llm_aws.invoke := fun _ calls _ =>
       if (calls <? n)%nat
       then llm_aws.Err (llm_aws.ClientError (Some "ThrottlingException")
                           "An error occurred (ThrottlingException): Too many requests")
       else llm_aws.Ok {| llm_aws.content := Some "Hello";
                          llm_aws.str_of := "content='Hello'" |} |}.

(** Bedrock out of reach. *)
Definition bedrock_down : llm_aws.api (float:=string) (client:=unit) (LLM:=unit) :=
  {| llm_aws.boto3_client := fun _ _ =>
       llm_aws.Err (llm_aws.OtherError "Unable to locate credentials");
     llm_aws.ChatBedrock := fun _ _ _ _ _ _ _ =>
       llm_aws.Err (llm_aws.OtherError "Unable to locate credentials");
     llm_aws.invoke := fun _ _ _ =>
       llm_aws.Err (llm_aws.OtherError "Unable to locate credentials") |}.

(** The world of a manager that has just been made. *)
Definition dawn : llm_aws.world (client:=unit) (LLM:=unit) :=
  {| llm_aws.manager := llm_aws.__init__; llm_aws.calls := 0; llm_aws.slept := [] |}.

(** A configuration that names its project. *)
Definition configured : config.Config string :=
  {| config.PROJECT_ID := "acme-analytics";
     config.LOCATION := "us-central1";
     config.BIGQUERY_DATASET := "automotive_data";
     config.BIGQUERY_LOCATION := "US";
     config.GEMINI_MODEL := "gemini-2.0-flash-lite-001";
     config.GEMINI_TEMPERATURE := "0.1";
     config.GEMINI_MAX_OUTPUT_TOKENS := 2048;
     config.GEMINI_TOP_P := "0.95";
     config.GEMINI_TOP_K := 40;
     config.GOOGLE_APPLICATION_CREDENTIALS := None;
     config.APP_TITLE := "Automotive Sales Analytics Chatbot";
     config.MAX_CHAT_HISTORY := 10;
     config.LANGCHAIN_TRACING_V2 := false;
     config.LANGCHAIN_API_KEY := None;
     config.LANGCHAIN_PROJECT := None;
     config.SQL_AGENT_MAX_ITERATIONS := 15;
     config.SQL_AGENT_MAX_EXECUTION_TIME := 100;
     config.SQL_TOP_K_RESULTS := 10;
     config.LOG_LEVEL := "INFO";
     config.SESSION_TIMEOUT_MINUTES := 30 |}.

(** The agent library over a completion capability that lists the tables
    and answers. *)
Definition lists_tables : agents.api unit :=
  reasoning_loop.api (scenario.scripted scenario.list_all_tables scenario.frozen).

(** The imports of [app/main.py] over a configuration, a warehouse and the
    agent library. *)
Definition imports (config : config.Config string) (sa : sqlalchemy.api string)
    (lc : agents.api unit) : page.imports :=
  main.imports sa lc config vertex two_tools.

(** Lists are not printed in these runs. *)
Definition repr_info (v : info) : string := "[...]".
Definition repr_pyval (v : pyval) : string := "[...]".

(** The page when the script runs first, and after
    [initialize_session_state]. *)
Definition blank : page.page (S:=main.system (LLM:=unit)) :=
  {| page.session := {| page.messages := None; page.initialized := None;
                        page.db_status := None; page.llm_status := None;
                        page.agent_status := None |};
     page.calls := [];
     page.clock := 0;
     page.system := main.start |}.

Definition opened : page.page (S:=main.system (LLM:=unit)) :=
  {| page.session := {| page.messages := Some []; page.initialized := Some false;
                        page.db_status := Some None; page.llm_status := Some None;
                        page.agent_status := Some None |};
     page.calls := [];
     page.clock := 0;
     page.system := main.start |}.

End setups.

(** * Properties *)

Local Open Scope list_scope.

(** ** The trace extraction *)

Section Extraction.

Import sql_agent facade.

Lemma extract_step_selected sql_queries step :
  extract_step sql_queries step = sql_queries ++ option_list (selected step).
Proof.
  unfold extract_step, selected.
  destruct (2 <=? length step)%nat; [|by rewrite app_nil_r].
  destruct (step !! 0%nat) as [action|]; simpl; [|by rewrite app_nil_r].
  destruct (agents.hasattr_tool action) as [tool|]; simpl; [|by rewrite app_nil_r].
  destruct (pystr.contains _ _); [|by rewrite app_nil_r].
  destruct (agents.hasattr_tool_input action); simpl; [done|by rewrite app_nil_r].
Qed.

Lemma foldl_extract_step steps : forall sql_queries,
  foldl extract_step sql_queries steps = sql_queries ++ omap selected steps.
Proof.
  induction steps as [|step steps IH]; intros acc; simpl.
  - by rewrite app_nil_r.
  - rewrite IH, extract_step_selected, <- app_assoc.
    by destruct (selected step).
Qed.

(** The loop collects, in order and with repetitions, the [tool_input] of
    every step of at least two members whose first member has a [tool]
    whose lower-cased name contains [sql], and a [tool_input]. *)
Lemma extract_sql_queries_omap steps :
  extract_sql_queries steps = omap selected steps.
Proof. unfold extract_sql_queries. by rewrite foldl_extract_step. Qed.

Lemma extract_sql_queries_nil : extract_sql_queries [] = [].
Proof. reflexivity. Qed.

Lemma extract_sql_queries_app steps1 steps2 :
  extract_sql_queries (steps1 ++ steps2)
  = extract_sql_queries steps1 ++ extract_sql_queries steps2.
Proof. rewrite !extract_sql_queries_omap. apply omap_app. Qed.

Lemma length_omap_le {A B} (f : A -> option B) (l : list A) :
  length (omap f l) <= length l.
Proof.
  induction l as [|x l IH]; csimpl; [lia|].
  destruct (f x); csimpl; lia.
Qed.

Lemma extract_sql_queries_length steps :
  length (extract_sql_queries steps) <= length steps.
Proof. rewrite extract_sql_queries_omap. apply length_omap_le. Qed.

(** Every tool of the toolkit has [sql] in its name. *)
Lemma tool_name_contains_sql k :
  pystr.contains "sql" (pystr.lower (reasoning_loop.tool_name k)) = true.
Proof. by destruct k. Qed.

(** So, on the steps of a run over the catalog, the loop returns the input
    of every action, whatever its kind. *)
Lemma extract_sql_queries_steps_of trajectory :
  extract_sql_queries (reasoning_loop.steps_of trajectory)
  = (fun s => InputStr s.1.2) <$> trajectory.
Proof.
  rewrite extract_sql_queries_omap. unfold reasoning_loop.steps_of.
  induction trajectory as [|[[k input] obs] trajectory IH]; csimpl; [done|].
  rewrite IH. unfold selected. simpl.
  by rewrite tool_name_contains_sql.
Qed.

(** It agrees with the extraction by action kind exactly on the runs that
    took execute actions only. *)
Lemma extract_sql_queries_execute_only trajectory :
  Forall (fun s => reasoning_loop.is_execute s.1.1 = true) trajectory ->
  extract_sql_queries (reasoning_loop.steps_of trajectory)
  = reasoning_loop.extract_sql trajectory.
Proof.
  intros Hall. rewrite extract_sql_queries_steps_of.
  unfold reasoning_loop.extract_sql.
  induction Hall as [|s trajectory Hs Hall IH]; [done|].
  rewrite filter_cons_True by done. rewrite !fmap_cons. by rewrite IH.
Qed.

(** C1, at the run of the question "List all tables": one list-tables
    action, whose input is the empty string.  The extraction by action
    kind returns no SQL; the loop of [query] returns the empty string as
    the one SQL query of the run. *)
Theorem extract_sql_queries_keeps_list_tables_input :
  let trajectory := [(reasoning_loop.ListTables, "", "vehicles, dealerships")] in
  extract_sql_queries (reasoning_loop.steps_of trajectory) = [InputStr ""]
  /\ reasoning_loop.extract_sql trajectory = [].
Proof. split; reflexivity. Qed.

End Extraction.

(** ** The facade: [query] *)

Ltac unfold_M :=
  unfold mbind, mret, M_mbind, M_ret, bind, ret, lift, raise, try_except,
    read, assign, within in *.

Section Query.

Context {DB LLMM LLM : Type}.
Context (lc : agents.api LLM) (B : sql_agent.backend DB LLMM LLM).

Import facade.

(** [query] is its [try] block when the agent run returns, and its handler
    when the run raises; the process is left as the run left it. *)
Lemma query_outcome question p :
  sql_agent.query lc B question p =
  match attempt lc B question p with
  | (Ret result, p') =>
      (Ret (success_result question
              (default "No response generated" (agents.output result))
              (default [] (agents.intermediate_steps result))), p')
  | (Raise e, p') => (Ret (error_result question e), p')
  end.
Proof.
  unfold sql_agent.query, attempt. unfold_M.
  destruct (sql_agent.create_agent lc B p) as [[agent|e] p']; [|done].
  by destruct (agents.invoke agent question).
Qed.

Lemma query_returns question p :
  exists r p', sql_agent.query lc B question p = (Ret r, p').
Proof.
  rewrite query_outcome.
  destruct (attempt lc B question p) as [[result|e] p']; eauto.
Qed.

Lemma success_result_lookup question output steps :
  success_result question output steps !! "status" = Some (PyStr "success")
  /\ success_result question output steps !! "question" = Some (PyStr question)
  /\ success_result question output steps !! "answer" = Some (PyStr output)
  /\ success_result question output steps !! "sql_queries"
     = Some (PyList (sql_agent.extract_sql_queries steps))
  /\ success_result question output steps !! "steps_count"
     = Some (PyInt (Z.of_nat (length steps)))
  /\ success_result question output steps !! "error" = None.
Proof. unfold success_result. repeat split; by simplify_map_eq. Qed.

Lemma error_result_lookup question e :
  error_result question e !! "status" = Some (PyStr "error")
  /\ error_result question e !! "question" = Some (PyStr question)
  /\ error_result question e !! "error" = Some (PyStr e)
  /\ error_result question e !! "answer" = None
  /\ error_result question e !! "sql_queries" = None
  /\ error_result question e !! "steps_count" = None.
Proof. unfold error_result. repeat split; by simplify_map_eq. Qed.

(** Where the exception of a failed attempt comes from: from getting the
    agent, or from running it. *)
Lemma attempt_raises question p e :
  (attempt lc B question p).1 = Raise e <->
  (sql_agent.create_agent lc B p).1 = Raise e
  \/ exists a, (sql_agent.create_agent lc B p).1 = Ret a
               /\ agents.invoke a question = Raise e.
Proof.
  unfold attempt. unfold_M.
  destruct (sql_agent.create_agent lc B p) as [[a|e'] p']; simpl.
  - split.
    + intros He. right. eauto.
    + intros [He|(a' & Ha & He)]; [discriminate He|].
      injection Ha as <-. exact He.
  - split.
    + intros [= ->]. by left.
    + intros [[= ->]|(a' & Ha & _)]; [done|discriminate Ha].
Qed.

(** A manager without agent gets one made; a failure of the database
    connection, or of the model, is a failure of [create_agent], with the
    same exception. *)
Lemma create_agent_raises_database p e :
  sql_agent._agent (sql_agent.manager p) = None ->
  (sql_agent.get_database B (sql_agent.db_instance p)).1 = Raise e ->
  (sql_agent.create_agent lc B p).1 = Raise e.
Proof.
  unfold sql_agent.create_agent. unfold_M. intros -> Hdb.
  by destruct (sql_agent.get_database B (sql_agent.db_instance p)) as [[db|e'] d'];
    simpl in *; simplify_eq.
Qed.

Lemma create_agent_raises_llm p db d' e :
  sql_agent._agent (sql_agent.manager p) = None ->
  sql_agent.get_database B (sql_agent.db_instance p) = (Ret db, d') ->
  (sql_agent.get_llm B (sql_agent.llm_manager p)).1 = Raise e ->
  (sql_agent.create_agent lc B p).1 = Raise e.
Proof.
  unfold sql_agent.create_agent. unfold_M. intros -> -> Hllm. simpl.
  by destruct (sql_agent.get_llm B (sql_agent.llm_manager p)) as [[llm|e'] l'];
    simpl in *; simplify_eq.
Qed.

End Query.

Section QueryShapes.

Context {DB LLMM LLM : Type}.
Context (lc : agents.api LLM) (B : sql_agent.backend DB LLMM LLM).

Import facade.

Lemma success_result_shaped question output steps :
  success_shaped (success_result question output steps).
Proof.
  destruct (success_result_lookup question output steps) as (?&?&?&?&?&?).
  split; [done|]. split; [eauto 10|].
  unfold success_result. rewrite !dom_insert_L, dom_empty_L. set_solver.
Qed.

Lemma error_result_shaped question e : error_shaped (error_result question e).
Proof.
  destruct (error_result_lookup question e) as (?&?&?&?&?&?).
  split; [done|]. split; [eauto|]. do 2 (split; [done|]).
  unfold error_result. rewrite !dom_insert_L, dom_empty_L. set_solver.
Qed.

Lemma query_shape question p :
  exists r p', sql_agent.query lc B question p = (Ret r, p')
    /\ ((exists output steps, r = success_result question output steps)
        \/ (exists e, r = error_result question e)).
Proof.
  rewrite query_outcome.
  destruct (attempt lc B question p) as [[result|e] p']; eauto 10.
Qed.

Lemma query_converts_exceptions question :
  converts_exceptions (attempt lc B question) (sql_agent.query lc B question).
Proof.
  intros p. rewrite query_outcome.
  destruct (attempt lc B question p) as [[result|e] p']; simpl.
  - eexists _, _. split; [done|]. intros e He. discriminate He.
  - eexists _, _. split; [done|]. intros e' [= <-].
    unfold clean_error. pose proof (error_result_lookup question e). tauto.
Qed.

Lemma query_question question p :
  exists r p', sql_agent.query lc B question p = (Ret r, p')
    /\ r !! "question" = Some (PyStr question).
Proof.
  destruct (query_shape question p) as (r & p' & Hq & [(o & st & ->)|(e & ->)]).
  - eexists _, _. split; [done|]. apply success_result_lookup.
  - eexists _, _. split; [done|]. apply error_result_lookup.
Qed.

Lemma query_sql_queries_le question p r p' :
  sql_agent.query lc B question p = (Ret r, p') ->
  r !! "status" = Some (PyStr "success") ->
  exists sql_queries steps_count,
    r !! "sql_queries" = Some (PyList sql_queries)
    /\ r !! "steps_count" = Some (PyInt steps_count)
    /\ (Z.of_nat (length sql_queries) <= steps_count)%Z.
Proof.
  intros Hq Hstatus.
  destruct (query_shape question p) as (r0 & p0 & Hq0 & Hr).
  rewrite Hq in Hq0. injection Hq0 as <- <-.
  destruct Hr as [(o & st & ->)|(e & ->)].
  - destruct (success_result_lookup question o st) as (_&_&_&Hsql&Hcount&_).
    eexists _, _. split; [exact Hsql|]. split; [exact Hcount|].
    pose proof (extract_sql_queries_length st). lia.
  - destruct (error_result_lookup question e) as (He&_).
    rewrite He in Hstatus. discriminate Hstatus.
Qed.

End QueryShapes.

(** ** The facade of both deployments *)

Section Facades.

Context {float engine client LLMM LLM : Type}.
Context (sa : sqlalchemy.api engine) (aws : boto3.api client) (lc : agents.api LLM).
Context (config : config.Config float) (config_aws : config_aws.ConfigAWS float).
Context (get_llm : M LLMM LLM).

(** C3: [query] never raises.  Whatever the process and the question, it
    returns a dictionary; and when getting the agent or running it raised
    an exception (from the database connection, the model, the toolkit or
    the run itself), that dictionary has status [error], the text of the
    exception under [error], and no [answer], [sql_queries] or
    [steps_count].  This holds for [SQLAgentManager] and for
    [SQLAgentManagerAWS]. *)
Theorem query_never_raises (question : string) :
  facade.converts_exceptions
    (facade.attempt lc (agent.backend sa config get_llm) question)
    (agent.query sa lc config get_llm question)
  /\ facade.converts_exceptions
       (facade.attempt lc (agent_aws.backend sa aws config_aws get_llm) question)
       (agent_aws.query sa aws lc config_aws get_llm question).
Proof. split; apply query_converts_exceptions. Qed.

(** C4: every result of [query] has one of two shapes.  Either its status
    is [success] and it carries an answer string, a list under
    [sql_queries] and an integer under [steps_count]; or its status is
    [error] and it carries one error string, no [answer] and no
    [sql_queries].  The keys of the dictionary are exactly those. *)
Theorem query_result_shape (question : string) (p : agent.process) :
  exists r p',
    agent.query sa lc config get_llm question p = (Ret r, p')
    /\ (facade.success_shaped r \/ facade.error_shaped r).
Proof.
  destruct (query_shape lc (agent.backend sa config get_llm) question p)
    as (r & p' & Hq & [(o & st & ->)|(e & ->)]); eexists _, p'; (split; [exact Hq|]).
  - left. apply success_result_shaped.
  - right. apply error_result_shaped.
Qed.

(** C9: on a [success] result, the list under [sql_queries] is no longer
    than [steps_count]. *)
Theorem sql_queries_at_most_steps_count
    (question : string) (p p' : agent.process) (r : gmap string pyval) :
  agent.query sa lc config get_llm question p = (Ret r, p') ->
  r !! "status" = Some (PyStr "success") ->
  exists sql_queries steps_count,
    r !! "sql_queries" = Some (PyList sql_queries)
    /\ r !! "steps_count" = Some (PyInt steps_count)
    /\ (Z.of_nat (length sql_queries) <= steps_count)%Z.
Proof. apply query_sql_queries_le. Qed.

(** C10: every result of [query], of either status and of either
    deployment, holds the question, as given, under [question]. *)
Theorem query_echoes_question (question : string) :
  (forall p : agent.process, exists r p',
      agent.query sa lc config get_llm question p = (Ret r, p')
      /\ r !! "question" = Some (PyStr question))
  /\ (forall p : agent_aws.process, exists r p',
        agent_aws.query sa aws lc config_aws get_llm question p = (Ret r, p')
        /\ r !! "question" = Some (PyStr question)).
Proof. split; intros p; apply query_question. Qed.

End Facades.

(** The database that raises on every call: the result is a clean error. *)
Lemma query_never_raises_witness :
  exists r,
    scenario.ask scenario.unreachable (scenario.settings 15 100 10)
      (scenario.scripted scenario.total_revenue scenario.frozen) "Total revenue in 2024"
    = Ret r
    /\ facade.clean_error "connection refused" r.
Proof.
  destruct (query_never_raises scenario.unreachable scenario.aws
              (reasoning_loop.api (scenario.scripted scenario.total_revenue scenario.frozen))
              (scenario.settings 15 100 10) (scenario.settings_aws false)
              scenario.get_llm "Total revenue in 2024") as [Hgcp _].
  destruct (Hgcp (facade.start (database.__init__ (scenario.settings 15 100 10)) tt))
    as (r & p' & Hq & Herr).
  exists r. split.
  - unfold scenario.ask. rewrite Hq. reflexivity.
  - apply Herr. reflexivity.
Defined.

(** The run of "Total revenue in 2024": one query, one step. *)
Lemma sql_queries_at_most_steps_count_witness :
  exists r,
    scenario.ask scenario.reachable (scenario.settings 15 100 10)
      (scenario.scripted scenario.total_revenue scenario.frozen) "Total revenue in 2024"
    = Ret r
    /\ r !! "status" = Some (PyStr "success")
    /\ exists sql_queries steps_count,
         r !! "sql_queries" = Some (PyList sql_queries)
         /\ r !! "steps_count" = Some (PyInt steps_count)
         /\ (Z.of_nat (length sql_queries) <= steps_count)%Z.
Proof.
  eexists. split; [reflexivity|]. split; [reflexivity|].
  eapply (sql_queries_at_most_steps_count scenario.reachable
            (reasoning_loop.api (scenario.scripted scenario.total_revenue scenario.frozen))
            (scenario.settings 15 100 10) scenario.get_llm "Total revenue in 2024"
            (facade.start (database.__init__ (scenario.settings 15 100 10)) tt)).
  - reflexivity.
  - reflexivity.
Defined.

(** ** The warehouse wrappers *)

(** Case analysis on an innermost scrutinee of the goal. *)
Ltac case_step :=
  match goal with
  | |- context [match ?x with _ => _ end] =>
      lazymatch x with
      | context [match _ with _ => _ end] => fail
      | _ => destruct x eqn:?; simpl in *
      end
  end.

Section Databases.

Context {float engine client : Type}.
Context (sa : sqlalchemy.api engine) (aws : boto3.api client).
Context (config : config.Config float) (config_aws : config_aws.ConfigAWS float).

(** C5: [run_query] never raises.  For every SQL string and every state of
    the wrapper it returns a string: the result of the query when the
    connection is there and the query runs, and otherwise the text
    "Error executing query: " followed by the error of the step that
    raised, be it the connection or the query.  This holds for
    [BigQueryDatabase] and for [RedshiftDatabase]. *)
Theorem run_query_returns_text (query : string) :
  (forall self : database.BigQueryDatabase, exists text self',
      database.run_query sa query self = (Ret text, self')
      /\ facade.result_or_error (database.get_database sa self).1 query text)
  /\ (forall self : database_aws.RedshiftDatabase, exists text self',
        database_aws.run_query sa aws config_aws query self = (Ret text, self')
        /\ facade.result_or_error
             (database_aws.get_database sa aws config_aws self).1 query text).
Proof.
  split; intros self.
  - unfold database.run_query. unfold_M.
    destruct (database.get_database sa self) as [[db|e] self']; simpl.
    + destruct (langchain.run db query); eauto.
    + eauto.
  - unfold database_aws.run_query. unfold_M.
    destruct (database_aws.get_database sa aws config_aws self) as [[db|e] self']; simpl.
    + destruct (langchain.run db query); eauto.
    + eauto.
Qed.

(** C7: asking for the description of the same tables twice in a row gives
    the same text twice, whatever the state of the wrapper before the first
    call (connected or not, and whether or not the connection can be
    made); the warehouse is the same at both calls. *)
Theorem get_table_info_twice (table_names : option (list string)) :
  (forall self : database.BigQueryDatabase,
      (database.get_table_info sa table_names
         (database.get_table_info sa table_names self).2).1
      = (database.get_table_info sa table_names self).1)
  /\ (forall self : database_aws.RedshiftDatabase,
        (database_aws.get_table_info sa aws config_aws table_names
           (database_aws.get_table_info sa aws config_aws table_names self).2).1
        = (database_aws.get_table_info sa aws config_aws table_names self).1).
Proof.
  split; intros [db].
  - unfold database.get_table_info, database.get_database, database.set_db.
    unfold_M. simpl.
    repeat case_step; congruence.
  - unfold database_aws.get_table_info, database_aws.get_database,
      database_aws._build_connection_uri, database_aws._get_iam_credentials,
      database_aws.set_db, database_aws.set_connection_uri,
      database_aws.set_redshift_client.
    unfold_M. simpl.
    repeat case_step; congruence.
Qed.

End Databases.

(** ** The configuration *)

Section Configuration.

Context {float : Type} (py_float : string -> py float).

Lemma getenv_unset (env : os.environ) key fallback :
  env !! key = None -> os.getenv env key fallback = fallback.
Proof. unfold os.getenv. by intros ->. Qed.

(** C8: in an environment that sets none of the three variables, the
    assignments of the agent settings give 15 reasoning steps, 100 seconds
    and 10 rows, in [Config] and in [ConfigAWS] alike; and these are the
    values the configuration object holds whenever the class body gets
    evaluated to its end. *)
Theorem sql_agent_defaults (env : os.environ) :
  env !! "SQL_AGENT_MAX_ITERATIONS" = None ->
  env !! "SQL_AGENT_MAX_EXECUTION_TIME" = None ->
  env !! "SQL_TOP_K_RESULTS" = None ->
  config.sql_agent_configuration env = Ret (15, 100, 10)%Z
  /\ config_aws.sql_agent_configuration env = Ret (15, 100, 10)%Z
  /\ (forall c, config.class_Config py_float env = Ret c ->
        config.SQL_AGENT_MAX_ITERATIONS c = 15%Z
        /\ config.SQL_AGENT_MAX_EXECUTION_TIME c = 100%Z
        /\ config.SQL_TOP_K_RESULTS c = 10%Z)
  /\ (forall c, config_aws.class_ConfigAWS py_float env = Ret c ->
        config_aws.SQL_AGENT_MAX_ITERATIONS c = 15%Z
        /\ config_aws.SQL_AGENT_MAX_EXECUTION_TIME c = 100%Z
        /\ config_aws.SQL_TOP_K_RESULTS c = 10%Z).
Proof.
  intros Hiter Htime Htopk.
  assert (Hgcp : config.sql_agent_configuration env = Ret (15, 100, 10)%Z).
  { unfold config.sql_agent_configuration.
    by rewrite !getenv_unset by done. }
  assert (Haws : config_aws.sql_agent_configuration env = Ret (15, 100, 10)%Z).
  { unfold config_aws.sql_agent_configuration.
    by rewrite !getenv_unset by done. }
  split; [done|]. split; [done|]. split.
  - intros c. unfold config.class_Config. rewrite Hgcp.
    unfold mbind, mret, py_mbind, py_ret, py_bind.
    repeat case_step; by intros [= <-].
  - intros c. unfold config_aws.class_ConfigAWS. rewrite Haws.
    unfold mbind, mret, py_mbind, py_ret, py_bind.
    repeat case_step; by intros [= <-].
Qed.

End Configuration.

(** The empty environment: both class bodies evaluate, to the defaults. *)
Lemma sql_agent_defaults_witness :
  config.class_Config (float:=string) Ret ∅ = Ret (scenario.settings 15 100 10)
  /\ config_aws.class_ConfigAWS (float:=string) Ret ∅ = Ret (scenario.settings_aws false)
  /\ config.SQL_AGENT_MAX_ITERATIONS (scenario.settings 15 100 10) = 15%Z
  /\ config_aws.SQL_TOP_K_RESULTS (scenario.settings_aws false) = 10%Z.
Proof.
  destruct (sql_agent_defaults (float:=string) Ret ∅)
    as (_ & _ & Hgcp & Haws); [reflexivity..|].
  split; [reflexivity|]. split; [reflexivity|]. split.
  - apply (Hgcp (scenario.settings 15 100 10)). reflexivity.
  - apply (Haws (scenario.settings_aws false)). reflexivity.
Defined.

(** ** The reasoning loop *)

Section LoopFacts.

Import reasoning_loop budgets.

Context {LLM : Type} (cap : capabilities (LLM:=LLM)).
Context (kw : agents.create_sql_agent_kwargs LLM).

(** A run only appends to the trajectory it starts from, at most [budget]
    steps; it appends exactly [budget] steps when it stops on the step
    limit, and fewer when it stops on the time limit, which it does only
    once the clock has reached the limit. *)
Lemma run_extends question budget : forall trajectory t,
  run cap kw question budget trajectory = Ret t ->
  exists extra,
    steps t = trajectory ++ extra
    /\ length extra <= budget
    /\ match terminal t with
       | aborted StepLimit => length extra = budget
       | aborted TimeLimit =>
           length extra < budget
           /\ (agents.kw_max_execution_time kw <= elapsed cap (length (steps t)))%Z
       | final_answer _ => True
       end.
Proof.
  induction budget as [|budget IH]; intros trajectory t; simpl.
  - intros [= <-]. exists []. simpl. rewrite app_nil_r. repeat split; lia.
  - destruct (agents.kw_max_execution_time kw <=? elapsed cap (length trajectory))%Z
      eqn:Hclock.
    { intros [= <-]. exists []. simpl. rewrite app_nil_r.
      apply Z.leb_le in Hclock. repeat split; [lia..|done]. }
    destruct (complete cap _ _) as [text|e]; [|discriminate].
    destruct (parse cap text) as [name input|answer|].
    + intros Hrun. apply IH in Hrun as (extra & Hsteps & Hlen & Hterm).
      exists (mk_step name input (observe cap kw name input) :: extra).
      rewrite Hsteps, <- app_assoc. simpl.
      split; [done|]. split; [lia|].
      destruct (terminal t) as [|[]]; [done|lia|].
      destruct Hterm as [? Hclk]. split; [lia|].
      by rewrite Hsteps, <- app_assoc in Hclk.
    + intros [= <-]. exists []. simpl. rewrite app_nil_r. repeat split; lia.
    + intros Hrun. apply IH in Hrun as (extra & Hsteps & Hlen & Hterm).
      exists (parse_failure_step :: extra).
      rewrite Hsteps, <- app_assoc. simpl.
      split; [done|]. split; [lia|].
      destruct (terminal t) as [|[]]; [done|lia|].
      destruct Hterm as [? Hclk]. split; [lia|].
      by rewrite Hsteps, <- app_assoc in Hclk.
Qed.

(** The trajectory of a run never exceeds the step budget. *)
Lemma run_within_budget question budget t :
  run cap kw question budget [] = Ret t ->
  length (steps t) <= budget.
Proof.
  intros Hrun. apply run_extends in Hrun as (extra & -> & Hlen & _).
  simpl. lia.
Qed.

(** With such a capability, and as long as the clock stays below the time
    limit, the run takes every step of its budget and stops on the step
    limit. *)
Lemma run_exhausts_step_budget question budget : forall trajectory,
  always_proposes_invalid_action cap ->
  (forall n, n < length trajectory + budget ->
     (elapsed cap n < agents.kw_max_execution_time kw)%Z) ->
  exists t,
    run cap kw question budget trajectory = Ret t
    /\ terminal t = aborted StepLimit
    /\ length (steps t) = length trajectory + budget.
Proof.
  intros trajectory [Hcomplete Hparse].
  revert trajectory.
  induction budget as [|budget IH]; intros trajectory Hclock; simpl.
  - eexists. split; [done|]. simpl. split; [done|lia].
  - destruct (Z.leb_spec (agents.kw_max_execution_time kw)
                (elapsed cap (length trajectory))) as [Hle|_].
    { specialize (Hclock (length trajectory)). lia. }
    destruct (Hcomplete (agents.kw_llm kw)
                (render_prompt cap (agents.kw_prefix kw) trajectory question))
      as [text ->].
    destruct (Hparse text) as (name & input & -> & _).
    destruct (IH (trajectory ++ [mk_step name input (observe cap kw name input)]))
      as (t & Hrun & Hterm & Hlen).
    { intros n Hn. apply Hclock. rewrite length_app in Hn. simpl in Hn. lia. }
    exists t. split; [done|]. split; [done|].
    rewrite Hlen, length_app. simpl. lia.
Qed.

(** A completion capability that cannot be reached ends the run with its
    exception, at the first planning turn. *)
Lemma run_raises_completion question budget trajectory e :
  (elapsed cap (length trajectory) < agents.kw_max_execution_time kw)%Z ->
  complete cap (agents.kw_llm kw)
    (render_prompt cap (agents.kw_prefix kw) trajectory question) = Raise e ->
  run cap kw question (S budget) trajectory = Raise e.
Proof.
  intros Hclock Hcomplete. simpl.
  destruct (Z.leb_spec (agents.kw_max_execution_time kw)
              (elapsed cap (length trajectory))) as [Hle|_]; [lia|].
  by rewrite Hcomplete.
Qed.

End LoopFacts.

(** ** The budgets, from the configuration to the loop *)

Section Budgets.

Import reasoning_loop facade budgets.

Context {DB LLMM LLM : Type}.
Context (cap : capabilities (LLM:=LLM)) (B : sql_agent.backend DB LLMM LLM).

Local Abbreviation configured := (budgets.configured cap B).
Local Abbreviation manager_ok := (budgets.manager_ok cap B).

Lemma start_ok db llmm : manager_ok (start db llmm).
Proof. intros a. discriminate. Qed.

Lemma create_agent_ok p :
  manager_ok p ->
  manager_ok (sql_agent.create_agent (api cap) B p).2
  /\ forall a, (sql_agent.create_agent (api cap) B p).1 = Ret a -> configured a.
Proof.
  intros Hok. unfold sql_agent.create_agent. unfold_M.
  destruct p as [[[a0|] tk] d l]; simpl.
  { split; [done|]. intros a [= <-]. by apply Hok. }
  destruct (sql_agent.get_database B d) as [[db|e] d']; simpl;
    [|split; [intros a|intros a]; discriminate].
  destruct (sql_agent.get_llm B l) as [[llm|e] l']; simpl;
    [|split; [intros a|intros a]; discriminate].
  split.
  - intros a [= <-]. eexists. split; [done|]. by split.
  - intros a [= <-]. eexists. split; [done|]. by split.
Qed.

Lemma query_ok question p :
  manager_ok p -> manager_ok (sql_agent.query (api cap) B question p).2.
Proof.
  intros Hok. rewrite query_outcome.
  assert (Hp : (attempt (api cap) B question p).2
               = (sql_agent.create_agent (api cap) B p).2).
  { unfold attempt. unfold_M.
    destruct (sql_agent.create_agent (api cap) B p) as [[a|e] p']; [|done].
    by destruct (agents.invoke a question). }
  destruct (attempt (api cap) B question p) as [[result|e] p'] eqn:Hattempt;
    simpl in *; subst p'; by apply create_agent_ok.
Qed.

Lemma after_ok questions : forall p,
  manager_ok p -> manager_ok (after (api cap) B questions p).
Proof.
  induction questions as [|q questions IH]; intros p Hok; simpl; [done|].
  apply IH. by apply query_ok.
Qed.

(** The run of the loop that [query] hands to its post-processing, once
    the agent is there. *)
Lemma query_of_run question p a p' kw :
  sql_agent.create_agent (api cap) B p = (Ret a, p') ->
  a = executor cap kw ->
  sql_agent.query (api cap) B question p =
  match run cap kw question (Z.to_nat (agents.kw_max_iterations kw)) [] with
  | Ret t => (Ret (success_result question (answer_of t) (steps t)), p')
  | Raise e => (Ret (error_result question e), p')
  end.
Proof.
  intros Hcreate ->. rewrite query_outcome. unfold attempt. unfold_M.
  rewrite Hcreate. simpl. unfold fmap, py_fmap, py_bind.
  by destruct (run cap kw question _ []).
Qed.

(** [steps_count] never exceeds a step budget that is not negative. *)
Lemma query_steps_count_le questions question db llmm r p' :
  (0 <= sql_agent.SQL_AGENT_MAX_ITERATIONS B)%Z ->
  sql_agent.query (api cap) B question
    (after (api cap) B questions (start db llmm)) = (Ret r, p') ->
  r !! "status" = Some (PyStr "success") ->
  exists n,
    r !! "steps_count" = Some (PyInt n)
    /\ (n <= sql_agent.SQL_AGENT_MAX_ITERATIONS B)%Z.
Proof.
  intros Hbudget Hq Hstatus.
  set (p := after (api cap) B questions (start db llmm)) in *.
  assert (Hok : manager_ok p) by apply after_ok, start_ok.
  destruct (sql_agent.create_agent (api cap) B p) as [[a|e] p0] eqn:Hcreate.
  - destruct (create_agent_ok p Hok) as [_ Hconf].
    destruct (Hconf a) as (kw & Ha & Hiter & _); [by rewrite Hcreate|].
    rewrite (query_of_run question p a p0 kw Hcreate Ha) in Hq.
    destruct (run cap kw question _ []) as [t|e] eqn:Hrun.
    + injection Hq as <- <-.
      destruct (success_result_lookup question (answer_of t) (steps t))
        as (_&_&_&_&Hcount&_).
      eexists. split; [exact Hcount|].
      apply run_within_budget in Hrun. rewrite Hiter in Hrun. lia.
    + injection Hq as <- <-.
      destruct (error_result_lookup question e) as (He&_).
      rewrite He in Hstatus. discriminate Hstatus.
  - rewrite query_outcome in Hq. unfold attempt in Hq. unfold_M.
    rewrite Hcreate in Hq. injection Hq as <- <-.
    destruct (error_result_lookup question e) as (He&_).
    rewrite He in Hstatus. discriminate Hstatus.
Qed.

(** The agent [create_agent] returns is configured, in every process that
    started without agent and has answered questions since. *)
Lemma create_agent_configured questions db llmm a p' :
  sql_agent.create_agent (api cap) B (after (api cap) B questions (start db llmm))
  = (Ret a, p') ->
  configured a.
Proof.
  intros Hcreate.
  destruct (create_agent_ok (after (api cap) B questions (start db llmm)))
    as [_ Hconf]; [apply after_ok, start_ok|].
  apply Hconf. by rewrite Hcreate.
Qed.

(** What [query] returns when the run of the loop ends on one of its
    budgets, and when it returns an error. *)
Lemma query_budget_exhausted question p a p' kw :
  sql_agent.create_agent (api cap) B p = (Ret a, p') ->
  a = executor cap kw ->
  (forall t reason,
      run cap kw question (Z.to_nat (agents.kw_max_iterations kw)) [] = Ret t ->
      terminal t = aborted reason ->
      sql_agent.query (api cap) B question p
      = (Ret (success_result question (best_available_answer (steps t)) (steps t)), p')
      /\ match reason with
         | StepLimit => length (steps t) = Z.to_nat (agents.kw_max_iterations kw)
         | TimeLimit =>
             length (steps t) < Z.to_nat (agents.kw_max_iterations kw)
             /\ (agents.kw_max_execution_time kw <= elapsed cap (length (steps t)))%Z
         end)
  /\ (forall r p'',
        sql_agent.query (api cap) B question p = (Ret r, p'') ->
        r !! "status" = Some (PyStr "error") ->
        exists e,
          run cap kw question (Z.to_nat (agents.kw_max_iterations kw)) [] = Raise e).
Proof.
  intros Hcreate Ha.
  rewrite (query_of_run question p a p' kw Hcreate Ha).
  split.
  - intros t reason Hrun Hterm. rewrite Hrun. split.
    + unfold answer_of. by rewrite Hterm.
    + apply run_extends in Hrun as (extra & Hsteps & _ & Hextra).
      rewrite Hterm in Hextra.
      assert (Hlen : length (steps t) = length extra) by by rewrite Hsteps.
      rewrite Hlen in *. by destruct reason.
  - intros r p''.
    destruct (run cap kw question _ []) as [t|e]; [|eauto].
    intros [= <- <-] Hstatus.
    destruct (success_result_lookup question (answer_of t) (steps t)) as (Hs&_).
    rewrite Hs in Hstatus. discriminate Hstatus.
Qed.

End Budgets.

(** ** The budgets of [SQLAgentManager] *)

Section AgentBudgets.

Import reasoning_loop.

Context {float engine LLMM LLM : Type}.
Context (sa : sqlalchemy.api engine) (cap : capabilities (LLM:=LLM)).
Context (config : config.Config float).
Context (get_llm : M LLMM LLM).

(** C6, amended: in a process that started without agent and has answered
    any number of questions since, the [steps_count] of a [success] result
    is at most [SQL_AGENT_MAX_ITERATIONS], provided that setting is not
    negative. *)
Theorem steps_count_within_budget
    (questions : list string) (question : string)
    (db : database.BigQueryDatabase) (llmm : LLMM)
    (r : gmap string pyval) (p' : agent.process) :
  (0 <= config.SQL_AGENT_MAX_ITERATIONS config)%Z ->
  agent.query sa (api cap) config get_llm question
    (facade.after (api cap) (agent.backend sa config get_llm) questions
       (facade.start db llmm)) = (Ret r, p') ->
  r !! "status" = Some (PyStr "success") ->
  exists n,
    r !! "steps_count" = Some (PyInt n)
    /\ (n <= config.SQL_AGENT_MAX_ITERATIONS config)%Z.
Proof.
  apply (query_steps_count_le cap (agent.backend sa config get_llm)).
Qed.

(** C2, amended: the agent [create_agent] returns is the loop run with the
    two budgets of the configuration.  Whenever its run on a question ends
    on a budget, [query] returns a [success] result whose answer is the
    best available answer of the trajectory and whose [steps_count] is the
    number of steps taken: the whole step budget when the step limit
    stopped the run, fewer steps when the time limit did.  With the agent
    there, an [error] result comes from a run that raised, never from a
    budget.  And whatever the executor, a run that returns gives a
    [success] result, whose answer is the output of the run or, failing
    that, the text "No response generated". *)
Theorem budget_exhausted_is_success
    (questions : list string) (question : string)
    (db : database.BigQueryDatabase) (llmm : LLMM) :
  let B := agent.backend sa config get_llm in
  let p := facade.after (api cap) B questions (facade.start db llmm) in
  (forall a p',
      agent.create_agent sa (api cap) config get_llm p = (Ret a, p') ->
      (exists kw,
          a = executor cap kw
          /\ agents.kw_max_iterations kw = config.SQL_AGENT_MAX_ITERATIONS config
          /\ agents.kw_max_execution_time kw
             = config.SQL_AGENT_MAX_EXECUTION_TIME config)
      /\ forall kw,
           a = executor cap kw ->
           (forall t reason,
               run cap kw question (Z.to_nat (agents.kw_max_iterations kw)) [] = Ret t ->
               terminal t = aborted reason ->
               agent.query sa (api cap) config get_llm question p
               = (Ret (facade.success_result question
                         (best_available_answer (steps t)) (steps t)), p')
               /\ match reason with
                  | StepLimit =>
                      length (steps t) = Z.to_nat (agents.kw_max_iterations kw)
                  | TimeLimit =>
                      length (steps t) < Z.to_nat (agents.kw_max_iterations kw)
                      /\ (agents.kw_max_execution_time kw
                          <= elapsed cap (length (steps t)))%Z
                  end)
           /\ (forall r p'',
                 agent.query sa (api cap) config get_llm question p = (Ret r, p'') ->
                 r !! "status" = Some (PyStr "error") ->
                 exists e,
                   run cap kw question (Z.to_nat (agents.kw_max_iterations kw)) []
                   = Raise e))
  /\ (forall (lc : agents.api LLM) (p0 p0' : agent.process) result,
        facade.attempt lc B question p0 = (Ret result, p0') ->
        agent.query sa lc config get_llm question p0
        = (Ret (facade.success_result question
                  (default "No response generated" (agents.output result))
                  (default [] (agents.intermediate_steps result))), p0')).
Proof.
  intros B p. split.
  - intros a p' Hcreate. split.
    + apply (create_agent_configured cap B questions db llmm a p' Hcreate).
    + intros kw Ha.
      apply (query_budget_exhausted cap B question p a p' kw Hcreate Ha).
  - intros lc p0 p0' result Hattempt.
    unfold agent.query. fold B. rewrite query_outcome. by rewrite Hattempt.
Qed.

End AgentBudgets.

(** The completion capability that always proposes an unknown action, on a
    clock that stands still, with the default budgets: fifteen steps. *)
Lemma steps_count_within_budget_witness :
  exists r,
    scenario.ask scenario.reachable (scenario.settings 15 100 10)
      (scenario.scripted scenario.always_invalid scenario.frozen) "q" = Ret r
    /\ r !! "status" = Some (PyStr "success")
    /\ exists n, r !! "steps_count" = Some (PyInt n) /\ (n <= 15)%Z.
Proof.
  eexists. split; [reflexivity|]. split; [reflexivity|].
  eapply (steps_count_within_budget scenario.reachable
            (scenario.scripted scenario.always_invalid scenario.frozen)
            (scenario.settings 15 100 10) scenario.get_llm [] "q"
            (database.__init__ (scenario.settings 15 100 10)) tt).
  - simpl. lia.
  - reflexivity.
  - reflexivity.
Defined.

(** C6, as stated, fails for a negative setting: with
    [SQL_AGENT_MAX_ITERATIONS=-1] in the environment the loop takes no step,
    [query] reports a [steps_count] of 0, and 0 is above -1. *)
Lemma steps_count_above_negative_budget :
  config.class_Config (float:=string) Ret (<["SQL_AGENT_MAX_ITERATIONS" := "-1"]> ∅)
  = Ret (scenario.settings (-1) 100 10)
  /\ exists r,
       scenario.ask scenario.reachable (scenario.settings (-1) 100 10)
         (scenario.scripted scenario.always_invalid scenario.frozen) "q" = Ret r
       /\ r !! "status" = Some (PyStr "success")
       /\ r !! "steps_count" = Some (PyInt 0)
       /\ ~ (0 <= config.SQL_AGENT_MAX_ITERATIONS (scenario.settings (-1) 100 10))%Z.
Proof.
  split; [reflexivity|].
  eexists. split; [reflexivity|]. split; [reflexivity|]. split; [reflexivity|].
  simpl. lia.
Qed.

(** The completion capability that always proposes an unknown action, on a
    clock that stands still: the run stops on the step limit after fifteen
    steps, and [query] returns a [success] result with the last observation
    as its answer. *)
Lemma budget_exhausted_is_success_witness :
  (exists r,
      scenario.ask scenario.reachable (scenario.settings 15 100 10)
        (scenario.scripted scenario.always_invalid scenario.frozen) "q" = Ret r
      /\ r !! "status" = Some (PyStr "success")
      /\ r !! "answer" = Some (PyStr "UnknownActionError: ask_the_dealer")
      /\ r !! "steps_count" = Some (PyInt 15))
  /\ (exists r,
        (agent.query scenario.reachable scenario.mute (scenario.settings 15 100 10)
           scenario.get_llm "q"
           (facade.start (database.__init__ (scenario.settings 15 100 10)) tt)).1
        = Ret r
        /\ r !! "status" = Some (PyStr "success")
        /\ r !! "answer" = Some (PyStr "No response generated")).
Proof.
  destruct (budget_exhausted_is_success scenario.reachable
              (scenario.scripted scenario.always_invalid scenario.frozen)
              (scenario.settings 15 100 10) scenario.get_llm [] "q"
              (database.__init__ (scenario.settings 15 100 10)) tt)
    as [Hloop Hany].
  split.
  - edestruct Hloop as [_ Hkw]; [reflexivity|].
    destruct (Hkw (scenario.kwargs (scenario.settings 15 100 10)) eq_refl)
      as [Hbudget _].
    eassert (Hrun : reasoning_loop.run
                      (scenario.scripted scenario.always_invalid scenario.frozen)
                      (scenario.kwargs (scenario.settings 15 100 10)) "q" 15 [] = Ret _)
      by reflexivity.
    destruct (Hbudget _ reasoning_loop.StepLimit Hrun eq_refl) as [Hq _].
    eexists. split.
    + exact (f_equal fst Hq).
    + repeat split; reflexivity.
  - eassert (Hq : agent.query scenario.reachable scenario.mute
                    (scenario.settings 15 100 10) scenario.get_llm "q"
                    (facade.start (database.__init__ (scenario.settings 15 100 10)) tt)
                  = (Ret _, _))
      by (eapply (Hany scenario.mute); reflexivity).
    eexists. split.
    + exact (f_equal fst Hq).
    + split; reflexivity.
Defined.

(** C2, as stated, fails on two runs.  On a clock where every step takes a
    hundred seconds, the run of the always-invalid completion capability
    stops on the time limit after one step: the result is a [success] with
    a [steps_count] of 1, not of 15.  And when an executor stops at the step
    limit and returns no [output], [query] does not answer with an [error]:
    it returns a [success] whose answer is "No response generated". *)
Lemma budget_exhausted_counterexample :
  (exists t r,
      reasoning_loop.run (scenario.scripted scenario.always_invalid scenario.slow)
        (scenario.kwargs (scenario.settings 15 100 10)) "q" 15 [] = Ret t
      /\ reasoning_loop.terminal t = reasoning_loop.aborted reasoning_loop.TimeLimit
      /\ scenario.ask scenario.reachable (scenario.settings 15 100 10)
           (scenario.scripted scenario.always_invalid scenario.slow) "q" = Ret r
      /\ r !! "status" = Some (PyStr "success")
      /\ r !! "steps_count" = Some (PyInt 1)
      /\ config.SQL_AGENT_MAX_ITERATIONS (scenario.settings 15 100 10) = 15%Z)
  /\ (exists result r,
        (facade.attempt scenario.mute
           (agent.backend scenario.reachable (scenario.settings 15 100 10)
              scenario.get_llm) "q"
           (facade.start (database.__init__ (scenario.settings 15 100 10)) tt)).1
        = Ret result
        /\ agents.output result = None
        /\ length (default [] (agents.intermediate_steps result)) = 15
        /\ (agent.query scenario.reachable scenario.mute (scenario.settings 15 100 10)
              scenario.get_llm "q"
              (facade.start (database.__init__ (scenario.settings 15 100 10)) tt)).1
           = Ret r
        /\ r !! "status" = Some (PyStr "success")
        /\ r !! "answer" = Some (PyStr "No response generated")
        /\ r !! "status" <> Some (PyStr "error")).
Proof.
  split.
  - eexists _, _. split; [reflexivity|]. split; [reflexivity|].
    split; [reflexivity|]. repeat split; reflexivity.
  - eexists _, _. split; [reflexivity|]. split; [reflexivity|].
    split; [reflexivity|]. split; [reflexivity|].
    split; [reflexivity|]. split; [reflexivity|]. discriminate.
Qed.


(** ** The end-to-end scenarios *)

(** "List all tables": the answer names both tables, one step was taken,
    and the input of the list-tables action, the empty string, is reported
    as the SQL of the run. *)
Example list_all_tables_result :
  scenario.ask scenario.reachable (scenario.settings 15 100 10)
    (scenario.scripted scenario.list_all_tables scenario.frozen) "List all tables"
  = Ret (facade.success_result "List all tables"
           "The tables are vehicles and dealerships."
           (reasoning_loop.steps_of
              [(reasoning_loop.ListTables, "", "vehicles, dealerships")]))
  /\ sql_agent.extract_sql_queries
       (reasoning_loop.steps_of [(reasoning_loop.ListTables, "", "vehicles, dealerships")])
     = [InputStr ""].
Proof. split; reflexivity. Qed.

(** "Total revenue in 2024": the statement the agent executed is the one
    entry of the SQL list. *)
Example total_revenue_result :
  scenario.ask scenario.reachable (scenario.settings 15 100 10)
    (scenario.scripted scenario.total_revenue scenario.frozen) "Total revenue in 2024"
  = Ret (facade.success_result "Total revenue in 2024"
           "Total revenue in 2024 was 1234567.89."
           (reasoning_loop.steps_of
              [(reasoning_loop.ExecuteQuery,
                "SELECT SUM(sale_price) FROM sales_transactions WHERE EXTRACT(YEAR FROM sale_date)=2024",
                "1234567.89")])).
Proof. reflexivity. Qed.

(** A database that cannot be reached: an error result with the message of
    the failure. *)
Example unreachable_database_result :
  scenario.ask scenario.unreachable (scenario.settings 15 100 10)
    (scenario.scripted scenario.total_revenue scenario.frozen) "Total revenue in 2024"
  = Ret (facade.error_result "Total revenue in 2024" "connection refused").
Proof. reflexivity. Qed.

(** * Properties of the rest of the modules *)

(** ** Validation of the configuration *)

Section Validation.

Context {float : Type} (py_float : string -> py float).

(** The string attributes of a loaded configuration are the variables of
    the environment, or their defaults. *)
Lemma class_Config_strings env c :
  config.class_Config py_float env = Ret c ->
  config.PROJECT_ID c = os.getenv env "GCP_PROJECT_ID" "YOUR_PROJECT_ID"
  /\ config.BIGQUERY_DATASET c = os.getenv env "BIGQUERY_DATASET" "automotive_data".
Proof.
  unfold config.class_Config, config.sql_agent_configuration.
  unfold mbind, mret, py_mbind, py_ret, py_bind.
  repeat case_step; by intros [= <-].
Qed.

Lemma class_ConfigAWS_strings env c :
  config_aws.class_ConfigAWS py_float env = Ret c ->
  config_aws.AWS_REGION c = os.getenv env "AWS_REGION" "us-east-1"
  /\ config_aws.REDSHIFT_HOST c
     = os.getenv env "REDSHIFT_HOST" "your-cluster.region.redshift.amazonaws.com"
  /\ config_aws.REDSHIFT_DATABASE c = os.getenv env "REDSHIFT_DATABASE" "automotive_data"
  /\ config_aws.REDSHIFT_PASSWORD c = os.getenv env "REDSHIFT_PASSWORD" ""
  /\ config_aws.REDSHIFT_USE_IAM c
     = String.eqb (pystr.lower (os.getenv env "REDSHIFT_USE_IAM" "false")) "true".
Proof.
  unfold config_aws.class_ConfigAWS, config_aws.sql_agent_configuration.
  unfold mbind, mret, py_mbind, py_ret, py_bind.
  repeat case_step; by intros [= <-].
Qed.

Lemma Config_validate_iff (c : config.Config float) :
  Config.validate c = Ret tt <->
  Config.unset (config.PROJECT_ID c) = false
  /\ Config.unset (config.BIGQUERY_DATASET c) = false.
Proof.
  unfold Config.validate, Config.missing_fields, Config.required_fields. simpl.
  destruct (Config.unset (config.PROJECT_ID c));
    destruct (Config.unset (config.BIGQUERY_DATASET c)); simpl;
    split; (intros [? ?] || intros ?); done.
Qed.

(** X1: a loaded configuration passes [Config.validate] exactly when the
    environment sets [GCP_PROJECT_ID] to a value that is neither empty nor a
    [YOUR_] placeholder, and does not set [BIGQUERY_DATASET] to such a
    value.  Leaving the dataset unset is accepted, leaving the project unset
    is not: its default is the placeholder. *)
Theorem Config_validate_environment (env : os.environ) (c : config.Config float) :
  config.class_Config py_float env = Ret c ->
  (Config.validate c = Ret tt <->
   (exists project,
       env !! "GCP_PROJECT_ID" = Some project /\ Config.unset project = false)
   /\ (forall dataset,
         env !! "BIGQUERY_DATASET" = Some dataset -> Config.unset dataset = false)).
Proof.
  intros Hload. apply class_Config_strings in Hload as [Hproject Hdataset].
  rewrite Config_validate_iff, Hproject, Hdataset. unfold os.getenv.
  destruct (env !! "GCP_PROJECT_ID") as [project|];
    destruct (env !! "BIGQUERY_DATASET") as [dataset|]; simpl.
  - split.
    + intros [? ?]. split; [eauto|]. by intros ? [= <-].
    + intros [(? & [= <-] & ?) Hd]. eauto.
  - split.
    + intros [? _]. split; [eauto|]. intros ?; discriminate.
    + intros [(? & [= <-] & ?) _]. done.
  - split.
    + intros [[=] _].
    + intros [(? & [=] & _) _].
  - split.
    + intros [[=] _].
    + intros [(? & [=] & _) _].
Qed.

Lemma ConfigAWS_validate_iff (c : config_aws.ConfigAWS float) :
  ConfigAWS.validate c = Ret tt <->
  ConfigAWS.unset (config_aws.AWS_REGION c) = false
  /\ ConfigAWS.unset (config_aws.REDSHIFT_HOST c) = false
  /\ ConfigAWS.unset (config_aws.REDSHIFT_DATABASE c) = false
  /\ (config_aws.REDSHIFT_USE_IAM c = true
      \/ config_aws.REDSHIFT_PASSWORD c <> "").
Proof.
  unfold ConfigAWS.validate, ConfigAWS.missing_fields, ConfigAWS.required_fields.
  simpl.
  destruct (ConfigAWS.unset (config_aws.AWS_REGION c));
    destruct (ConfigAWS.unset (config_aws.REDSHIFT_HOST c));
    destruct (ConfigAWS.unset (config_aws.REDSHIFT_DATABASE c)); simpl;
    try (split; [intros [=]|intros (?&?&?&?); discriminate]).
  destruct (config_aws.REDSHIFT_USE_IAM c); simpl.
  { split; [intros _|done]. repeat split; by left. }
  destruct (String.eqb_spec (config_aws.REDSHIFT_PASSWORD c) "") as [->|Hpw].
  - split; [intros [=]|]. intros (_&_&_&[[=]|?]). done.
  - split; [intros _|done]. repeat split; by right.
Qed.

(** X2: a loaded AWS configuration passes [ConfigAWS.validate] exactly when
    the environment sets [REDSHIFT_HOST] to a value that is neither empty nor
    a placeholder ([YOUR_...] or [your-...], as its default is), sets
    neither [AWS_REGION] nor [REDSHIFT_DATABASE] to such a value, and either
    turns IAM authentication on ([REDSHIFT_USE_IAM] being [true] in any
    letter case) or sets a non-empty [REDSHIFT_PASSWORD]. *)
Theorem ConfigAWS_validate_environment
    (env : os.environ) (c : config_aws.ConfigAWS float) :
  config_aws.class_ConfigAWS py_float env = Ret c ->
  (ConfigAWS.validate c = Ret tt <->
   (forall region, env !! "AWS_REGION" = Some region -> ConfigAWS.unset region = false)
   /\ (exists host,
         env !! "REDSHIFT_HOST" = Some host /\ ConfigAWS.unset host = false)
   /\ (forall database,
         env !! "REDSHIFT_DATABASE" = Some database -> ConfigAWS.unset database = false)
   /\ ((exists flag,
          env !! "REDSHIFT_USE_IAM" = Some flag /\ pystr.lower flag = "true")
       \/ (exists password,
             env !! "REDSHIFT_PASSWORD" = Some password /\ password <> ""))).
Proof.
  intros Hload.
  apply class_ConfigAWS_strings in Hload as (Hregion & Hhost & Hdb & Hpw & Hiam).
  rewrite ConfigAWS_validate_iff, Hregion, Hhost, Hdb, Hpw, Hiam. unfold os.getenv.
  assert (Hr : ConfigAWS.unset (default "us-east-1" (env !! "AWS_REGION")) = false
               <-> forall region, env !! "AWS_REGION" = Some region ->
                                  ConfigAWS.unset region = false).
  { destruct (env !! "AWS_REGION") as [region|]; simpl.
    - split; [by intros ? ? [= <-]|eauto].
    - split; [intros _ ?; discriminate|done]. }
  assert (Hh : ConfigAWS.unset
                 (default "your-cluster.region.redshift.amazonaws.com"
                    (env !! "REDSHIFT_HOST")) = false
               <-> exists host, env !! "REDSHIFT_HOST" = Some host
                                /\ ConfigAWS.unset host = false).
  { destruct (env !! "REDSHIFT_HOST") as [host|]; simpl.
    - split; [eauto|by intros (? & [= <-] & ?)].
    - split; [intros [=]|intros (? & [=] & _)]. }
  assert (Hd : ConfigAWS.unset (default "automotive_data" (env !! "REDSHIFT_DATABASE"))
               = false
               <-> forall database, env !! "REDSHIFT_DATABASE" = Some database ->
                                    ConfigAWS.unset database = false).
  { destruct (env !! "REDSHIFT_DATABASE") as [database|]; simpl.
    - split; [by intros ? ? [= <-]|eauto].
    - split; [intros _ ?; discriminate|done]. }
  assert (Hi : String.eqb (pystr.lower (default "false" (env !! "REDSHIFT_USE_IAM")))
                 "true" = true
               <-> exists flag, env !! "REDSHIFT_USE_IAM" = Some flag
                                /\ pystr.lower flag = "true").
  { rewrite String.eqb_eq.
    destruct (env !! "REDSHIFT_USE_IAM") as [flag|]; simpl.
    - split; [eauto|by intros (? & [= <-] & ?)].
    - split; [intros [=]|intros (? & [=] & _)]. }
  assert (Hp : default "" (env !! "REDSHIFT_PASSWORD") <> ""
               <-> exists password, env !! "REDSHIFT_PASSWORD" = Some password
                                    /\ password <> "").
  { destruct (env !! "REDSHIFT_PASSWORD") as [password|]; simpl.
    - split; [eauto|by intros (? & [= <-] & ?)].
    - split; [done|intros (? & [=] & _)]. }
  rewrite Hr, Hh, Hd, Hi, Hp. tauto.
Qed.

End Validation.

(** An environment that names the project passes; the empty one does not. *)
Lemma Config_validate_environment_witness :
  Config.validate (float:=string)
    {| config.PROJECT_ID := "sql-ai-474116";
       config.LOCATION := "us-central1";
       config.BIGQUERY_DATASET := "automotive_data";
       config.BIGQUERY_LOCATION := "US";
       config.GEMINI_MODEL := "gemini-2.0-flash-lite-001";
       config.GEMINI_TEMPERATURE := "0.1";
       config.GEMINI_MAX_OUTPUT_TOKENS := 2048;
       config.GEMINI_TOP_P := "0.95";
       config.GEMINI_TOP_K := 40;
       config.GOOGLE_APPLICATION_CREDENTIALS := None;
       config.APP_TITLE := "Automotive Sales Analytics Chatbot";
       config.MAX_CHAT_HISTORY := 10;
       config.LANGCHAIN_TRACING_V2 := false;
       config.LANGCHAIN_API_KEY := None;
       config.LANGCHAIN_PROJECT := None;
       config.SQL_AGENT_MAX_ITERATIONS := 15;
       config.SQL_AGENT_MAX_EXECUTION_TIME := 100;
       config.SQL_TOP_K_RESULTS := 10;
       config.LOG_LEVEL := "INFO";
       config.SESSION_TIMEOUT_MINUTES := 30 |} = Ret tt
  /\ Config.validate (scenario.settings 15 100 10) <> Ret tt.
Proof.
  split.
  - eapply (Config_validate_environment (float:=string) Ret
              (<["GCP_PROJECT_ID" := "sql-ai-474116"]> ∅)); [reflexivity|].
    split.
    + exists "sql-ai-474116". split; reflexivity.
    + intros dataset Hd. discriminate Hd.
  - intros Hok.
    eapply (Config_validate_environment (float:=string) Ret ∅) in Hok as [Hp _];
      [|reflexivity].
    destruct Hp as (project & Hp & _). discriminate Hp.
Defined.

(** The empty environment does not pass the AWS validation: the host is a
    placeholder. *)
Lemma ConfigAWS_validate_environment_witness :
  ConfigAWS.validate (scenario.settings_aws false) <> Ret tt.
Proof.
  intros Hok.
  eapply (ConfigAWS_validate_environment (float:=string) Ret ∅) in Hok
    as (_ & Hhost & _); [|reflexivity].
  destruct Hhost as (host & Hhost & _). discriminate Hhost.
Defined.

(** ** The warehouse wrappers: connection cache, status, close *)

Section DatabaseCache.

Context {float engine client : Type}.

Local Abbreviation Redshift := (database_aws.RedshiftDatabase (client:=client)).

Lemma get_database_cached (sa : sqlalchemy.api engine) self db :
  database._db self = Some db ->
  database.get_database sa self = (Ret db, self).
Proof. unfold database.get_database. unfold_M. by intros ->. Qed.

Lemma get_database_caches (sa : sqlalchemy.api engine) self db self' :
  database.get_database sa self = (Ret db, self') ->
  database._db self' = Some db.
Proof.
  unfold database.get_database, database.set_db. unfold_M.
  destruct self as [[db0|] uri]; simpl.
  - by intros [= <- <-].
  - repeat case_step; by intros [= <- <-].
Qed.

Lemma get_database_aws_cached (sa : sqlalchemy.api engine) (aws : boto3.api client)
    (cfg : config_aws.ConfigAWS float) (self : Redshift) db :
  database_aws._db self = Some db ->
  database_aws.get_database sa aws cfg self = (Ret db, self).
Proof. unfold database_aws.get_database. unfold_M. by intros ->. Qed.

Lemma get_database_aws_caches (sa : sqlalchemy.api engine) (aws : boto3.api client)
    (cfg : config_aws.ConfigAWS float) (self : Redshift) db self' :
  database_aws.get_database sa aws cfg self = (Ret db, self') ->
  database_aws._db self' = Some db.
Proof.
  unfold database_aws.get_database, database_aws._build_connection_uri,
    database_aws._get_iam_credentials, database_aws.set_db,
    database_aws.set_connection_uri, database_aws.set_redshift_client.
  unfold_M.
  destruct self as [[db0|] c uri]; simpl.
  - by intros [= <- <-].
  - repeat case_step; by intros [= <- <-].
Qed.

(** X3: the wrappers connect once.  After a call of [get_database] that
    returned a connection, every later call returns that same connection and
    leaves the wrapper as it is, whatever [sqlalchemy], [boto3] and the
    configuration would do or hold by then. *)
Theorem get_database_connects_once :
  (forall (sa sa' : sqlalchemy.api engine) self db self',
      database.get_database sa self = (Ret db, self') ->
      database.get_database sa' self' = (Ret db, self'))
  /\ (forall (sa sa' : sqlalchemy.api engine) (aws aws' : boto3.api client)
        (cfg cfg' : config_aws.ConfigAWS float) (self : Redshift) db self',
        database_aws.get_database sa aws cfg self = (Ret db, self') ->
        database_aws.get_database sa' aws' cfg' self' = (Ret db, self')).
Proof.
  split.
  - intros sa sa' self db self' Hget.
    by apply get_database_cached, (get_database_caches sa self).
  - intros sa sa' aws aws' cfg cfg' self db self' Hget.
    by apply get_database_aws_cached, (get_database_aws_caches sa aws cfg self).
Qed.

(** X4: a connection that could not be made is not remembered.  A call of
    [get_database] that raises leaves a [BigQueryDatabase] exactly as it
    was, and a [RedshiftDatabase] without connection; in both cases the
    wrapper had none before, so the next call tries to connect again. *)
Theorem get_database_failure_not_cached :
  (forall (sa : sqlalchemy.api engine) self e self',
      database.get_database sa self = (Raise e, self') ->
      self' = self /\ database._db self = None)
  /\ (forall (sa : sqlalchemy.api engine) (aws : boto3.api client)
        (cfg : config_aws.ConfigAWS float) (self : Redshift) e self',
        database_aws.get_database sa aws cfg self = (Raise e, self') ->
        database_aws._db self' = None /\ database_aws._db self = None).
Proof.
  split.
  - intros sa [[db0|] uri] e self'; unfold database.get_database; unfold_M; simpl.
    + intros [=].
    + repeat case_step; intros [= <- <-] || intros [=]; done.
  - intros sa aws cfg [[db0|] c uri] e self';
      unfold database_aws.get_database, database_aws._build_connection_uri,
        database_aws._get_iam_credentials, database_aws.set_db,
        database_aws.set_connection_uri, database_aws.set_redshift_client;
      unfold_M; simpl.
    + intros [=].
    + repeat case_step; intros [= <- <-] || intros [=]; done.
Qed.

End DatabaseCache.

(** The warehouse that can be reached, then a library that no longer can
    reach anything: the connection made is still the one returned. *)
Lemma get_database_connects_once_witness :
  exists db self',
    database.get_database scenario.reachable
      (database.__init__ (scenario.settings 15 100 10)) = (Ret db, self')
    /\ database.get_database scenario.unreachable self' = (Ret db, self').
Proof.
  eexists _, _. split; [reflexivity|].
  exact (proj1 (get_database_connects_once (client:=unit) (float:=string))
           scenario.reachable scenario.unreachable
           (database.__init__ (scenario.settings 15 100 10)) scenario.warehouse _
           eq_refl).
Defined.

(** The warehouse that cannot be reached: nothing changes. *)
Lemma get_database_failure_not_cached_witness :
  (database.get_database scenario.unreachable
     (database.__init__ (scenario.settings 15 100 10))).2
  = database.__init__ (scenario.settings 15 100 10).
Proof.
  exact (proj1 (proj1 (get_database_failure_not_cached (client:=unit) (float:=string))
                  scenario.unreachable
                  (database.__init__ (scenario.settings 15 100 10))
                  "connection refused" _ eq_refl)).
Defined.

Section DatabaseStatus.

Context {float engine client : Type}.
Context (sa : sqlalchemy.api engine) (aws : boto3.api client).
Context (config : config.Config float) (config_aws : config_aws.ConfigAWS float).

Local Abbreviation Redshift := (database_aws.RedshiftDatabase (client:=client)).

(** [get_table_names], given how getting the connection goes. *)
Lemma get_table_names_outcome self :
  database.get_table_names sa self =
  match database.get_database sa self with
  | (Ret db, self') =>
      (Ret (match langchain.get_usable_table_names db with
            | Ret names => names
            | Raise _ => []
            end), self')
  | (Raise _, self') => (Ret [], self')
  end.
Proof.
  unfold database.get_table_names. unfold_M.
  destruct (database.get_database sa self) as [[db|e] self']; [|done].
  by destruct (langchain.get_usable_table_names db).
Qed.

Lemma get_table_names_aws_outcome (self : Redshift) :
  database_aws.get_table_names sa aws config_aws self =
  match database_aws.get_database sa aws config_aws self with
  | (Ret db, self') =>
      (Ret (match langchain.get_usable_table_names db with
            | Ret names => names
            | Raise _ => []
            end), self')
  | (Raise _, self') => (Ret [], self')
  end.
Proof.
  unfold database_aws.get_table_names. unfold_M.
  destruct (database_aws.get_database sa aws config_aws self) as [[db|e] self'];
    [|done].
  by destruct (langchain.get_usable_table_names db).
Qed.

Lemma test_connection_outcome self :
  exists r self',
    BigQueryDatabase.test_connection sa config self = (Ret r, self')
    /\ match (database.get_database sa self).1 with
       | Raise e =>
           r !! "status" = Some (IStr "error") /\ r !! "error" = Some (IStr e)
           /\ r !! "table_count" = None
       | Ret db =>
           let tables := match langchain.get_usable_table_names db with
                         | Ret names => names
                         | Raise _ => []
                         end in
           r !! "status" = Some (IStr "success")
           /\ r !! "tables" = Some (IStrs tables)
           /\ r !! "table_count" = Some (IInt (Z.of_nat (length tables)))
           /\ r !! "error" = None
           /\ database._db self' = Some db
       end.
Proof.
  unfold BigQueryDatabase.test_connection.
  unfold mbind at 1, M_mbind at 1, bind at 1, try_except.
  destruct (database.get_database sa self) as [[db|e] self1] eqn:Hget; simpl.
  - unfold mbind, M_mbind, bind.
    pose proof (get_database_caches sa self db self1 Hget) as Hdb.
    rewrite get_table_names_outcome, (get_database_cached sa self1 db Hdb).
    eexists _, _. split; [reflexivity|]. repeat split; by simplify_map_eq.
  - eexists _, _. split; [reflexivity|]. repeat split; by simplify_map_eq.
Qed.

Lemma test_connection_aws_outcome (self : Redshift) :
  exists r self',
    RedshiftDatabase.test_connection sa aws config_aws self = (Ret r, self')
    /\ match (database_aws.get_database sa aws config_aws self).1 with
       | Raise e =>
           r !! "status" = Some (IStr "error") /\ r !! "error" = Some (IStr e)
           /\ r !! "table_count" = None
       | Ret db =>
           let tables := match langchain.get_usable_table_names db with
                         | Ret names => names
                         | Raise _ => []
                         end in
           r !! "status" = Some (IStr "success")
           /\ r !! "tables" = Some (IStrs tables)
           /\ r !! "table_count" = Some (IInt (Z.of_nat (length tables)))
           /\ r !! "error" = None
       end.
Proof.
  unfold RedshiftDatabase.test_connection.
  unfold mbind at 1, M_mbind at 1, bind at 1, try_except.
  destruct (database_aws.get_database sa aws config_aws self)
    as [[db|e] self1] eqn:Hget; simpl.
  - unfold mbind, M_mbind, bind.
    rewrite get_table_names_aws_outcome,
      (get_database_aws_cached sa aws config_aws self1 db
         (get_database_aws_caches sa aws config_aws self db self1 Hget)).
    eexists _, _. split; [reflexivity|]. repeat split; by simplify_map_eq.
  - eexists _, _. split; [reflexivity|]. repeat split; by simplify_map_eq.
Qed.

(** X5: [test_connection] never raises, and its status tells whether the
    connection could be made, not whether the tables could be listed.  When
    [get_database] raises, the result has status [error] and the text of the
    exception; when it returns, the result has status [success], even if
    listing the tables then fails: the table list is then empty and
    [table_count] is 0.  In every case [table_count] is the length of
    [tables].  This holds for both wrappers. *)
Theorem test_connection_status :
  (forall self, exists r self',
      BigQueryDatabase.test_connection sa config self = (Ret r, self')
      /\ match (database.get_database sa self).1 with
         | Raise e =>
             r !! "status" = Some (IStr "error") /\ r !! "error" = Some (IStr e)
             /\ r !! "table_count" = None
         | Ret db =>
             let tables := match langchain.get_usable_table_names db with
                           | Ret names => names
                           | Raise _ => []
                           end in
             r !! "status" = Some (IStr "success")
             /\ r !! "tables" = Some (IStrs tables)
             /\ r !! "table_count" = Some (IInt (Z.of_nat (length tables)))
             /\ r !! "error" = None
         end)
  /\ (forall self : Redshift, exists r self',
        RedshiftDatabase.test_connection sa aws config_aws self = (Ret r, self')
        /\ match (database_aws.get_database sa aws config_aws self).1 with
           | Raise e =>
               r !! "status" = Some (IStr "error") /\ r !! "error" = Some (IStr e)
               /\ r !! "table_count" = None
           | Ret db =>
               let tables := match langchain.get_usable_table_names db with
                             | Ret names => names
                             | Raise _ => []
                             end in
               r !! "status" = Some (IStr "success")
               /\ r !! "tables" = Some (IStrs tables)
               /\ r !! "table_count" = Some (IInt (Z.of_nat (length tables)))
               /\ r !! "error" = None
           end).
Proof.
  split; intros self.
  - destruct (test_connection_outcome self) as (r & self' & Htest & Hr).
    exists r, self'. split; [done|].
    destruct (database.get_database sa self).1; [|done].
    destruct Hr as (?&?&?&?&_). by repeat split.
  - apply test_connection_aws_outcome.
Qed.

Lemma close_outcome (bq : BigQueryDatabase.api (client:=client)) self :
  exists self',
    BigQueryDatabase.close bq self = (Ret tt, self')
    /\ database._db (BigQueryDatabase.base self') = None
    /\ BigQueryDatabase._client self' = None
    /\ database._connection_uri (BigQueryDatabase.base self')
       = database._connection_uri (BigQueryDatabase.base self).
Proof.
  destruct self as [[[db|] uri] [c|]]; unfold BigQueryDatabase.close,
    BigQueryDatabase.clear_db, BigQueryDatabase.set_client; unfold_M; simpl;
    repeat case_step; eauto.
Qed.

Lemma close_aws_outcome dispose_engine (self : Redshift) :
  exists self',
    RedshiftDatabase.close dispose_engine self = (Ret tt, self')
    /\ database_aws._db self' = None
    /\ database_aws._redshift_client self' = None
    /\ database_aws._connection_uri self' = database_aws._connection_uri self.
Proof.
  destruct self as [[db|] [c|] uri]; unfold RedshiftDatabase.close,
    RedshiftDatabase.clear_db, RedshiftDatabase.clear_redshift_client;
    unfold_M; simpl; repeat case_step; eauto.
Qed.

(** X6: [close] never raises and always forgets the connection and the
    client, also when disposing of the engine or closing the client raises;
    the connection URI of a [BigQueryDatabase] is kept. *)
Theorem close_forgets_connection :
  (forall (bq : BigQueryDatabase.api (client:=client)) self, exists self',
      BigQueryDatabase.close bq self = (Ret tt, self')
      /\ database._db (BigQueryDatabase.base self') = None
      /\ BigQueryDatabase._client self' = None
      /\ database._connection_uri (BigQueryDatabase.base self')
         = database._connection_uri (BigQueryDatabase.base self))
  /\ (forall dispose_engine (self : Redshift), exists self',
        RedshiftDatabase.close dispose_engine self = (Ret tt, self')
        /\ database_aws._db self' = None
        /\ database_aws._redshift_client self' = None
        /\ database_aws._connection_uri self' = database_aws._connection_uri self).
Proof. split; [apply close_outcome|apply close_aws_outcome]. Qed.

(** [get_database] of a Redshift wrapper without connection does not look
    at the URI the wrapper holds. *)
Lemma get_database_aws_ignores_uri (self : Redshift) uri :
  database_aws._db self = None ->
  (database_aws.get_database sa aws config_aws self).1
  = (database_aws.get_database sa aws config_aws
       {| database_aws._db := None;
          database_aws._redshift_client := database_aws._redshift_client self;
          database_aws._connection_uri := uri |}).1.
Proof.
  destruct self as [db c uri0]. simpl. intros ->.
  unfold database_aws.get_database, database_aws._build_connection_uri,
    database_aws._get_iam_credentials, database_aws.set_db,
    database_aws.set_connection_uri, database_aws.set_redshift_client.
  unfold_M. simpl.
  repeat case_step; congruence.
Qed.

(** X7: a closed wrapper connects like a new one.  After [close], the
    outcome of [get_database] (the connection, or the exception) is the
    outcome it has on a wrapper that was just constructed: for Redshift
    whatever the wrapper held before, stale URI included; for BigQuery as
    long as the wrapper holds the URI of the configuration, which is what
    its constructor stores. *)
Theorem close_then_get_database :
  (forall (bq : BigQueryDatabase.api (client:=client)) self,
      database._connection_uri (BigQueryDatabase.base self)
      = config.get_bigquery_uri config ->
      (database.get_database sa
         (BigQueryDatabase.base (BigQueryDatabase.close bq self).2)).1
      = (database.get_database sa (database.__init__ config)).1)
  /\ (forall dispose_engine (self : Redshift),
        (database_aws.get_database sa aws config_aws
           (RedshiftDatabase.close dispose_engine self).2).1
        = (database_aws.get_database sa aws config_aws database_aws.__init__).1).
Proof.
  split.
  - intros bq self Huri.
    destruct (close_outcome bq self)
      as (self' & -> & Hdb & _ & Huri').
    simpl. destruct self' as [[db' uri'] c']. simpl in *. subst db'.
    rewrite Huri', Huri. reflexivity.
  - intros dispose_engine self.
    destruct (close_aws_outcome dispose_engine self)
      as (self' & -> & Hdb & Hclient & _).
    simpl. rewrite (get_database_aws_ignores_uri self' None Hdb).
    by rewrite Hclient.
Qed.

(** X8: once [initialize_database] has reported success, the one instance of
    the module holds a connection, and every later [run_query] made through
    [get_database_instance()] runs on that connection: the library is not
    asked for another one, whatever it would answer by then. *)
Theorem initialize_database_keeps_connection
    (instance : option database.BigQueryDatabase) r instance' :
  BigQueryDatabase.initialize_database sa config instance = (Ret r, instance') ->
  r !! "status" = Some (IStr "success") ->
  exists db self,
    instance' = Some self
    /\ database._db self = Some db
    /\ forall (sa' : sqlalchemy.api engine) query,
         BigQueryDatabase.on_instance config (database.run_query sa' query) instance'
         = (Ret (match langchain.run db query with
                 | Ret result => result
                 | Raise e => "Error executing query: " +:+ e
                 end), instance').
Proof.
  unfold BigQueryDatabase.initialize_database, BigQueryDatabase.on_instance,
    try_except.
  set (self0 := default (database.__init__ config) instance).
  destruct (test_connection_outcome self0) as (r0 & self1 & Htest & Hr0).
  rewrite Htest. simpl. intros [= <- <-] Hstatus.
  destruct (database.get_database sa self0).1 as [db|e].
  - destruct Hr0 as (_ & _ & _ & _ & Hself1).
    exists db, self1. split; [done|]. split; [done|].
    intros sa' query. simpl.
    unfold database.run_query. unfold_M.
    rewrite (get_database_cached sa' self1 db Hself1).
    by destruct (langchain.run db query).
  - destruct Hr0 as (He & _). rewrite He in Hstatus. discriminate Hstatus.
Qed.

End DatabaseStatus.

(** The warehouse that can be reached has two tables. *)
Lemma initialize_database_keeps_connection_witness :
  exists r instance',
    BigQueryDatabase.initialize_database scenario.reachable
      (scenario.settings 15 100 10) None = (Ret r, instance')
    /\ r !! "table_count" = Some (IInt 2)
    /\ BigQueryDatabase.on_instance (scenario.settings 15 100 10)
         (database.run_query scenario.unreachable "SELECT 1") instance'
       = (Ret "1234567.89", instance').
Proof.
  eexists _, _. split; [reflexivity|]. split; [reflexivity|].
  destruct (initialize_database_keeps_connection scenario.reachable
              (scenario.settings 15 100 10) None _ _ eq_refl eq_refl)
    as (db & self & Hinst & Hdb & Hrun).
  injection Hinst as <-. injection Hdb as <-.
  exact (Hrun scenario.unreachable "SELECT 1").
Defined.

(** A wrapper that holds the URI of the configuration and a connection:
    closed, it connects again as a new one does. *)
Lemma close_then_get_database_witness :
  (database.get_database scenario.reachable
     (BigQueryDatabase.base
        (BigQueryDatabase.close
           {| BigQueryDatabase.Client := fun _ _ => Ret tt;
              BigQueryDatabase.client_close := fun _ => Raise "already closed";
              BigQueryDatabase.dispose_engine := fun _ => Raise "engine is gone" |}
           {| BigQueryDatabase.base :=
                database.set_db scenario.warehouse
                  (database.__init__ (scenario.settings 15 100 10));
              BigQueryDatabase._client := Some tt |}).2)).1
  = Ret scenario.warehouse.
Proof.
  rewrite (proj1 (close_then_get_database (client:=unit) scenario.reachable
                    scenario.aws (scenario.settings 15 100 10)
                    (scenario.settings_aws false))).
  - reflexivity.
  - reflexivity.
Defined.

(** ** The URI a Redshift wrapper connects with *)

Section RedshiftUri.

Context {float engine client : Type}.
Context (sa : sqlalchemy.api engine) (aws : boto3.api client).
Context (cfg : config_aws.ConfigAWS float).

Local Abbreviation Redshift := (database_aws.RedshiftDatabase (client:=client)).

Lemma getitem_Ret d key v : getitem d key = Ret v -> d !! key = Some v.
Proof. unfold getitem. destruct (d !! key); by intros [= <-]. Qed.

(** X9: when a Redshift wrapper without connection gets one, the engine was
    made with SSL required, for a URI that the wrapper keeps, and the
    database was opened on the schema of the configuration.  Without IAM the
    URI is the one of [ConfigAWS.get_redshift_uri], password included; with
    IAM it carries the user and the password of the temporary credentials
    that were asked for the configured user, database and cluster, for one
    hour and without creating the user: the branch of [get_redshift_uri]
    that leaves the password out is never what the wrapper connects with. *)
Theorem redshift_connection_uri (self : Redshift) db self' :
  database_aws._db self = None ->
  database_aws.get_database sa aws cfg self = (Ret db, self') ->
  exists uri engine,
    database_aws._connection_uri self' = Some uri
    /\ sqlalchemy.create_engine sa uri
         [("sslmode", "require"); ("application_name", "automotive_chatbot")]
       = Ret engine
    /\ sqlalchemy.SQLDatabase sa engine (Some (config_aws.REDSHIFT_SCHEMA cfg)) 3 1000
       = Ret db
    /\ if config_aws.REDSHIFT_USE_IAM cfg
       then exists c response user password,
           database_aws._redshift_client self' = Some c
           /\ boto3.get_cluster_credentials aws c
                (config_aws.REDSHIFT_USER cfg) (config_aws.REDSHIFT_DATABASE cfg)
                (config_aws.REDSHIFT_CLUSTER_IDENTIFIER cfg) 3600 false
              = Ret response
           /\ response !! "DbUser" = Some user
           /\ response !! "DbPassword" = Some password
           /\ uri = "postgresql+psycopg2://" +:+ user +:+ ":" +:+ password
                    +:+ "@" +:+ config_aws.REDSHIFT_HOST cfg
                    +:+ ":" +:+ pystr.of_Z (config_aws.REDSHIFT_PORT cfg)
                    +:+ "/" +:+ config_aws.REDSHIFT_DATABASE cfg
       else uri = "postgresql+psycopg2://" +:+ config_aws.REDSHIFT_USER cfg
                  +:+ ":" +:+ config_aws.REDSHIFT_PASSWORD cfg
                  +:+ "@" +:+ config_aws.REDSHIFT_HOST cfg
                  +:+ ":" +:+ pystr.of_Z (config_aws.REDSHIFT_PORT cfg)
                  +:+ "/" +:+ config_aws.REDSHIFT_DATABASE cfg.
Proof.
  destruct self as [db0 c0 uri0]. simpl. intros ->.
  unfold database_aws.get_database, database_aws._build_connection_uri,
    database_aws._get_iam_credentials, database_aws.set_db,
    database_aws.set_connection_uri, database_aws.set_redshift_client,
    config_aws.get_redshift_uri.
  unfold_M. simpl.
  destruct (config_aws.REDSHIFT_USE_IAM cfg) eqn:Hiam; simpl.
  - repeat case_step; intros [= <- <-]; simplify_eq; simpl;
      eexists _, _; (split; [reflexivity|]); (split; [eassumption|]);
      (split; [eassumption|]);
      eexists _, _, _, _; (split; [reflexivity|]); (split; [eassumption|]);
      (split; [by apply getitem_Ret|]); (split; [by apply getitem_Ret|]);
      reflexivity.
  - repeat case_step; intros [= <- <-]; simplify_eq; simpl.
    eexists _, _. split; [reflexivity|]. split; [eassumption|].
    split; [eassumption|]. reflexivity.
Qed.

End RedshiftUri.

(** Password authentication against the warehouse that can be reached. *)
Lemma redshift_connection_uri_witness :
  exists uri,
    database_aws._connection_uri
      (database_aws.get_database scenario.reachable scenario.aws
         (scenario.settings_aws false) database_aws.__init__).2 = Some uri
    /\ uri = "postgresql+psycopg2://admin:@your-cluster.region.redshift.amazonaws.com:5439/automotive_data".
Proof.
  destruct (redshift_connection_uri scenario.reachable scenario.aws
              (scenario.settings_aws false) database_aws.__init__
              scenario.warehouse _ eq_refl eq_refl)
    as (uri & engine & Huri & _ & _ & Hform).
  exists uri. split; [exact Huri|exact Hform].
Defined.

(** ** The agent manager: creation, toolkit information *)

Section AgentManager.

Context {DB LLMM LLM : Type}.

Local Abbreviation process := (sql_agent.process DB LLMM LLM).

Lemma create_agent_cached (lc : agents.api LLM) (B : sql_agent.backend DB LLMM LLM)
    (p : process) a :
  sql_agent._agent (sql_agent.manager p) = Some a ->
  sql_agent.create_agent lc B p = (Ret a, p).
Proof. unfold sql_agent.create_agent. unfold_M. by intros ->. Qed.

Lemma create_agent_caches (lc : agents.api LLM) (B : sql_agent.backend DB LLMM LLM)
    (p : process) a p' :
  sql_agent.create_agent lc B p = (Ret a, p') ->
  sql_agent._agent (sql_agent.manager p') = Some a
  /\ (sql_agent._agent (sql_agent.manager p) = None ->
      is_Some (sql_agent._toolkit (sql_agent.manager p'))).
Proof.
  unfold sql_agent.create_agent, sql_agent.set_agent, sql_agent.set_toolkit,
    sql_agent.set_db_instance, sql_agent.set_llm_manager.
  unfold_M.
  destruct p as [[[a0|] tk] d l]; simpl.
  - intros [= <- <-]. simpl. split; [done|]. discriminate.
  - repeat case_step; intros [= <- <-]; simpl; eauto.
Qed.

Lemma create_agent_fails (lc : agents.api LLM) (B : sql_agent.backend DB LLMM LLM)
    (p : process) e p' :
  sql_agent.create_agent lc B p = (Raise e, p') ->
  sql_agent._agent (sql_agent.manager p') = None.
Proof.
  unfold sql_agent.create_agent, sql_agent.set_agent, sql_agent.set_toolkit,
    sql_agent.set_db_instance, sql_agent.set_llm_manager.
  unfold_M.
  destruct p as [[[a0|] tk] d l]; simpl.
  - intros [=].
  - repeat case_step; intros [= <- <-] || intros [=]; done.
Qed.

Lemma create_agent_llm_failure (lc : agents.api LLM)
    (B : sql_agent.backend DB LLMM LLM) (p : process) db d' e :
  sql_agent._agent (sql_agent.manager p) = None ->
  sql_agent.get_database B (sql_agent.db_instance p) = (Ret db, d') ->
  (sql_agent.get_llm B (sql_agent.llm_manager p)).1 = Raise e ->
  exists p',
    sql_agent.create_agent lc B p = (Raise e, p')
    /\ sql_agent.db_instance p' = d'
    /\ sql_agent.manager p' = sql_agent.manager p.
Proof.
  unfold sql_agent.create_agent, sql_agent.set_db_instance,
    sql_agent.set_llm_manager.
  unfold_M. intros -> -> Hllm. simpl.
  destruct (sql_agent.get_llm B (sql_agent.llm_manager p)) as [[llm|e'] l'];
    simpl in *; simplify_eq.
  eexists. split; [reflexivity|]. by split.
Qed.

(** X10: the agent is made once per process.  After a call of
    [create_agent] that returned an agent, every later call returns that
    agent, and every later [query] runs it and leaves the process as it is,
    whatever the library, the configuration and the collaborators are by
    then: the budgets and the prompt are those read when the agent was
    made. *)
Theorem create_agent_once
    (lc lc' : agents.api LLM) (B B' : sql_agent.backend DB LLMM LLM)
    (p : process) a p' :
  sql_agent.create_agent lc B p = (Ret a, p') ->
  sql_agent.create_agent lc' B' p' = (Ret a, p')
  /\ forall question,
       sql_agent.query lc' B' question p'
       = (match agents.invoke a question with
          | Ret result =>
              Ret (facade.success_result question
                     (default "No response generated" (agents.output result))
                     (default [] (agents.intermediate_steps result)))
          | Raise e => Ret (facade.error_result question e)
          end, p').
Proof.
  intros Hcreate. apply create_agent_caches in Hcreate as [Hagent _].
  pose proof (create_agent_cached lc' B' p' a Hagent) as Hcached.
  split; [done|]. intros question.
  rewrite query_outcome. unfold facade.attempt. unfold_M. rewrite Hcached.
  by destruct (agents.invoke a question).
Qed.

(** X11: a failed creation is not remembered: when [create_agent] raises,
    the manager is left without agent, so the next question starts the
    creation again. *)
Theorem create_agent_failure_not_cached
    (lc : agents.api LLM) (B : sql_agent.backend DB LLMM LLM) (p : process)
    question r p' e :
  sql_agent.query lc B question p = (Ret r, p') ->
  (sql_agent.create_agent lc B p).1 = Raise e ->
  r = facade.error_result question e
  /\ sql_agent._agent (sql_agent.manager p') = None.
Proof.
  rewrite query_outcome. unfold facade.attempt. unfold_M.
  destruct (sql_agent.create_agent lc B p) as [[a|e'] p1] eqn:Hcreate; simpl.
  - intros _ [=].
  - intros [= <- <-] [= <-]. split; [done|].
    by apply (create_agent_fails lc B p e').
Qed.

Context (lc : agents.api LLM) (B : sql_agent.backend DB LLMM LLM).
Context (get_tools : agents.SQLDatabaseToolkit LLM -> py (list (string * string))).

Lemma get_toolkit_info_with_toolkit (p : process) toolkit :
  sql_agent._toolkit (sql_agent.manager p) = Some toolkit ->
  SQLAgentManager.get_toolkit_info lc B get_tools p =
  (match get_tools toolkit with
   | Ret tools =>
       Ret (<["status" := IStr "success"]>
            (<["tool_count" := IInt (Z.of_nat (length tools))]>
            (<["tools" := ITools tools]> ∅)))
   | Raise e => Ret (<["status" := IStr "error"]> (<["error" := IStr e]> ∅))
   end, p).
Proof.
  unfold SQLAgentManager.get_toolkit_info. unfold_M.
  destruct p as [[a tk] d l]. simpl. intros ->. simpl.
  by destruct (get_tools toolkit).
Qed.

(** X12: [get_toolkit_info] can report tools that no agent can use.  In a
    process whose manager is new, when the database, the model and the
    toolkit are there but [create_sql_agent] raises, a first call returns an
    error result with the text of that exception, and leaves the toolkit in
    the manager; a second call then reports success, with the tools of that
    toolkit, although the manager still has no agent. *)
Theorem get_toolkit_info_without_agent
    (p : process) db d' llm l' toolkit tools e :
  sql_agent.manager p = sql_agent.__init__ ->
  sql_agent.get_database B (sql_agent.db_instance p) = (Ret db, d') ->
  sql_agent.get_llm B (sql_agent.llm_manager p) = (Ret llm, l') ->
  agents.SQLDatabaseToolkit_new lc db llm = Ret toolkit ->
  agents.create_sql_agent lc (sql_agent.kwargs B llm toolkit) = Raise e ->
  get_tools toolkit = Ret tools ->
  exists p1,
    SQLAgentManager.get_toolkit_info lc B get_tools p
    = (Ret (<["status" := IStr "error"]> (<["error" := IStr e]> ∅)), p1)
    /\ sql_agent._agent (sql_agent.manager p1) = None
    /\ SQLAgentManager.get_toolkit_info lc B get_tools p1
       = (Ret (<["status" := IStr "success"]>
               (<["tool_count" := IInt (Z.of_nat (length tools))]>
               (<["tools" := ITools tools]> ∅))), p1).
Proof.
  destruct p as [m d l]. simpl. intros -> Hdb Hllm Htk Hagent Htools.
  eexists. split; [|split].
  - unfold SQLAgentManager.get_toolkit_info, sql_agent.create_agent.
    unfold_M. simpl. rewrite Hdb. simpl. rewrite Hllm. simpl.
    rewrite Htk, Hagent. simpl. reflexivity.
  - reflexivity.
  - rewrite (get_toolkit_info_with_toolkit _ toolkit) by reflexivity.
    by rewrite Htools.
Qed.

(** X13: [initialize_agent] never raises, and its status tells whether the
    agent could be made, not whether its tools could be listed.  When
    [create_agent] raises, the result has status [error] with the text of
    the exception; when it returns, the result has status [success], and
    [tools_available] is the number of tools of the toolkit, or 0 when the
    manager has no toolkit or listing its tools raises. *)
Theorem initialize_agent_status (p : process) :
  exists r p',
    SQLAgentManager.initialize_agent lc B get_tools p = (Ret r, p')
    /\ match sql_agent.create_agent lc B p with
       | (Raise e, _) =>
           r !! "status" = Some (IStr "error") /\ r !! "error" = Some (IStr e)
           /\ r !! "tools_available" = None
       | (Ret a, p1) =>
           r !! "status" = Some (IStr "success")
           /\ r !! "error" = None
           /\ r !! "tools_available"
              = Some (IInt (match sql_agent._toolkit (sql_agent.manager p1) with
                            | Some toolkit =>
                                match get_tools toolkit with
                                | Ret tools => Z.of_nat (length tools)
                                | Raise _ => 0
                                end
                            | None => 0
                            end))
       end.
Proof.
  unfold SQLAgentManager.initialize_agent.
  unfold mbind at 1, M_mbind at 1, bind at 1, try_except at 1.
  destruct (sql_agent.create_agent lc B p) as [[a|e] p1] eqn:Hcreate; simpl.
  - apply create_agent_caches in Hcreate as [Hagent _].
    unfold mbind, M_mbind, bind.
    destruct (sql_agent._toolkit (sql_agent.manager p1)) as [toolkit|] eqn:Htk.
    + rewrite (get_toolkit_info_with_toolkit p1 toolkit Htk).
      destruct (get_tools toolkit) as [tools|e];
        (eexists _, _; split; [reflexivity|]; repeat split; by simplify_map_eq).
    + unfold SQLAgentManager.get_toolkit_info. unfold_M. rewrite Htk.
      rewrite (create_agent_cached lc B p1 a Hagent). simpl. rewrite Htk. simpl.
      eexists _, _. split; [reflexivity|]. repeat split; by simplify_map_eq.
  - eexists _, _. split; [reflexivity|]. repeat split; by simplify_map_eq.
Qed.

End AgentManager.

(** ** The model manager of [app/llm.py] *)

Section LLMManager.

Context {float LLM : Type}.

Lemma get_llm_cached (config : config.Config float) (vx : llm.api (LLM:=LLM))
    (self : llm.LLMManager) model :
  llm._llm self = Some model ->
  llm.get_llm config vx self = (Ret model, self).
Proof. unfold llm.get_llm. unfold_M. by intros ->. Qed.

Lemma get_llm_caches (config : config.Config float) (vx : llm.api (LLM:=LLM))
    (self : llm.LLMManager) model self' :
  llm.get_llm config vx self = (Ret model, self') ->
  llm._llm self' = Some model.
Proof.
  unfold llm.get_llm, llm.initialize_vertex_ai, llm.set_llm, llm.set_initialized.
  unfold_M. destruct self as [[m0|] [|]]; simpl;
    repeat case_step; by intros [= <- <-].
Qed.

(** X14: the model is built once, and Vertex AI is initialised once.  After
    a call of [get_llm] that returned a model, every later call returns that
    model and changes nothing; after a call of [initialize_vertex_ai] that
    returned, every later call returns at once; in both cases whatever the
    library and the configuration would do or hold by then. *)
Theorem get_llm_once
    (config config' : config.Config float) (vx vx' : llm.api (LLM:=LLM))
    (self : llm.LLMManager) :
  (forall model self',
      llm.get_llm config vx self = (Ret model, self') ->
      llm.get_llm config' vx' self' = (Ret model, self'))
  /\ (forall self',
        llm.initialize_vertex_ai config vx self = (Ret tt, self') ->
        llm.initialize_vertex_ai config' vx' self' = (Ret tt, self')).
Proof.
  split.
  - intros model self' Hget.
    by apply get_llm_cached, (get_llm_caches config vx self).
  - intros self'. unfold llm.initialize_vertex_ai, llm.set_initialized. unfold_M.
    destruct self as [m [|]]; simpl.
    + by intros [= <-].
    + repeat case_step; by intros [= <-].
Qed.

(** X15: when Vertex AI could be initialised but the model could not be
    built, [get_llm] raises the exception of the constructor and leaves the
    manager initialised and without model: the next call does not
    initialise Vertex AI again (the outcome is the same with a library
    whose [vertexai.init] would fail), it only tries the constructor
    again. *)
Theorem get_llm_keeps_initialisation
    (config : config.Config float) (vx : llm.api (LLM:=LLM))
    (self : llm.LLMManager) e :
  llm._llm self = None ->
  (llm._initialized self = true
   \/ llm.vertexai_init vx (config.PROJECT_ID config) (config.LOCATION config)
      = Ret tt) ->
  llm.ChatVertexAI vx (config.GEMINI_MODEL config) (config.GEMINI_TEMPERATURE config)
    (config.GEMINI_MAX_OUTPUT_TOKENS config) (config.GEMINI_TOP_P config)
    (config.GEMINI_TOP_K config) (config.PROJECT_ID config) (config.LOCATION config)
  = Raise e ->
  exists self',
  llm.get_llm config vx self = (Raise e, self')
  /\ llm._initialized self' = true
  /\ llm._llm self' = None
  /\ forall init',
       llm.get_llm config
         {| llm.vertexai_init := init';
            llm.ChatVertexAI := llm.ChatVertexAI vx;
            llm.invoke := llm.invoke vx |} self'
       = (Raise e, self').
Proof.
  destruct self as [m i]. simpl. intros -> Hinit Hmodel.
  unfold llm.get_llm, llm.initialize_vertex_ai, llm.set_llm, llm.set_initialized.
  unfold_M. simpl.
  destruct i; simpl.
  - rewrite Hmodel. simpl. eexists. split; [reflexivity|]. simpl.
    split; [done|]. split; [done|]. intros init'. simpl. by rewrite ?Hmodel.
  - destruct Hinit as [[=]|Hinit]. rewrite Hinit. simpl. rewrite Hmodel. simpl.
    eexists. split; [reflexivity|]. simpl.
    split; [done|]. split; [done|]. intros init'. simpl. by rewrite ?Hmodel.
Qed.

(** X16: [initialize_llm] never raises and builds no model.  Its result has
    status [success] exactly when the manager was initialised already or
    [vertexai.init] returns, and the manager holds the same model, or none,
    as before: that the status is [success] says nothing about the
    constructor of the model. *)
Theorem initialize_llm_builds_no_model
    (config : config.Config float) (vx : llm.api (LLM:=LLM)) (self : llm.LLMManager) :
  exists r self',
    llm.initialize_llm config vx self = (Ret r, self')
    /\ llm._llm self' = llm._llm self
    /\ (r !! "status" = Some (IStr "success") <->
        llm._initialized self = true
        \/ llm.vertexai_init vx (config.PROJECT_ID config) (config.LOCATION config)
           = Ret tt)
    /\ (r !! "status" = Some (IStr "success") \/ r !! "status" = Some (IStr "error")).
Proof.
  unfold llm.initialize_llm, llm.initialize_vertex_ai, llm.set_initialized.
  unfold_M. destruct self as [m [|]]; simpl.
  - eexists _, _. split; [reflexivity|]. split; [done|].
    split; [|left; by simplify_map_eq].
    split; [by left|intros _; by simplify_map_eq].
  - destruct (llm.vertexai_init vx _ _) as [[]|e]; simpl.
    + eexists _, _. split; [reflexivity|]. split; [done|].
      split; [|left; by simplify_map_eq].
      split; [by right|intros _; by simplify_map_eq].
    + eexists _, _. split; [reflexivity|]. split; [done|].
      split; [|right; by simplify_map_eq].
      split.
      * intros Hs. by simplify_map_eq.
      * intros [[=]|[=]].
Qed.

(** X17: a question that fails at the model keeps the warehouse connection.
    In a process whose manager has no agent yet, when the database can be
    connected but [get_llm] raises, [query] returns the error result of that
    exception, the manager still has no agent, and the database singleton
    holds the connection that was made: the next question will not connect
    again. *)
Theorem query_llm_failure_keeps_connection {engine : Type}
    (sa : sqlalchemy.api engine) (lc : agents.api LLM)
    (config : config.Config float) (vx : llm.api (LLM:=LLM))
    (p : sql_agent.process database.BigQueryDatabase llm.LLMManager LLM)
    question db d' e :
  sql_agent._agent (sql_agent.manager p) = None ->
  database.get_database sa (sql_agent.db_instance p) = (Ret db, d') ->
  (llm.get_llm config vx (sql_agent.llm_manager p)).1 = Raise e ->
  exists p',
    agent.query sa lc config (llm.get_llm config vx) question p
    = (Ret (facade.error_result question e), p')
    /\ sql_agent._agent (sql_agent.manager p') = None
    /\ database._db (sql_agent.db_instance p') = Some db.
Proof.
  intros Hagent Hdb Hllm.
  pose proof (get_database_caches sa _ db d' Hdb) as Hcached.
  destruct (create_agent_llm_failure lc (agent.backend sa config (llm.get_llm config vx))
              p db d' e Hagent Hdb Hllm) as (p' & Hcreate & Hd & Hm).
  exists p'. unfold agent.query. rewrite query_outcome.
  unfold facade.attempt. unfold_M. rewrite Hcreate.
  split; [done|]. split; [by rewrite Hm|by rewrite Hd].
Qed.

End LLMManager.

(** ** The retries of [app/llm_aws.py] *)

Section Retries.

Import llm_aws.

Context {float client LLM : Type}.
Context (config_aws : config_aws.ConfigAWS float).
Context (bedrock : api (client:=client) (LLM:=LLM) (float:=float)).

Local Abbreviation world := (llm_aws.world (client:=client) (LLM:=LLM)).








End Retries.

(** ** The model manager of [app/llm_aws.py] *)

Section Bedrock.

Import llm_aws.

Context {float client LLM : Type}.

Local Abbreviation world := (llm_aws.world (client:=client) (LLM:=LLM)).
Local Abbreviation api := (llm_aws.api (client:=client) (LLM:=LLM) (float:=float)).

Lemma bedrock_get_llm_cached (cfg : config_aws.ConfigAWS float) (bedrock : api)
    (w : world) model :
  _llm (manager w) = Some model -> get_llm cfg bedrock w = (Ok model, w).
Proof. unfold get_llm. by intros ->. Qed.

Lemma bedrock_get_llm_caches (cfg : config_aws.ConfigAWS float) (bedrock : api)
    (w : world) model w' :
  get_llm cfg bedrock w = (Ok model, w') -> _llm (manager w') = Some model.
Proof.
  unfold get_llm, initialize_bedrock, build_llm, on_manager, mbind, R_mbind.
  repeat case_step; by intros [= <- <-].
Qed.

(** X20: the Bedrock client and the model are made once.  After a call of
    [get_llm] that returned a model, every later call returns that model and
    changes nothing, whatever [boto3], the constructor and the configuration
    would do by then.  When the client could be made (or was there) but the
    constructor of the model raises, [get_llm] raises that exception and
    leaves the manager initialised, with its client and without model: the
    next call makes no other client (its outcome is the same with a library
    whose [boto3.client] would fail). *)
Theorem bedrock_get_llm_once
    (cfg cfg' : config_aws.ConfigAWS float) (bedrock bedrock' : api) (w : world) :
  (forall model w',
      get_llm cfg bedrock w = (Ok model, w') ->
      get_llm cfg' bedrock' w' = (Ok model, w'))
  /\ (forall e w',
        get_llm cfg bedrock w = (Err e, w') ->
        (_initialized (manager w) = true
         \/ exists c, boto3_client bedrock "bedrock-runtime" (config_aws.AWS_REGION cfg)
                      = Ok c) ->
        _initialized (manager w') = true
        /\ _llm (manager w') = None
        /\ forall boto3_client',
             get_llm cfg
               {| boto3_client := boto3_client';
                  ChatBedrock := ChatBedrock bedrock;
                  invoke := invoke bedrock |} w'
             = (Err e, w')).
Proof.
  split.
  - intros model w' Hget.
    by apply bedrock_get_llm_cached, (bedrock_get_llm_caches cfg bedrock w).
  - intros e w'. destruct w as [[m c i] n sl].
    unfold get_llm, initialize_bedrock, build_llm, on_manager, mbind, R_mbind. simpl.
    destruct m as [model|]; [intros [=]|].
    destruct i; simpl.
    + destruct (ChatBedrock bedrock _ _ _ _ _ _ _) as [model|e'] eqn:Hmodel;
        intros [= <- <-] _; simpl.
      split; [done|]. split; [done|]. intros boto3_client'. simpl. by rewrite Hmodel.
    + destruct (boto3_client bedrock _ _) as [c'|e'] eqn:Hclient; simpl.
      * destruct (ChatBedrock bedrock _ _ _ _ _ _ _) as [model|e''] eqn:Hmodel;
          intros [= <- <-] _; simpl.
        split; [done|]. split; [done|]. intros boto3_client'. simpl. by rewrite Hmodel.
      * intros [= <- <-] [[=]|[c' [=]]].
Qed.

(** X21: [initialize_llm] of [app/llm_aws.py] never raises and builds no
    model.  Its status is [success] exactly when the manager was initialised
    already or [boto3.client] returns, and [error] otherwise; the manager
    holds the same model, or none, as before, the model is not called and
    nothing is slept. *)
Theorem bedrock_initialize_llm_builds_no_model
    (cfg : config_aws.ConfigAWS float) (bedrock : api) (w : world) :
  exists r w',
    initialize_llm cfg bedrock w = (Ok r, w')
    /\ _llm (manager w') = _llm (manager w)
    /\ calls w' = calls w
    /\ slept w' = slept w
    /\ (r !! "status" = Some (IStr "success") <->
        _initialized (manager w) = true
        \/ exists c, boto3_client bedrock "bedrock-runtime" (config_aws.AWS_REGION cfg)
                     = Ok c)
    /\ (r !! "status" = Some (IStr "success") \/ r !! "status" = Some (IStr "error")).
Proof.
  destruct w as [[m c i] n sl].
  unfold initialize_llm, initialize_bedrock, on_manager, unexpected_error. simpl.
  destruct i; simpl.
  - eexists _, _. split; [reflexivity|]. simpl.
    split; [done|]. split; [done|]. split; [done|].
    split; [|left; by simplify_map_eq].
    split; [by left|intros _; by simplify_map_eq].
  - destruct (boto3_client bedrock _ _) as [c'|e] eqn:Hclient; simpl.
    + eexists _, _. split; [reflexivity|]. simpl.
      split; [done|]. split; [done|]. split; [done|].
      split; [|left; by simplify_map_eq].
      split; [right; eauto|intros _; by simplify_map_eq].
    + eexists _, _. split; [reflexivity|]. simpl.
      split; [done|]. split; [done|]. split; [done|].
      split; [|right; by simplify_map_eq].
      split.
      * intros Hs. by simplify_map_eq.
      * intros [[=]|[c' [=]]].
Qed.

End Bedrock.

(** ** The properties above on concrete collaborators *)

(** An agent made while the warehouse could be reached is the one returned
    when neither the warehouse nor the agent library works any more. *)
Lemma create_agent_once_witness :
  exists a p',
    sql_agent.create_agent scenario.mute (setups.B scenario.reachable) setups.fresh
    = (Ret a, p')
    /\ sql_agent.create_agent setups.no_toolkit (setups.B scenario.unreachable) p'
       = (Ret a, p').
Proof.
  eexists _, _. split; [reflexivity|].
  exact (proj1 (create_agent_once scenario.mute setups.no_toolkit
                  (setups.B scenario.reachable) (setups.B scenario.unreachable)
                  setups.fresh _ _ eq_refl)).
Defined.

(** A library that cannot make the agent: the question is answered by an
    error result and the manager has no agent afterwards. *)
Lemma create_agent_failure_not_cached_witness :
  (sql_agent.query setups.no_agent (setups.B scenario.reachable)
     "How many vehicles?" setups.fresh).1
  = Ret (facade.error_result "How many vehicles?" "unsupported agent type")
  /\ sql_agent._agent
       (sql_agent.manager
          (sql_agent.query setups.no_agent (setups.B scenario.reachable)
             "How many vehicles?" setups.fresh).2) = None.
Proof.
  pose proof (create_agent_failure_not_cached setups.no_agent
                (setups.B scenario.reachable) setups.fresh "How many vehicles?"
                _ _ "unsupported agent type" eq_refl eq_refl) as [Hr Hagent].
  split; [|exact Hagent].
  exact (f_equal Ret Hr).
Defined.

(** The toolkit left behind by a failed creation is reported as a success. *)
Lemma get_toolkit_info_without_agent_witness :
  exists p1,
    SQLAgentManager.get_toolkit_info setups.no_agent (setups.B scenario.reachable)
      setups.two_tools setups.fresh
    = (Ret (<["status" := IStr "error"]>
            (<["error" := IStr "unsupported agent type"]> ∅)), p1)
    /\ sql_agent._agent (sql_agent.manager p1) = None
    /\ SQLAgentManager.get_toolkit_info setups.no_agent (setups.B scenario.reachable)
         setups.two_tools p1
       = (Ret (<["status" := IStr "success"]>
               (<["tool_count" := IInt 2]>
               (<["tools" := ITools
                    [("sql_db_query", "Execute a SQL query against the database.");
                     ("sql_db_list_tables", "List the tables of the database.")]]>
                ∅))), p1).
Proof.
  exact (get_toolkit_info_without_agent setups.no_agent (setups.B scenario.reachable)
           setups.two_tools setups.fresh scenario.warehouse _ tt tt
           {| agents.db := scenario.warehouse; agents.llm := tt |} _
           "unsupported agent type"
           eq_refl eq_refl eq_refl eq_refl eq_refl eq_refl).
Defined.

(** A model built while Vertex AI worked is the one returned once Vertex AI
    is out of reach. *)
Lemma get_llm_once_witness :
  exists model self',
    llm.get_llm setups.cfg setups.vertex llm.__init__ = (Ret model, self')
    /\ llm.get_llm setups.cfg setups.vertex_down self' = (Ret model, self').
Proof.
  eexists _, _. split; [reflexivity|].
  exact (proj1 (get_llm_once setups.cfg setups.cfg setups.vertex setups.vertex_down
                  llm.__init__) _ _ eq_refl).
Defined.

(** A model name Vertex AI does not know. *)
Lemma get_llm_keeps_initialisation_witness :
  exists self',
    llm.get_llm setups.cfg setups.vertex_no_model llm.__init__
    = (Raise "model not found", self')
    /\ llm._initialized self' = true
    /\ llm._llm self' = None
    /\ forall init',
         llm.get_llm setups.cfg
           {| llm.vertexai_init := init';
              llm.ChatVertexAI := llm.ChatVertexAI setups.vertex_no_model;
              llm.invoke := llm.invoke setups.vertex_no_model |} self'
         = (Raise "model not found", self').
Proof.
  exact (get_llm_keeps_initialisation setups.cfg setups.vertex_no_model llm.__init__
           "model not found" eq_refl (or_intror eq_refl) eq_refl).
Defined.

(** The warehouse is reached, the model is not: the connection is kept. *)
Lemma query_llm_failure_keeps_connection_witness :
  exists p',
    agent.query scenario.reachable scenario.mute setups.cfg
      (llm.get_llm setups.cfg setups.vertex_no_model) "How many vehicles?"
      setups.fresh_llm
    = (Ret (facade.error_result "How many vehicles?" "model not found"), p')
    /\ sql_agent._agent (sql_agent.manager p') = None
    /\ database._db (sql_agent.db_instance p') = Some scenario.warehouse.
Proof.
  exact (query_llm_failure_keeps_connection scenario.reachable scenario.mute
           setups.cfg setups.vertex_no_model setups.fresh_llm "How many vehicles?"
           scenario.warehouse _ "model not found" eq_refl eq_refl eq_refl).
Defined.

(** A model built while Bedrock worked is the one returned once Bedrock is
    out of reach. *)
Lemma bedrock_get_llm_once_witness :
  exists model w',
    llm_aws.get_llm (scenario.settings_aws false) (setups.throttled 0) setups.dawn
    = (llm_aws.Ok model, w')
    /\ llm_aws.get_llm (scenario.settings_aws true) setups.bedrock_down w'
       = (llm_aws.Ok model, w').
Proof.
  eexists _, _. split; [reflexivity|].
  exact (proj1 (bedrock_get_llm_once (scenario.settings_aws false)
                  (scenario.settings_aws true) (setups.throttled 0)
                  setups.bedrock_down setups.dawn) _ _ eq_refl).
Defined.


(** That run: two waits of 1 and 2 seconds, three calls, success at the
    third attempt. *)
Example throttled_twice :
  let run := llm_aws.invoke_with_retries (scenario.settings_aws false)
               (setups.throttled 2) "Say 'Hello' if you can hear me." 3 setups.dawn in
  run.1 = llm_aws.Ok (llm_aws.success
                        {| llm_aws.content := Some "Hello";
                           llm_aws.str_of := "content='Hello'" |} 2)
  /\ llm_aws.slept run.2 = [1; 2]%Z
  /\ llm_aws.calls run.2 = 3.
Proof. vm_compute. done. Qed.

(** Throttled at every turn: the third exception is reported with its code,
    after the same two waits. *)
Example throttled_throughout :
  let run := llm_aws.invoke_with_retries (scenario.settings_aws false)
               (setups.throttled 3) "Say 'Hello' if you can hear me." 3 setups.dawn in
  run.1 = llm_aws.Ok (llm_aws.bedrock_error
                        "An error occurred (ThrottlingException): Too many requests"
                        "ThrottlingException")
  /\ llm_aws.slept run.2 = [1; 2]%Z
  /\ llm_aws.calls run.2 = 3.
Proof. vm_compute. done. Qed.

(** ** The pages: [process_user_query] and [initialize_system] *)

Section Pages.

Import page.

Context {S : Type}.
Context (w : wording) (I : imports (S:=S)).
Context (repr_info : info -> string) (repr_pyval : pyval -> string).

Local Abbreviation page := (page.page (S:=S)).

(** A page that differs from [p] in its messages, calls and clock only. *)
Local Abbreviation grown p ms cs n s :=
  ({| session := set_messages ms (session p); calls := calls p ++ cs;
      clock := clock p + n; system := s |}).

Lemma bind_run {A B} (c : M page A) (k : A -> M page B) p a p' :
  c p = (Ret a, p') -> (c ≫= k) p = k a p'.
Proof. unfold mbind, M_mbind, bind. by intros ->. Qed.

Lemma show_run queries (p : page) :
  show queries p
  = (Ret tt, {| session := session p;
                calls := calls p ++ ((fun q => streamlit.code q "sql") <$> queries);
                clock := clock p; system := system p |}).
Proof.
  revert p. induction queries as [|q queries IH]; intros p.
  - simpl. rewrite app_nil_r. by destruct p.
  - simpl. unfold mbind at 1, M_mbind at 1, bind at 1, st, assign.
    rewrite IH. simpl. by rewrite <- app_assoc.
Qed.

Local Arguments show : simpl never.

Lemma append_run message (p : page) ms :
  messages (session p) = Some ms ->
  append message p
  = (Ret tt, {| session := set_messages (ms ++ [message (Now (clock p))]) (session p);
                calls := calls p; clock := Datatypes.S (clock p);
                system := system p |}).
Proof. unfold append, datetime_now, set_session. unfold_M. by intros ->. Qed.


(** X22: a question always leaves exactly two messages.  Whatever the
    imported [query_database] does (return a result of any shape, or raise),
    on a session that has its [messages], [process_user_query] returns, and
    the messages have grown by the question of the user and one message of
    the assistant, stamped with the two next readings of the clock; the
    other keys of the session are untouched, and the imported modules are
    left as [query_database] left them. *)
Theorem process_user_query_two_messages (question : string) (p : page) ms :
  messages (session p) = Some ms ->
  exists reply p',
    process_user_query w I repr_pyval question p = (Ret tt, p')
    /\ messages (session p')
       = Some (ms ++ [user_message question (Now (clock p)); reply])
    /\ reply !! "role" = Some (Val (PyStr "assistant"))
    /\ reply !! "timestamp" = Some (Now (Datatypes.S (clock p)))
    /\ is_Some (reply !! "content")
    /\ initialized (session p') = initialized (session p)
    /\ db_status (session p') = db_status (session p)
    /\ llm_status (session p') = llm_status (session p)
    /\ agent_status (session p') = agent_status (session p)
    /\ system p' = (query_database I question (system p)).2.
Proof.
  intros Hms. unfold process_user_query.
  rewrite (bind_run _ _ _ _ _ (append_run _ p ms Hms)).
  unfold st, imported, item, set_session, append, datetime_now. unfold_M. simpl.
  destruct (query_database I question (system p)) as [[result|e] s'] eqn:Hq; simpl.
  - repeat (rewrite show_run || case_step);
      simplify_eq;
      (eexists _, _; split; [reflexivity|]; simpl; rewrite <- app_assoc; simpl;
       split; [reflexivity|]; unfold answer_message, error_message;
       repeat split; by simplify_map_eq).
  - eexists _, _. split; [reflexivity|]. simpl. rewrite <- app_assoc. simpl.
    split; [reflexivity|]. unfold error_message. repeat split; by simplify_map_eq.
Qed.


Lemma is_success_spec v : is_success v = true <-> v = IStr "success".
Proof.
  destruct v; simpl; try (split; [discriminate|intros [=]]).
  rewrite String.eqb_eq. split; [by intros ->|by intros [= ->]].
Qed.

(** A run of [initialize_system] that stopped before the end. *)
Local Ltac stopped :=
  eexists _, _; split; [reflexivity|]; simpl; rewrite <- ?app_assoc;
  split; [done|]; split; [done|]; split; [|by eauto];
  split; [done|];
  intros (? & ? & ? & ? & ? & ? & ? & ? & ? & ? & ? & ? & ? & ?);
  simplify_eq; try congruence;
  match goal with
  | H : is_success ?v = false |- _ =>
      assert (v = IStr "success") as -> by congruence; done
  end.

(** The same, for a run that is given. *)
Local Ltac halted :=
  intros [= <- <-]; simpl;
  split; [intros; by simplify_eq|];
  split; intros; simplify_eq;
  repeat match goal with
         | H1 : ?f = _, H2 : ?f = _ |- _ => rewrite H1 in H2; simplify_eq
         end;
  try done;
  match goal with
  | H : forall x, _ = Ret x -> _ |- _ => by edestruct H
  end.

Lemma initialize_system_run (p : page) :
  initialized (session p) = Some false ->
  exists b p',
    initialize_system w I repr_info p = (Ret b, p')
    /\ initialized (session p') = Some b
    /\ messages (session p') = messages (session p)
    /\ (b = true <->
        validate I = Ret tt
        /\ exists d s1 l s2 a s3,
             initialize_database I (system p) = (Ret d, s1)
             /\ d !! "status" = Some (IStr "success")
             /\ initialize_llm I s1 = (Ret l, s2)
             /\ l !! "status" = Some (IStr "success")
             /\ initialize_agent I s2 = (Ret a, s3)
             /\ a !! "status" = Some (IStr "success")
             /\ system p' = s3)
    /\ (if b then calls p' = calls p ++ [streamlit.spinner (initializing w)]
        else exists body,
               calls p' = calls p ++ [streamlit.spinner (initializing w);
                                      streamlit.error body]).
Proof.
  intros Hinit. unfold initialize_system.
  unfold mbind at 1, M_mbind at 1, bind at 1, read at 1. rewrite Hinit.
  unfold st, imported, item, set_session. unfold_M. simpl.
  destruct (validate I) as [[]|e] eqn:Hv; simpl; [|stopped].
  destruct (initialize_database I (system p)) as [[d|e] s1] eqn:Hd; simpl; [|stopped].
  destruct (d !! "status") as [v|] eqn:Hds; simpl; [|stopped].
  destruct (is_success v) eqn:Hsv; simpl; [|stopped].
  apply is_success_spec in Hsv as ->.
  destruct (initialize_llm I s1) as [[l|e] s2] eqn:Hl; simpl; [|stopped].
  destruct (l !! "status") as [v|] eqn:Hls; simpl; [|stopped].
  destruct (is_success v) eqn:Hsv; simpl; [|stopped].
  apply is_success_spec in Hsv as ->.
  destruct (initialize_agent I s2) as [[a|e] s3] eqn:Ha; simpl; [|stopped].
  destruct (a !! "status") as [v|] eqn:Has; simpl; [|stopped].
  destruct (is_success v) eqn:Hsv; simpl; [|stopped].
  apply is_success_spec in Hsv as ->.
  eexists _, _. split; [reflexivity|]. simpl.
  split; [done|]. split; [done|]. split; [|done].
  split; [intros _|done]. split; [done|]. eauto 15.
Qed.


(** X23: [initialize_system] never raises on a session that is not
    initialised yet, and the flag [initialized] of the session is what it
    returns: [True] exactly when [config.validate] returns and
    [initialize_database], [initialize_llm] and [initialize_agent], run in
    this order, each on the state the one before left, all return a status
    [success].  The chat messages are untouched; a run that returns [True]
    shows the spinner only, a run that returns [False] shows the spinner and
    exactly one error. *)
Theorem initialize_system_gate (p : page) :
  initialized (session p) = Some false ->
  exists b p',
    initialize_system w I repr_info p = (Ret b, p')
    /\ initialized (session p') = Some b
    /\ messages (session p') = messages (session p)
    /\ (b = true <->
        validate I = Ret tt
        /\ exists d s1 l s2 a s3,
             initialize_database I (system p) = (Ret d, s1)
             /\ d !! "status" = Some (IStr "success")
             /\ initialize_llm I s1 = (Ret l, s2)
             /\ l !! "status" = Some (IStr "success")
             /\ initialize_agent I s2 = (Ret a, s3)
             /\ a !! "status" = Some (IStr "success")
             /\ system p' = s3)
    /\ (if b then calls p' = calls p ++ [streamlit.spinner (initializing w)]
        else exists body,
               calls p' = calls p ++ [streamlit.spinner (initializing w);
                                      streamlit.error body]).
Proof. exact (initialize_system_run p). Qed.

(** X24: a step that fails stops the initialisation; the later modules are
    not touched.  When [config.validate] raises, no module is called and no
    status is stored.  When [initialize_database] raises or returns a status
    other than [success], the modules are as it left them, and neither
    [llm_status] nor [agent_status] is stored.  When the database succeeded
    and [initialize_llm] raises or returns a status other than [success],
    the modules are as [initialize_llm] left them, [db_status] holds the
    status of the database and [agent_status] is not stored. *)
Theorem initialize_system_stops (p : page) b p' :
  initialized (session p) = Some false ->
  initialize_system w I repr_info p = (Ret b, p') ->
  (forall e, validate I = Raise e ->
     system p' = system p
     /\ db_status (session p') = db_status (session p)
     /\ llm_status (session p') = llm_status (session p)
     /\ agent_status (session p') = agent_status (session p))
  /\ (validate I = Ret tt ->
      forall r s1,
        initialize_database I (system p) = (r, s1) ->
        (forall d, r = Ret d -> d !! "status" <> Some (IStr "success")) ->
        system p' = s1
        /\ llm_status (session p') = llm_status (session p)
        /\ agent_status (session p') = agent_status (session p))
  /\ (validate I = Ret tt ->
      forall d s1 r s2,
        initialize_database I (system p) = (Ret d, s1) ->
        d !! "status" = Some (IStr "success") ->
        initialize_llm I s1 = (r, s2) ->
        (forall l, r = Ret l -> l !! "status" <> Some (IStr "success")) ->
        system p' = s2
        /\ db_status (session p') = Some (Some d)
        /\ agent_status (session p') = agent_status (session p)).
Proof.
  intros Hinit. unfold initialize_system.
  unfold mbind at 1, M_mbind at 1, bind at 1, read at 1. rewrite Hinit.
  unfold st, imported, item, set_session. unfold_M. simpl.
  destruct (validate I) as [[]|e] eqn:Hv; simpl; [|halted].
  destruct (initialize_database I (system p)) as [[d|e] s1] eqn:Hd; simpl; [|halted].
  destruct (d !! "status") as [v|] eqn:Hds; simpl; [|halted].
  destruct (is_success v) eqn:Hsv; simpl; [|halted].
  apply is_success_spec in Hsv as ->.
  destruct (initialize_llm I s1) as [[l|e] s2] eqn:Hl; simpl; [|halted].
  destruct (l !! "status") as [v|] eqn:Hls; simpl; [|halted].
  destruct (is_success v) eqn:Hsv; simpl; [|halted].
  apply is_success_spec in Hsv as ->.
  destruct (initialize_agent I s2) as [[a|e] s3] eqn:Ha; simpl; [|halted].
  destruct (a !! "status") as [v|] eqn:Has; simpl; [|halted].
  destruct (is_success v) eqn:Hsv; simpl; halted.
Qed.


Lemma initialize_system_complete (p : page) r p' :
  complete (session p) ->
  initialize_system w I repr_info p = (r, p') ->
  complete (session p').
Proof.
  unfold complete, initialize_system.
  unfold st, imported, item, set_session. unfold_M.
  intros (Hm & Hi & Hd & Hl & Ha).
  repeat case_step; intros [= <- <-]; simpl;
    repeat split; solve [done | by eexists].
Qed.

Lemma initialize_session_state_complete (p : page) :
  complete (session p) -> initialize_session_state p = (Ret tt, p).
Proof.
  destruct p as [[m i d l a] cs n s]. unfold complete. simpl.
  intros ([? ->] & [? ->] & [? ->] & [? ->] & [? ->]). reflexivity.
Qed.

(** X25: the system is initialised once per session.  From any session,
    also one that has none of its keys, [initialize_session_state] followed
    by [initialize_system] returns; and after a run that returned [True],
    running the two again returns [True] and changes nothing on the page,
    whatever the imported functions are by then: none of them is called, and
    the messages and the statuses are kept. *)
Theorem initialize_system_once (p : page) :
  (exists b p1,
      (initialize_session_state ≫= fun _ => initialize_system w I repr_info) p
      = (Ret b, p1))
  /\ forall p1,
       (initialize_session_state ≫= fun _ => initialize_system w I repr_info) p
       = (Ret true, p1) ->
       forall I' : imports,
         (initialize_session_state ≫= fun _ => initialize_system w I' repr_info) p1
         = (Ret true, p1).
Proof.
  unfold mbind, M_mbind, bind.
  destruct (initialize_session_state p) as [r p0] eqn:Hp0.
  assert (r = Ret tt /\ complete (session p0)) as [-> Hc].
  { unfold initialize_session_state, assign, set_session in Hp0.
    injection Hp0 as <- <-. split; [done|]. unfold complete. simpl.
    repeat split; by eexists. }
  destruct (initialized (session p0)) as [[|]|] eqn:Hi.
  - assert (initialize_system w I repr_info p0 = (Ret true, p0)) as ->.
    { unfold initialize_system. unfold_M. by rewrite Hi. }
    split; [eauto|]. intros p1 [= <-] I'.
    rewrite (initialize_session_state_complete p0 Hc).
    unfold initialize_system. unfold_M. by rewrite Hi.
  - destruct (initialize_system_run p0 Hi) as (b & p1 & Hrun & Hb & _).
    rewrite Hrun. split; [eauto|]. intros p1' [= -> <-] I'.
    rewrite (initialize_session_state_complete p1)
      by exact (initialize_system_complete p0 _ p1 Hc Hrun).
    unfold initialize_system. unfold_M. by rewrite Hb.
  - destruct Hc as (_ & [? Hi'] & _). congruence.
Qed.

(** What [process_user_query] does with a result of the two shapes of
    [query]. *)
Lemma process_user_query_success (question : string) (p : page) ms output steps s' :
  messages (session p) = Some ms ->
  query_database I question (system p)
  = (Ret (facade.success_result question output steps), s') ->
  process_user_query w I repr_pyval question p
  = (Ret tt,
     {| session :=
          set_messages
            (ms ++ [user_message question (Now (clock p));
                    answer_message (PyStr output)
                      (PyList (sql_agent.extract_sql_queries steps))
                      (PyInt (Z.of_nat (length steps)))
                      (Now (Datatypes.S (clock p)))])
            (session p);
        calls :=
          calls p
          ++ [streamlit.chat_message "user";
              streamlit.write (PyStr question);
              streamlit.chat_message "assistant";
              streamlit.spinner (analyzing w);
              streamlit.write (PyStr output)]
          ++ match sql_agent.extract_sql_queries steps with
             | [] => []
             | _ => streamlit.expander "🔍 View SQL Queries"
                    :: ((fun q => streamlit.code q "sql")
                          <$> sql_agent.extract_sql_queries steps)
             end;
        clock := Datatypes.S (Datatypes.S (clock p));
        system := s' |}).
Proof.
  intros Hms Hq. unfold process_user_query.
  rewrite (bind_run _ _ _ _ _ (append_run _ p ms Hms)).
  unfold st, imported, item, set_session, append, datetime_now. unfold_M. simpl.
  rewrite Hq. simpl.
  pose proof (success_result_lookup question output steps)
    as (-> & _ & -> & -> & -> & _).
  simpl.
  destruct (sql_agent.extract_sql_queries steps) as [|q queries]; simpl.
  - rewrite <- !app_assoc. reflexivity.
  - rewrite show_run. simpl. rewrite <- !app_assoc. reflexivity.
Qed.

Lemma process_user_query_error (question : string) (p : page) ms e s' :
  messages (session p) = Some ms ->
  query_database I question (system p) = (Ret (facade.error_result question e), s') ->
  process_user_query w I repr_pyval question p
  = (Ret tt,
     {| session :=
          set_messages
            (ms ++ [user_message question (Now (clock p));
                    error_message ("I encountered an error: " +:+ e)
                      (Now (Datatypes.S (clock p)))])
            (session p);
        calls :=
          calls p
          ++ [streamlit.chat_message "user";
              streamlit.write (PyStr question);
              streamlit.chat_message "assistant";
              streamlit.spinner (analyzing w);
              streamlit.error ("I encountered an error: " +:+ e)];
        clock := Datatypes.S (Datatypes.S (clock p));
        system := s' |}).
Proof.
  intros Hms Hq. unfold process_user_query.
  rewrite (bind_run _ _ _ _ _ (append_run _ p ms Hms)).
  unfold st, imported, item, set_session, append, datetime_now. unfold_M. simpl.
  rewrite Hq. simpl.
  pose proof (error_result_lookup question e) as (-> & _ & -> & _).
  simpl. rewrite <- !app_assoc. reflexivity.
Qed.

End Pages.

Section AgentReady.

Context {DB LLMM LLM : Type}.
Context (lc : agents.api LLM) (B : sql_agent.backend DB LLMM LLM).
Context (get_tools : agents.SQLDatabaseToolkit LLM -> py (list (string * string))).

Local Abbreviation process := (sql_agent.process DB LLMM LLM).

(** With an agent in the manager, [get_toolkit_info] changes nothing. *)
Lemma get_toolkit_info_keeps (p : process) a :
  sql_agent._agent (sql_agent.manager p) = Some a ->
  exists r, SQLAgentManager.get_toolkit_info lc B get_tools p = (Ret r, p).
Proof.
  intros Hagent.
  destruct (sql_agent._toolkit (sql_agent.manager p)) as [toolkit|] eqn:Htk.
  - rewrite (get_toolkit_info_with_toolkit lc B get_tools p toolkit Htk).
    destruct (get_tools toolkit); eauto.
  - unfold SQLAgentManager.get_toolkit_info. unfold_M. rewrite Htk.
    rewrite (create_agent_cached lc B p a Hagent). simpl. rewrite Htk. simpl. eauto.
Qed.

(** A successful [initialize_agent] is a [create_agent] that returned. *)
Lemma initialize_agent_success (p : process) r p' :
  SQLAgentManager.initialize_agent lc B get_tools p = (Ret r, p') ->
  r !! "status" = Some (IStr "success") ->
  exists a,
    sql_agent.create_agent lc B p = (Ret a, p')
    /\ sql_agent._agent (sql_agent.manager p') = Some a.
Proof.
  unfold SQLAgentManager.initialize_agent.
  unfold mbind at 1, M_mbind at 1, bind at 1, try_except at 1.
  destruct (sql_agent.create_agent lc B p) as [[a|e] p1] eqn:Hcreate; simpl.
  - apply create_agent_caches in Hcreate as [Hagent _].
    destruct (get_toolkit_info_keeps p1 a Hagent) as [info Hinfo].
    unfold mbind, M_mbind, bind. rewrite Hinfo. simpl.
    intros [= <- <-] _. eauto.
  - intros [= <- <-] Hs. by simplify_map_eq.
Qed.

End AgentReady.

Section PagesOfTheAgent.

Import page.

Context {DB LLMM LLM : Type}.
Context (lc : agents.api LLM) (B : sql_agent.backend DB LLMM LLM).
Context (w : wording) (I : imports (S:=sql_agent.process DB LLMM LLM)).
Context (repr_info : info -> string) (repr_pyval : pyval -> string).
Context (get_tools : agents.SQLDatabaseToolkit LLM -> py (list (string * string))).

Local Abbreviation page := (page.page (S:=sql_agent.process DB LLMM LLM)).

(** X26: with [query_database] of the agent modules, the handler
    [except Exception] of [process_user_query] is never entered: no reply
    starts with "An unexpected error occurred".  When the attempt (getting
    the agent and running it) returns, the reply is its answer, with the
    collected tool inputs and the number of steps, and the page shows the
    answer and, if there is any tool input, the expander with one code block
    per input; when the attempt raises [e], the reply is "I encountered an
    error: " followed by [e], flagged [error], and the page shows that text
    as an error.  In both cases the clock was read twice. *)
Theorem process_user_query_reply (question : string) (p : page) ms :
  messages (session p) = Some ms ->
  (forall q, query_database I q = sql_agent.query lc B q) ->
  exists p',
    process_user_query w I repr_pyval question p = (Ret tt, p')
    /\ match facade.attempt lc B question (system p) with
       | (Ret result, s') =>
           let output := default "No response generated" (agents.output result) in
           let steps := default [] (agents.intermediate_steps result) in
           let queries := sql_agent.extract_sql_queries steps in
           p' = {| session :=
                     set_messages
                       (ms ++ [user_message question (Now (clock p));
                               answer_message (PyStr output) (PyList queries)
                                 (PyInt (Z.of_nat (length steps)))
                                 (Now (Datatypes.S (clock p)))])
                       (session p);
                   calls :=
                     calls p
                     ++ [streamlit.chat_message "user";
                         streamlit.write (PyStr question);
                         streamlit.chat_message "assistant";
                         streamlit.spinner (analyzing w);
                         streamlit.write (PyStr output)]
                     ++ match queries with
                        | [] => []
                        | _ => streamlit.expander "🔍 View SQL Queries"
                               :: ((fun q => streamlit.code q "sql") <$> queries)
                        end;
                   clock := Datatypes.S (Datatypes.S (clock p));
                   system := s' |}
       | (Raise e, s') =>
           let error_msg := "I encountered an error: " +:+ e in
           p' = {| session :=
                     set_messages
                       (ms ++ [user_message question (Now (clock p));
                               error_message error_msg (Now (Datatypes.S (clock p)))])
                       (session p);
                   calls :=
                     calls p
                     ++ [streamlit.chat_message "user";
                         streamlit.write (PyStr question);
                         streamlit.chat_message "assistant";
                         streamlit.spinner (analyzing w);
                         streamlit.error error_msg];
                   clock := Datatypes.S (Datatypes.S (clock p));
                   system := s' |}
       end.
Proof.
  intros Hms Hq.
  pose proof (query_outcome lc B question (system p)) as Hrun.
  rewrite <- Hq in Hrun.
  destruct (facade.attempt lc B question (system p)) as [[result|e] s'].
  - eexists. split; [|reflexivity].
    exact (process_user_query_success w I repr_pyval question p ms _ _ s' Hms Hrun).
  - eexists. split; [|reflexivity].
    exact (process_user_query_error w I repr_pyval question p ms e s' Hms Hrun).
Qed.

(** X27: once the page is initialised, every question is answered by the
    agent made during the initialisation.  If [initialize_system] returned
    [True], the manager holds an agent, and on every later page with the
    same modules [process_user_query] runs that agent and nothing else: the
    modules are left as they were (no new agent, no new connection, no new
    model), and the reply is the answer of the agent, or "I encountered an
    error: " followed by what the agent raised. *)
Theorem initialized_page_answers (p p1 : page) :
  initialized (session p) = Some false ->
  initialize_agent I = SQLAgentManager.initialize_agent lc B get_tools ->
  (forall q, query_database I q = sql_agent.query lc B q) ->
  initialize_system w I repr_info p = (Ret true, p1) ->
  exists a,
    sql_agent._agent (sql_agent.manager (system p1)) = Some a
    /\ forall question (p2 : page) ms,
         system p2 = system p1 ->
         messages (session p2) = Some ms ->
         exists p3,
           process_user_query w I repr_pyval question p2 = (Ret tt, p3)
           /\ system p3 = system p1
           /\ messages (session p3)
              = Some (ms ++ [user_message question (Now (clock p2));
                             match agents.invoke a question with
                             | Ret result =>
                                 let steps :=
                                   default [] (agents.intermediate_steps result) in
                                 answer_message
                                   (PyStr (default "No response generated"
                                             (agents.output result)))
                                   (PyList (sql_agent.extract_sql_queries steps))
                                   (PyInt (Z.of_nat (length steps)))
                                   (Now (Datatypes.S (clock p2)))
                             | Raise e =>
                                 error_message ("I encountered an error: " +:+ e)
                                   (Now (Datatypes.S (clock p2)))
                             end]).
Proof.
  intros Hinit Hagent Hq Hrun.
  destruct (initialize_system_run w I repr_info p Hinit)
    as (b & p' & Hrun' & _ & _ & Hb & _).
  rewrite Hrun in Hrun'. injection Hrun' as <- <-.
  destruct (proj1 Hb eq_refl)
    as (_ & d & s1 & l & s2 & r & s3 & _ & _ & _ & _ & Ha & Hs & Hs3).
  rewrite Hagent in Ha.
  destruct (initialize_agent_success lc B get_tools s2 r s3 Ha Hs) as (a & _ & Hcached).
  rewrite <- Hs3 in Hcached.
  exists a. split; [done|]. intros question p2 ms Hp2 Hms.
  pose proof (query_outcome lc B question (system p2)) as Hquery.
  rewrite <- Hq in Hquery. unfold facade.attempt in Hquery. unfold_M.
  rewrite Hp2 in Hquery.
  rewrite (create_agent_cached lc B (system p1) a Hcached) in Hquery.
  rewrite <- Hp2 in Hquery.
  destruct (agents.invoke a question) as [result|e].
  - rewrite (process_user_query_success w I repr_pyval question p2 ms _ _ _ Hms Hquery).
    eexists. split; [reflexivity|]. by split.
  - rewrite (process_user_query_error w I repr_pyval question p2 ms _ _ Hms Hquery).
    eexists. split; [reflexivity|]. by split.
Qed.

End PagesOfTheAgent.

(** ** The pages on concrete collaborators *)

(** A question on the page that has just been opened, the warehouse being
    out of reach. *)
Lemma process_user_query_two_messages_witness :
  exists reply p',
    page.process_user_query main.wording
      (setups.imports setups.configured scenario.unreachable setups.lists_tables)
      setups.repr_pyval "List all tables" setups.opened = (Ret tt, p')
    /\ page.messages (page.session p')
       = Some ([] ++ [page.user_message "List all tables" (page.Now 0); reply])
    /\ reply !! "role" = Some (page.Val (PyStr "assistant"))
    /\ reply !! "timestamp" = Some (page.Now 1)
    /\ is_Some (reply !! "content")
    /\ page.initialized (page.session p') = Some false
    /\ page.db_status (page.session p') = Some None
    /\ page.llm_status (page.session p') = Some None
    /\ page.agent_status (page.session p') = Some None
    /\ page.system p'
       = (page.query_database
            (setups.imports setups.configured scenario.unreachable setups.lists_tables)
            "List all tables" main.start).2.
Proof.
  exact (process_user_query_two_messages main.wording
           (setups.imports setups.configured scenario.unreachable setups.lists_tables)
           setups.repr_pyval "List all tables" setups.opened [] eq_refl).
Defined.

(** The same question with the warehouse in reach. *)
Lemma process_user_query_reply_witness :
  (page.process_user_query main.wording
     (setups.imports setups.configured scenario.reachable setups.lists_tables)
     setups.repr_pyval "List all tables" setups.opened).1 = Ret tt.
Proof.
  destruct (process_user_query_reply setups.lists_tables
              (main.backend scenario.reachable setups.configured setups.vertex)
              main.wording
              (setups.imports setups.configured scenario.reachable setups.lists_tables)
              setups.repr_pyval "List all tables" setups.opened []
              eq_refl (fun q => eq_refl)) as (p' & Hrun & _).
  exact (f_equal fst Hrun).
Defined.

(** The page that has just been opened, with everything in reach. *)
Lemma initialize_system_gate_witness :
  exists b p',
    page.initialize_system main.wording
      (setups.imports setups.configured scenario.reachable setups.lists_tables)
      setups.repr_info setups.opened = (Ret b, p')
    /\ page.initialized (page.session p') = Some b.
Proof.
  destruct (initialize_system_gate main.wording
              (setups.imports setups.configured scenario.reachable setups.lists_tables)
              setups.repr_info setups.opened eq_refl) as (b & p' & Hrun & Hb & _).
  exists b, p'. by split.
Defined.

(** The warehouse out of reach: the model manager is not initialised and
    no agent is made. *)
Lemma initialize_system_stops_witness :
  let I := setups.imports setups.configured scenario.unreachable setups.lists_tables in
  let p' := (page.initialize_system main.wording I setups.repr_info setups.opened).2 in
  page.system p' = (page.initialize_database I main.start).2
  /\ page.llm_status (page.session p') = Some None
  /\ page.agent_status (page.session p') = Some None.
Proof.
  intros I p'.
  refine (proj1 (proj2 (initialize_system_stops main.wording I setups.repr_info
                          setups.opened false p' eq_refl eq_refl))
            eq_refl _ _ eq_refl _).
  intros d [= <-]. vm_compute. discriminate.
Defined.

(** A second run of the script, with nothing in reach any more. *)
Lemma initialize_system_once_witness :
  let first :=
    (page.initialize_session_state
     ≫= fun _ => page.initialize_system main.wording
                   (setups.imports setups.configured scenario.reachable
                      setups.lists_tables) setups.repr_info) setups.blank in
  first.1 = Ret true
  /\ (page.initialize_session_state
      ≫= fun _ => page.initialize_system main.wording
                    (setups.imports setups.cfg scenario.unreachable setups.no_toolkit)
                    setups.repr_info) first.2
     = (Ret true, first.2).
Proof.
  intros first. split; [reflexivity|].
  exact (proj2 (initialize_system_once main.wording
                  (setups.imports setups.configured scenario.reachable
                     setups.lists_tables) setups.repr_info setups.blank)
           first.2 eq_refl
           (setups.imports setups.cfg scenario.unreachable setups.no_toolkit)).
Defined.

(** After the initialisation, a question with nothing in reach any more is
    still answered by the agent. *)
Lemma initialized_page_answers_witness :
  let I := setups.imports setups.configured scenario.reachable setups.lists_tables in
  let p1 := (page.initialize_system main.wording I setups.repr_info setups.opened).2 in
  exists a,
    sql_agent._agent (sql_agent.manager (page.system p1)) = Some a
    /\ exists p3,
         page.process_user_query main.wording I setups.repr_pyval
           "List all tables" p1 = (Ret tt, p3)
         /\ page.system p3 = page.system p1.
Proof.
  intros I p1.
  destruct (initialized_page_answers setups.lists_tables
              (main.backend scenario.reachable setups.configured setups.vertex)
              main.wording I setups.repr_info setups.repr_pyval setups.two_tools
              setups.opened p1 eq_refl eq_refl (fun q => eq_refl) eq_refl)
    as (a & Hagent & Hanswers).
  exists a. split; [exact Hagent|].
  destruct (Hanswers "List all tables" p1 [] eq_refl eq_refl) as (p3 & Hrun & Hsys & _).
  exists p3. by split.
Defined.

(** The first visit with the configuration of an empty environment: the
    page shows what is missing, and stays uninitialised. *)
Example unconfigured_page :
  let run := page.initialize_system main.wording
               (setups.imports setups.cfg scenario.reachable setups.lists_tables)
               setups.repr_info setups.opened in
  run.1 = Ret false
  /\ page.calls run.2
     = [streamlit.spinner "Initializing system...";
        streamlit.error
          ("System initialization error: Missing required configuration: PROJECT_ID. "
           +:+ "Please set the appropriate environment variables.")]
  /\ page.initialized (page.session run.2) = Some false.
Proof. vm_compute. done. Qed.

(** "List all tables" on the initialised page: the reply carries the empty
    input of the list-tables action as a query, and the page shows it as a
    code block. *)
Example list_all_tables_on_the_page :
  let I := setups.imports setups.configured scenario.reachable setups.lists_tables in
  let p1 := (page.initialize_system main.wording I setups.repr_info setups.opened).2 in
  let p2 := (page.process_user_query main.wording I setups.repr_pyval
               "List all tables" p1).2 in
  page.messages (page.session p2)
  = Some [page.user_message "List all tables" (page.Now 0);
          page.answer_message (PyStr "The tables are vehicles and dealerships.")
            (PyList [InputStr ""]) (PyInt 1) (page.Now 1)]
  /\ drop 1 (page.calls p2)
     = [streamlit.chat_message "user";
        streamlit.write (PyStr "List all tables");
        streamlit.chat_message "assistant";
        streamlit.spinner "Analyzing your question and querying database...";
        streamlit.write (PyStr "The tables are vehicles and dealerships.");
        streamlit.expander "🔍 View SQL Queries";
        streamlit.code (InputStr "") "sql"].
Proof. vm_compute. done. Qed.
